(** * The message archive of openclaw-skills: store, event-log parser, scanner

    A shallow embedding of the ingest-and-archive engine of the
    [message-archive] skill:

    - [lib/archive-db.js]       the [MessageArchive] class (SQLite tables and
                                the operations on them),
    - [lib/event-parser.js]     the [EventParser] class,
    - [lib/backfill-parsers.js] the WhatsApp export parser,
    - [tools/archive-scan.js]   [scanEvents].

    Conventions of the embedding.

    - A JavaScript value that comes out of [JSON.parse] is a [json]; a value
      that may be [undefined] is a [jsval] ([None] is [undefined]).
    - A JavaScript number is an integer [Z]; a number that may be [NaN] is an
      [option Z] ([None] is [NaN]).  The numbers the engine computes with are
      epoch milliseconds and counters, all of them safe integers (at most
      2^53 in absolute value); [Number_toString] is the decimal writing
      JavaScript gives these.
    - Strings are byte strings: the UTF-8 encoding of the JavaScript string,
      where a surrogate that stands alone, which UTF-8 cannot write, takes
      the three bytes of its code (ED A0..BF 80..BF).
    - A function that can throw returns a [result].
    - JSON text held in a column is represented by the value it denotes, so
      [JSON.stringify] followed by [JSON.parse] is the identity on it;
      [stringify] gives the text back where its size is needed.
    - SQLite tables are lists of rows in insertion order; the constraints of
      the schema are checked by the functions that insert.  A statement that
      fails leaves the database as it was, the statements before it stay:
      an operation that can fail after it has written returns its outcome
      together with the database.
    - [Date.now()] is an argument [now] of the operation that reads it.
    - What the host runtime decides ([Date] parsing of strings, [JSON.parse]
      of a line, the FTS5 [MATCH] operator, the regular expressions of the
      WhatsApp parser) is a field of the class [Host]. *)

From Stdlib Require Import ZArith List String Ascii Bool Lia DecimalString DecimalZ.
From stdpp Require Import base strings gmap.
Import ListNotations.

#[local] Open Scope string_scope.
#[local] Open Scope list_scope.
#[local] Open Scope Z_scope.

(* ===================================================================== *)
(** * JavaScript values                                                   *)
(* ===================================================================== *)

Module JS.

(** Exceptions.  [SqliteError] carries the [code] property that
    [insertEvent] inspects. *)
Inductive exn : Type :=
| TypeError
| RangeError
| Error (msg : string)
| SqliteError (code : string).

Inductive result (A : Type) : Type :=
| Ok (a : A)
| Throw (e : exn).
Arguments Ok {A} a.
Arguments Throw {A} e.

Definition bind {A B} (r : result A) (k : A -> result B) : result B :=
  match r with
  | Ok a => k a
  | Throw e => Throw e
  end.

#[warnings="-register-all"]
Inductive json : Type :=
| JNull
| JBool (b : bool)
| JNum (n : Z)
| JStr (s : string)
| JArr (xs : list json)
| JObj (kvs : list (string * json)).

(** [None] is [undefined]. *)
Definition jsval : Type := option json.
Definition undefined : jsval := None.
Definition null : jsval := Some JNull.

(** ToBoolean. *)
Definition truthy (v : jsval) : bool :=
  match v with
  | None => false
  | Some JNull => false
  | Some (JBool b) => b
  | Some (JNum n) => negb (n =? 0)%Z
  | Some (JStr s) => negb (String.eqb s "")
  | Some (JArr _) => true
  | Some (JObj _) => true
  end.

(** [v || d]. *)
Definition or_else (v d : jsval) : jsval := if truthy v then v else d.

Fixpoint assoc {A} (k : string) (kvs : list (string * A)) : option A :=
  match kvs with
  | [] => None
  | (k', v) :: rest => if String.eqb k k' then Some v else assoc k rest
  end.

(** [v.k] for the property names the engine reads (none of them is a
    built-in property of a string, a number or an array). *)
Definition prop (v : jsval) (k : string) : result jsval :=
  match v with
  | None => Throw TypeError
  | Some JNull => Throw TypeError
  | Some (JObj kvs) => Ok (assoc k kvs)
  | Some _ => Ok None
  end.

(** [v === 'lit']. *)
Definition is_str (v : jsval) (lit : string) : bool :=
  match v with
  | Some (JStr s) => String.eqb s lit
  | _ => false
  end.

(** Number.prototype.toString for a safe integer (all its digits, no
    exponent); [None] is [NaN]. *)
Definition Number_toString (n : option Z) : string :=
  match n with
  | Some z => NilZero.string_of_int (Z.to_int z)
  | None => "NaN"
  end.

(** ToString, as a template literal applies it. *)
Fixpoint json_to_string (v : json) : string :=
  match v with
  | JNull => "null"
  | JBool true => "true"
  | JBool false => "false"
  | JNum n => Number_toString (Some n)
  | JStr s => s
  | JArr xs =>
      String.concat ","
        (List.map (fun x => match x with
                            | JNull => ""
                            | _ => json_to_string x
                            end) xs)
  | JObj _ => "[object Object]"
  end.

Definition to_string (v : jsval) : string :=
  match v with
  | None => "undefined"
  | Some j => json_to_string j
  end.

(** ** The characters of a string *)

Definition byte (c : ascii) : Z := Z.of_nat (nat_of_ascii c).

Definition byte_string (b : Z) : string :=
  String (ascii_of_nat (Z.to_nat b)) EmptyString.

(** The code points of the bytes: [pending] continuation bytes are still
    to come for the code point that [acc] accumulates. *)
Fixpoint code_points_from (s : string) (pending : nat) (acc : Z) : list Z :=
  match s with
  | EmptyString => []
  | String c rest =>
      let b := byte c in
      match pending with
      | O =>
          if b <? 128 then b :: code_points_from rest 0 0
          else if b <? 224 then code_points_from rest 1 (b - 192)
          else if b <? 240 then code_points_from rest 2 (b - 224)
          else code_points_from rest 3 (b - 240)
      | S O => (64 * acc + (b - 128)) :: code_points_from rest 0 0
      | S more => code_points_from rest more (64 * acc + (b - 128))
      end
  end.

Definition code_points (s : string) : list Z := code_points_from s 0 0.

(** The bytes of a code point. *)
Definition encode (cp : Z) : string :=
  if cp <? 128 then byte_string cp
  else if cp <? 2048 then
    byte_string (192 + cp / 64) +:+ byte_string (128 + cp mod 64)
  else if cp <? 65536 then
    byte_string (224 + cp / 4096) +:+ byte_string (128 + cp / 64 mod 64)
    +:+ byte_string (128 + cp mod 64)
  else
    byte_string (240 + cp / 262144) +:+ byte_string (128 + cp / 4096 mod 64)
    +:+ byte_string (128 + cp / 64 mod 64) +:+ byte_string (128 + cp mod 64).

(** The UTF-16 code units of a code point: itself, or the two surrogates
    of a code point beyond U+FFFF. *)
Definition code_units (cp : Z) : list Z :=
  if cp <? 65536 then [cp]
  else [55296 + (cp - 65536) / 1024; 56320 + (cp - 65536) mod 1024].

Definition is_surrogate (cp : Z) : bool := (55296 <=? cp) && (cp <=? 57343).

(** The values a [for ... of] loop visits: the elements of an array, the
    code points of a string; a truthy value that is not iterable throws. *)
Definition chars (s : string) : list json :=
  List.map (fun cp => JStr (encode cp)) (code_points s).

(** The indexed properties of a string: its UTF-16 code units. *)
Definition units (s : string) : list json :=
  List.map (fun u => JStr (encode u)) (List.flat_map code_units (code_points s)).

Definition iterate (v : jsval) : result (list json) :=
  match v with
  | Some (JArr xs) => Ok xs
  | Some (JStr s) => Ok (chars s)
  | _ => Throw TypeError
  end.

(** [Buffer.byteLength(s, 'utf8')]. *)
Definition byteLength (s : string) : Z := Z.of_nat (String.length s).

(** An object literal passed to [JSON.stringify]: a property whose value
    is [undefined] is left out of the text. *)
Fixpoint object (fields : list (string * jsval)) : list (string * json) :=
  match fields with
  | [] => []
  | (k, Some v) :: rest => (k, v) :: object rest
  | (_, None) :: rest => object rest
  end.

(** ** JSON.stringify *)

Definition hex_digit (n : Z) : ascii :=
  match n with
  | 0 => "0" | 1 => "1" | 2 => "2" | 3 => "3" | 4 => "4"
  | 5 => "5" | 6 => "6" | 7 => "7" | 8 => "8" | 9 => "9"
  | 10 => "a" | 11 => "b" | 12 => "c" | 13 => "d" | 14 => "e"
  | _ => "f"
  end%char.

Definition dquote : string := String (ascii_of_nat 34) EmptyString.

(** The escape of one code point: the short escapes, [\u] and four
    digits for the other control characters and for a surrogate that
    stands alone, the character itself otherwise. *)
Definition escape_char (n : Z) : string :=
  if (n =? 34)%Z then String "\"%char dquote
  else if (n =? 92)%Z then "\\"
  else if (n =? 8)%Z then "\b"
  else if (n =? 9)%Z then "\t"
  else if (n =? 10)%Z then "\n"
  else if (n =? 12)%Z then "\f"
  else if (n =? 13)%Z then "\r"
  else if (n <? 32)%Z then
    "\u00" +:+ String (hex_digit (n / 16)) (String (hex_digit (n mod 16)) "")
  else if is_surrogate n then
    "\u" +:+ String (hex_digit (n / 4096))
               (String (hex_digit (n / 256 mod 16))
                  (String (hex_digit (n / 16 mod 16))
                     (String (hex_digit (n mod 16)) "")))
  else encode n.

Definition escape (s : string) : string :=
  String.concat "" (List.map escape_char (code_points s)).

Definition quote (s : string) : string := dquote +:+ escape s +:+ dquote.

Fixpoint stringify (v : json) : string :=
  match v with
  | JNull => "null"
  | JBool true => "true"
  | JBool false => "false"
  | JNum n => Number_toString (Some n)
  | JStr s => quote s
  | JArr xs => "[" +:+ String.concat "," (List.map stringify xs) +:+ "]"
  | JObj kvs =>
      "{" +:+ String.concat ","
                (List.map (fun kv => match kv with
                                     | (k, x) => quote k +:+ ":" +:+ stringify x
                                     end) kvs) +:+ "}"
  end.

End JS.

(* ===================================================================== *)
(** * Numbers, dates and the host runtime                                 *)
(* ===================================================================== *)

Module Num.
Import JS.

Definition is_space (c : ascii) : bool :=
  let n := Z.of_nat (nat_of_ascii c) in
  (n =? 32)%Z || ((9 <=? n)%Z && (n <=? 13)%Z).

Definition is_digit (c : ascii) : bool :=
  let n := Z.of_nat (nat_of_ascii c) in
  (48 <=? n)%Z && (n <=? 57)%Z.

(** The white space of two and of three bytes: U+00A0; U+1680,
    U+2000 to U+200A, U+2028, U+2029, U+202F, U+205F, U+3000 and U+FEFF.
    With [is_space] this is the white space of [trim], of [\s] and of
    [parseInt]. *)
Definition is_space2 (c1 c2 : ascii) : bool :=
  (byte c1 =? 194)%Z && (byte c2 =? 160)%Z.

Definition is_space3 (c1 c2 c3 : ascii) : bool :=
  let b1 := byte c1 in
  let b2 := byte c2 in
  let b3 := byte c3 in
  ((b1 =? 225) && (b2 =? 154) && (b3 =? 128))%Z
  || ((b1 =? 226) && (b2 =? 128)
      && (((128 <=? b3) && (b3 <=? 138))
          || (b3 =? 168) || (b3 =? 169) || (b3 =? 175)))%Z
  || ((b1 =? 226) && (b2 =? 129) && (b3 =? 159))%Z
  || ((b1 =? 227) && (b2 =? 128) && (b3 =? 128))%Z
  || ((b1 =? 239) && (b2 =? 187) && (b3 =? 191))%Z.

Fixpoint skip_spaces (s : string) : string :=
  match s with
  | String c1 rest1 =>
      if is_space c1 then skip_spaces rest1
      else
        match rest1 with
        | String c2 rest2 =>
            if is_space2 c1 c2 then skip_spaces rest2
            else
              match rest2 with
              | String c3 rest3 =>
                  if is_space3 c1 c2 c3 then skip_spaces rest3 else s
              | EmptyString => s
              end
        | EmptyString => s
        end
  | EmptyString => s
  end.

Fixpoint digits_prefix (s : string) : string :=
  match s with
  | String c rest => if is_digit c then String c (digits_prefix rest) else ""
  | EmptyString => ""
  end.

Definition hex_value (c : ascii) : option Z :=
  let n := Z.of_nat (nat_of_ascii c) in
  if (48 <=? n)%Z && (n <=? 57)%Z then Some (n - 48)
  else if (97 <=? n)%Z && (n <=? 102)%Z then Some (n - 87)
  else if (65 <=? n)%Z && (n <=? 70)%Z then Some (n - 55)
  else None.

Fixpoint hex_prefix (acc : option Z) (s : string) : option Z :=
  match s with
  | String c rest =>
      match hex_value c with
      | Some d => hex_prefix (Some (16 * default 0 acc + d)) rest
      | None => acc
      end
  | EmptyString => acc
  end.

Definition decimal_prefix (s : string) : option Z :=
  match digits_prefix s with
  | EmptyString => None
  | ds => option_map Z.of_uint (NilEmpty.uint_of_string ds)
  end.

Definition unsigned_prefix (s : string) : option Z :=
  match s with
  | String "0" (String "x" rest) => hex_prefix None rest
  | String "0" (String "X" rest) => hex_prefix None rest
  | _ => decimal_prefix s
  end.

(** [parseInt(s)]: leading white space, a sign, then the longest prefix of
    digits; [None] is [NaN]. *)
Definition parseInt (s : string) : option Z :=
  match skip_spaces s with
  | String "-" rest => option_map Z.opp (unsigned_prefix rest)
  | String "+" rest => unsigned_prefix rest
  | rest => unsigned_prefix rest
  end.

(** [a <= b] on numbers: false when an operand is [NaN]. *)
Definition num_le (a b : option Z) : bool :=
  match a, b with
  | Some x, Some y => (x <=? y)%Z
  | _, _ => false
  end.

(** The range of time values of a [Date]. *)
Definition max_time : Z := 8640000000000000.

Definition time_clip (n : Z) : option Z :=
  if (Z.abs n <=? max_time)%Z then Some n else None.

Fixpoint zeros (n : nat) : string :=
  match n with
  | O => ""
  | S k => String "0" (zeros k)
  end.

Definition pad (width : nat) (n : Z) : string :=
  let s := Number_toString (Some n) in
  zeros (width - String.length s) +:+ s.

(** The civil date of a day number counted from 1970-01-01. *)
Definition civil_from_days (days : Z) : Z * Z * Z :=
  let z := days + 719468 in
  let era := z / 146097 in
  let doe := z - era * 146097 in
  let yoe := (doe - doe / 1460 + doe / 36524 - doe / 146096) / 365 in
  let doy := doe - (365 * yoe + yoe / 4 - yoe / 100) in
  let mp := (5 * doy + 2) / 153 in
  let d := doy - (153 * mp + 2) / 5 + 1 in
  let m := if (mp <? 10)%Z then mp + 3 else mp - 9 in
  let y := yoe + era * 400 + (if (m <=? 2)%Z then 1 else 0) in
  (y, m, d).

Definition iso_year (y : Z) : string :=
  if (0 <=? y)%Z && (y <=? 9999)%Z then pad 4 y
  else (if (y <? 0)%Z then "-" else "+") +:+ pad 6 (Z.abs y).

(** [new Date(t).toISOString()]; an invalid date throws a RangeError. *)
Definition toISOString (t : option Z) : result string :=
  match t with
  | None => Throw RangeError
  | Some t =>
      match time_clip t with
      | None => Throw RangeError
      | Some t =>
          let days := t / 86400000 in
          let ms := t mod 86400000 in
          let '(y, m, d) := civil_from_days days in
          Ok (iso_year y +:+ "-" +:+ pad 2 m +:+ "-" +:+ pad 2 d +:+ "T"
              +:+ pad 2 (ms / 3600000) +:+ ":"
              +:+ pad 2 (ms / 60000 mod 60) +:+ ":"
              +:+ pad 2 (ms / 1000 mod 60) +:+ "."
              +:+ pad 3 (ms mod 1000) +:+ "Z")
      end
  end.

(** What the runtime decides. *)
Class Host : Type := {
  (** [Date.parse(s)]: the time value a date string denotes, [None] for an
      invalid date.  Outside the ISO format the reading is left to the
      implementation by the language. *)
  Date_parse : string -> option Z;
  (** [JSON.parse(line)]; [None] is a SyntaxError. *)
  JSON_parse : string -> option json;
  (** [content_text MATCH query] of the FTS5 index, on the indexed text of
      a row. *)
  fts_match : string -> option string -> bool
}.

(** [new Date(v).getTime()]. *)
Definition Date_getTime `{Host} (v : jsval) : option Z :=
  match v with
  | None => None
  | Some JNull => Some 0
  | Some (JBool b) => Some (if b then 1 else 0)
  | Some (JNum n) => time_clip n
  | Some (JStr s) => Date_parse s
  | Some j => Date_parse (json_to_string j)
  end.

End Num.

(* ===================================================================== *)
(** * SHA-256 ([crypto.createHash('sha256')])                             *)
(* ===================================================================== *)

Module Sha256.

Definition w32 (x : Z) : Z := x mod 4294967296.
Definition add32 (x y : Z) : Z := w32 (x + y).
Definition rotr (n x : Z) : Z :=
  Z.lor (Z.shiftr x n) (w32 (Z.shiftl x (32 - n))).
Definition not32 (x : Z) : Z := 4294967295 - x.

Definition Ch (x y z : Z) : Z := Z.lxor (Z.land x y) (Z.land (not32 x) z).
Definition Maj (x y z : Z) : Z :=
  Z.lxor (Z.lxor (Z.land x y) (Z.land x z)) (Z.land y z).
Definition Sigma0 (x : Z) : Z :=
  Z.lxor (Z.lxor (rotr 2 x) (rotr 13 x)) (rotr 22 x).
Definition Sigma1 (x : Z) : Z :=
  Z.lxor (Z.lxor (rotr 6 x) (rotr 11 x)) (rotr 25 x).
Definition sigma0 (x : Z) : Z :=
  Z.lxor (Z.lxor (rotr 7 x) (rotr 18 x)) (Z.shiftr x 3).
Definition sigma1 (x : Z) : Z :=
  Z.lxor (Z.lxor (rotr 17 x) (rotr 19 x)) (Z.shiftr x 10).

(** The first [n] primes, by trial division. *)
Fixpoint has_divisor (ps : list Z) (n : Z) : bool :=
  match ps with
  | [] => false
  | p :: rest => (n mod p =? 0) || has_divisor rest n
  end.

Fixpoint primes_from (fuel : nat) (n : Z) (count : nat) (found : list Z)
  : list Z :=
  match fuel, count with
  | O, _ => List.rev found
  | _, O => List.rev found
  | S fuel', S count' =>
      if has_divisor found n then primes_from fuel' (n + 1) count found
      else primes_from fuel' (n + 1) count' (n :: found)
  end.

Definition primes (count : nat) : list Z := primes_from 400 2 count [].

(** The integer cube root, one bit at a time. *)
Fixpoint cube_root_bits (bits : nat) (n r : Z) : Z :=
  match bits with
  | O => r
  | S k =>
      let c := r + Z.shiftl 1 (Z.of_nat k) in
      cube_root_bits k n (if c * c * c <=? n then c else r)
  end.

Definition cube_root (n : Z) : Z := cube_root_bits 40 n 0.

(** The round constants: the first 32 bits of the fractional parts of the
    cube roots of the first 64 primes. *)
Definition K : list Z :=
  Eval vm_compute in
    List.map (fun p => w32 (cube_root (p * Z.shiftl 1 96))) (primes 64).

(** The initial hash value: the first 32 bits of the fractional parts of
    the square roots of the first 8 primes. *)
Definition H0 : list Z :=
  Eval vm_compute in
    List.map (fun p => w32 (Z.sqrt (p * Z.shiftl 1 64))) (primes 8).

Fixpoint bytes_of_string (s : string) : list Z :=
  match s with
  | EmptyString => []
  | String c rest => Z.of_nat (nat_of_ascii c) :: bytes_of_string rest
  end.

(** The message followed by the bit 1, zeros up to 56 modulo 64 bytes, and
    the bit length on eight bytes. *)
Definition padding (msg : list Z) : list Z :=
  let len := Z.of_nat (List.length msg) in
  let zeros := Z.to_nat ((55 - len) mod 64) in
  let bits := 8 * len in
  msg ++ [128] ++ List.repeat 0 zeros
      ++ List.map (fun i => Z.shiftr bits (8 * i) mod 256) [7; 6; 5; 4; 3; 2; 1; 0].

Fixpoint words (n : nat) (bs : list Z) : list Z :=
  match n, bs with
  | S k, b0 :: b1 :: b2 :: b3 :: rest =>
      (b0 * 16777216 + b1 * 65536 + b2 * 256 + b3) :: words k rest
  | _, _ => []
  end.

(** The message schedule: [w] holds the words computed so far, newest
    first. *)
Fixpoint schedule (n : nat) (w : list Z) : list Z :=
  match n with
  | O => w
  | S k =>
      let at_ i := List.nth i w 0 in
      schedule k
        (add32 (add32 (sigma1 (at_ 1%nat)) (at_ 6%nat))
               (add32 (sigma0 (at_ 14%nat)) (at_ 15%nat)) :: w)
  end.

Definition round (st : list Z) (kw : Z * Z) : list Z :=
  match st with
  | [a; b; c; d; e; f; g; h] =>
      let t1 := add32 (add32 (add32 h (Sigma1 e)) (add32 (Ch e f g) (fst kw))) (snd kw) in
      let t2 := add32 (Sigma0 a) (Maj a b c) in
      [add32 t1 t2; a; b; c; add32 d t1; e; f; g]
  | _ => st
  end.

Fixpoint zip_add (xs ys : list Z) : list Z :=
  match xs, ys with
  | x :: xs', y :: ys' => add32 x y :: zip_add xs' ys'
  | _, _ => []
  end.

Definition compress (h : list Z) (block : list Z) : list Z :=
  let w := List.rev (schedule 48 (List.rev (words 16 block))) in
  zip_add h (List.fold_left round (List.combine K w) h).

Fixpoint blocks (n : nat) (h : list Z) (bs : list Z) : list Z :=
  match n with
  | O => h
  | S k => blocks k (compress h (List.firstn 64 bs)) (List.skipn 64 bs)
  end.

Definition digest (msg : list Z) : list Z :=
  let p := padding msg in
  blocks (List.length p / 64) H0 p.

Fixpoint hex (digits : nat) (x : Z) : string :=
  match digits with
  | O => ""
  | S k => hex k (x / 16) +:+ String (JS.hex_digit (x mod 16)) ""
  end.

(** [createHash('sha256').update(s).digest('hex')]. *)
Definition sha256_hex (s : string) : string :=
  String.concat "" (List.map (hex 8) (digest (bytes_of_string s))).

End Sha256.

(* ===================================================================== *)
(** * lib/event-parser.js                                                 *)
(* ===================================================================== *)

Notation "'let*' x ':=' e 'in' k" :=
  (JS.bind e (fun x => k))
  (at level 10, x name, e at level 100, k at level 200).

(** The objects the parser emits. *)
Module Event.
Import JS.

Record Usage : Type := {
  input_tokens : jsval;
  output_tokens : jsval;
  cache_read_tokens : jsval;
  cache_write_tokens : jsval;
  total_tokens : jsval;
  input_cost : jsval;
  output_cost : jsval;
  cache_read_cost : jsval;
  cache_write_cost : jsval;
  total_cost : jsval
}.

Record t : Type := {
  event_id : jsval;
  parent_event_id : jsval;
  session_id : jsval;
  event_type : string;
  event_subtype : jsval;
  timestamp : option Z;
  content_json : json;
  role : jsval;
  tool_name : jsval;
  model_provider : jsval;
  model_id : jsval;
  is_error : Z;
  (* the fields for the thinking_blocks and usage_stats tables;
     [None] when the object does not carry them *)
  _thinking_content : option string;
  _thinking_signature : jsval;
  _content_size : option Z;
  _usage : option Usage
}.

Definition set_session_id (e : t) (sid : jsval) : t :=
  {| event_id := event_id e; parent_event_id := parent_event_id e;
     session_id := sid;
     event_type := event_type e; event_subtype := event_subtype e;
     timestamp := timestamp e; content_json := content_json e;
     role := role e; tool_name := tool_name e;
     model_provider := model_provider e; model_id := model_id e;
     is_error := is_error e;
     _thinking_content := _thinking_content e;
     _thinking_signature := _thinking_signature e;
     _content_size := _content_size e; _usage := _usage e |}.

End Event.

Module EventParser.
Import JS Num.

Section Parser.
Context `{Host}.

(** An emitted object without the special fields. *)
Definition plain (id parent sid : jsval) (ty : string) (sub : jsval)
    (ts : option Z) (content : json)
    (role tool provider model : jsval) (err : Z) : Event.t :=
  {| Event.event_id := id; Event.parent_event_id := parent;
     Event.session_id := sid; Event.event_type := ty;
     Event.event_subtype := sub; Event.timestamp := ts;
     Event.content_json := content; Event.role := role;
     Event.tool_name := tool; Event.model_provider := provider;
     Event.model_id := model; Event.is_error := err;
     Event._thinking_content := None; Event._thinking_signature := undefined;
     Event._content_size := None; Event._usage := None |}.

Definition parseSessionEvent (raw : jsval) : result Event.t :=
  let* id := prop raw "id" in
  let* ts := prop raw "timestamp" in
  let* version := prop raw "version" in
  let* cwd := prop raw "cwd" in
  Ok (plain id null id "session" null (Date_getTime ts)
        (JObj (object [("version", version); ("cwd", cwd)]))
        null null null null 0).

Definition parseModelChangeEvent (raw : jsval) : result Event.t :=
  let* id := prop raw "id" in
  let* parentId := prop raw "parentId" in
  let* ts := prop raw "timestamp" in
  let* provider := prop raw "provider" in
  let* modelId := prop raw "modelId" in
  Ok (plain id (or_else parentId null) null "model_change" null
        (Date_getTime ts)
        (JObj (object [("provider", provider); ("modelId", modelId)]))
        null null provider modelId 0).

Definition parseThinkingLevelEvent (raw : jsval) : result Event.t :=
  let* id := prop raw "id" in
  let* parentId := prop raw "parentId" in
  let* ts := prop raw "timestamp" in
  let* level := prop raw "thinkingLevel" in
  Ok (plain id (or_else parentId null) null "thinking_level_change" null
        (Date_getTime ts)
        (JObj (object [("thinkingLevel", level)]))
        null null null null 0).

Definition parseCustomEvent (raw : jsval) : result Event.t :=
  let* id := prop raw "id" in
  let* parentId := prop raw "parentId" in
  let* customType := prop raw "customType" in
  let* ts := prop raw "timestamp" in
  let* data := prop raw "data" in
  Ok (plain id (or_else parentId null) null "custom"
        (or_else customType null) (Date_getTime ts)
        (JObj (object [("customType", customType); ("data", data)]))
        null null null null 0).

(** The [tool_call] object of a [toolCall] / [toolUse] block. *)
Definition tool_call_event (rawId : jsval) (ts : option Z) (block : jsval)
  : result Event.t :=
  let* bid := prop block "id" in
  let* name := prop block "name" in
  let* arguments := prop block "arguments" in
  let* input := prop block "input" in
  Ok (plain (Some (JStr (to_string rawId +:+ "_tool_" +:+ to_string bid)))
        rawId null "tool_call" null ts
        (JObj (object [("id", bid); ("name", name);
                       ("arguments", or_else arguments input)]))
        null name null null 0).

(** The [thinking_block] object of a [thinking] block;
    [Buffer.byteLength] throws on a text that is not a string. *)
Definition thinking_event (rawId : jsval) (ts : option Z) (block : jsval)
  : result Event.t :=
  let* thinking := prop block "thinking" in
  let* signature := prop block "thinkingSignature" in
  match or_else thinking (Some (JStr "")) with
  | Some (JStr thinkingContent) =>
      let thinkingSize := byteLength thinkingContent in
      Ok {| Event.event_id := Some (JStr (to_string rawId +:+ "_thinking"));
            Event.parent_event_id := rawId;
            Event.session_id := null;
            Event.event_type := "thinking_block";
            Event.event_subtype := null;
            Event.timestamp := ts;
            Event.content_json :=
              JObj [("type", JStr "thinking");
                    ("has_signature", JBool (truthy signature));
                    ("size_bytes", JNum thinkingSize)];
            Event.role := null; Event.tool_name := null;
            Event.model_provider := null; Event.model_id := null;
            Event.is_error := 0;
            Event._thinking_content := Some thinkingContent;
            Event._thinking_signature := or_else signature null;
            Event._content_size := Some thinkingSize;
            Event._usage := None |}
  | _ => Throw TypeError
  end.

(** The body of the loop over [msg.content]. *)
Definition block_events (rawId : jsval) (ts : option Z) (block : json)
  : result (list Event.t) :=
  let* ty := prop (Some block) "type" in
  let* calls :=
    if is_str ty "toolCall" || is_str ty "toolUse"
    then let* e := tool_call_event rawId ts (Some block) in Ok [e]
    else Ok [] in
  let* thoughts :=
    if is_str ty "thinking"
    then let* e := thinking_event rawId ts (Some block) in Ok [e]
    else Ok [] in
  Ok (calls ++ thoughts).

Fixpoint content_events (rawId : jsval) (ts : option Z) (blocks : list json)
  : result (list Event.t) :=
  match blocks with
  | [] => Ok []
  | block :: rest =>
      let* evs := block_events rawId ts block in
      let* more := content_events rawId ts rest in
      Ok (evs ++ more)
  end.

Definition usage_event (rawId : jsval) (ts : option Z) (msg usage : jsval)
  : result Event.t :=
  let* provider := prop msg "provider" in
  let* model := prop msg "model" in
  let* ucost := prop usage "cost" in
  let cost := or_else ucost (Some (JObj [])) in
  let zero := Some (JNum 0) in
  let* input := prop usage "input" in
  let* output := prop usage "output" in
  let* cacheRead := prop usage "cacheRead" in
  let* cacheWrite := prop usage "cacheWrite" in
  let* totalTokens := prop usage "totalTokens" in
  let* cinput := prop cost "input" in
  let* coutput := prop cost "output" in
  let* ccacheRead := prop cost "cacheRead" in
  let* ccacheWrite := prop cost "cacheWrite" in
  let* ctotal := prop cost "total" in
  match usage with
  | None => Throw TypeError
  | Some u =>
      Ok {| Event.event_id := Some (JStr (to_string rawId +:+ "_usage"));
            Event.parent_event_id := rawId;
            Event.session_id := null;
            Event.event_type := "usage_stats";
            Event.event_subtype := null;
            Event.timestamp := ts;
            Event.content_json := u;
            Event.role := null; Event.tool_name := null;
            Event.model_provider := or_else provider null;
            Event.model_id := or_else model null;
            Event.is_error := 0;
            Event._thinking_content := None;
            Event._thinking_signature := undefined;
            Event._content_size := None;
            Event._usage :=
              Some {| Event.input_tokens := or_else input zero;
                      Event.output_tokens := or_else output zero;
                      Event.cache_read_tokens := or_else cacheRead zero;
                      Event.cache_write_tokens := or_else cacheWrite zero;
                      Event.total_tokens := or_else totalTokens zero;
                      Event.input_cost := or_else cinput zero;
                      Event.output_cost := or_else coutput zero;
                      Event.cache_read_cost := or_else ccacheRead zero;
                      Event.cache_write_cost := or_else ccacheWrite zero;
                      Event.total_cost := or_else ctotal zero |} |}
  end.

(** [parseMessageEvent]: the main event, then the tool calls and thinking
    blocks in content order, then the usage event. *)
Definition parseMessageEvent (raw : jsval) : result (list Event.t) :=
  let* msg := prop raw "message" in
  let* rawTs := prop raw "timestamp" in
  let baseTimestamp := Date_getTime rawTs in
  let* role := prop msg "role" in
  let isToolResult := is_str role "toolResult" in
  let* rawId := prop raw "id" in
  let* parentId := prop raw "parentId" in
  let* toolName := prop msg "toolName" in
  let* provider := prop msg "provider" in
  let* model := prop msg "model" in
  let* isError := prop msg "isError" in
  match msg with
  | None => Throw TypeError
  | Some m =>
      let mainEvent :=
        plain rawId (or_else parentId null) null
          (if isToolResult then "tool_result" else "message") null
          baseTimestamp m role
          (if isToolResult then toolName else null)
          (or_else provider null) (or_else model null)
          (if isToolResult then (if truthy isError then 1 else 0) else 0) in
      let* content := prop msg "content" in
      let* fromContent :=
        if is_str role "assistant" && truthy content
        then let* blocks := iterate content in
             content_events rawId baseTimestamp blocks
        else Ok [] in
      let* usage := prop msg "usage" in
      let* fromUsage :=
        if is_str role "assistant" && truthy usage
        then let* e := usage_event rawId baseTimestamp msg usage in Ok [e]
        else Ok [] in
      Ok (mainEvent :: fromContent ++ fromUsage)
  end.

(** [parseEvent]: the switch on [rawEvent.type]. *)
Definition parseEvent (rawEvent : jsval) : result (list Event.t) :=
  let* ty := prop rawEvent "type" in
  if is_str ty "session" then
    let* e := parseSessionEvent rawEvent in Ok [e]
  else if is_str ty "model_change" then
    let* e := parseModelChangeEvent rawEvent in Ok [e]
  else if is_str ty "thinking_level_change" then
    let* e := parseThinkingLevelEvent rawEvent in Ok [e]
  else if is_str ty "custom" then
    let* e := parseCustomEvent rawEvent in Ok [e]
  else if is_str ty "message" then
    parseMessageEvent rawEvent
  else Ok [].

(** [line.trim()] is empty. *)
Definition is_blank (line : string) : bool :=
  String.eqb (skip_spaces line) "".

(** The body of the loop over the lines: the events one line adds.  An
    exception inside the [try] is caught and the line adds nothing. *)
Definition line_events (line : string) (sinceTimestamp : option Z)
  : list Event.t :=
  if is_blank line then []
  else
    match JSON_parse line with
    | None => []
    | Some rawEvent =>
        let attempt :=
          let* rawTs := prop (Some rawEvent) "timestamp" in
          let timestamp := Date_getTime rawTs in
          if num_le timestamp sinceTimestamp then Ok []
          else parseEvent (Some rawEvent) in
        match attempt with
        | Ok parsedEvents => parsedEvents
        | Throw _ => []
        end
    end.

(** [parseEvents]: [file] is the content of [sessionFilePath] as the lines
    [readline] yields, [None] when the file does not exist. *)
Definition parseEvents (file : option (list string))
    (sinceTimestamp : option Z) : result (list Event.t) :=
  match file with
  | None => Throw (Error "Session file not found")
  | Some lines =>
      Ok (List.fold_left
            (fun events line => events ++ line_events line sinceTimestamp)
            lines [])
  end.

End Parser.
End EventParser.

(* ===================================================================== *)
(** * lib/archive-db.js: the tables                                       *)
(* ===================================================================== *)

(** The object [insertMessage] receives.  A text property is [None] when
    it is [null] or [undefined]; [timestamp] is [None] when it is [NaN]. *)
Module Message.
Record t : Type := {
  message_id : option string;
  internal_id : option string;
  session_key : option string;
  session_id : option string;
  direction : option string;
  sender_id : option string;
  sender_name : option string;
  recipient_id : option string;
  recipient_name : option string;
  channel : option string;
  device_id : option string;
  content_type : option string;
  content_text : option string;
  content_json : option string;
  reply_to_id : option string;
  thread_id : option string;
  timestamp : option Z;
  edited_at : option Z;
  deleted_at : option Z;
  created_at : option Z
}.
End Message.

(** A row of [messages]; a column declared NOT NULL has no [option]. *)
Module MessageRow.
Record t : Type := {
  id : Z;
  message_id : string;
  internal_id : option string;
  session_key : string;
  session_id : option string;
  direction : string;
  sender_id : option string;
  sender_name : option string;
  recipient_id : option string;
  recipient_name : option string;
  channel : string;
  device_id : option string;
  content_type : string;
  content_text : option string;
  content_json : option string;
  content_hash : option string;
  reply_to_id : option string;
  thread_id : option string;
  timestamp : Z;
  edited_at : option Z;
  deleted_at : option Z;
  created_at : Z
}.

Definition set_content (r : t) (text : option string) (edited : option Z) : t :=
  {| id := id r; message_id := message_id r; internal_id := internal_id r;
     session_key := session_key r; session_id := session_id r;
     direction := direction r; sender_id := sender_id r;
     sender_name := sender_name r; recipient_id := recipient_id r;
     recipient_name := recipient_name r; channel := channel r;
     device_id := device_id r; content_type := content_type r;
     content_text := text;
     content_json := content_json r; content_hash := content_hash r;
     reply_to_id := reply_to_id r; thread_id := thread_id r;
     timestamp := timestamp r;
     edited_at := edited;
     deleted_at := deleted_at r; created_at := created_at r |}.

Definition set_deleted_at (r : t) (deleted : option Z) : t :=
  {| id := id r; message_id := message_id r; internal_id := internal_id r;
     session_key := session_key r; session_id := session_id r;
     direction := direction r; sender_id := sender_id r;
     sender_name := sender_name r; recipient_id := recipient_id r;
     recipient_name := recipient_name r; channel := channel r;
     device_id := device_id r; content_type := content_type r;
     content_text := content_text r;
     content_json := content_json r; content_hash := content_hash r;
     reply_to_id := reply_to_id r; thread_id := thread_id r;
     timestamp := timestamp r; edited_at := edited_at r;
     deleted_at := deleted;
     created_at := created_at r |}.
End MessageRow.

(** A row of [edits]. *)
Module EditRow.
Record t : Type := {
  id : Z;
  message_id : string;
  previous_content : string;
  edited_at : Z
}.
End EditRow.

(** A row of [events]. *)
Module EventRow.
Record t : Type := {
  id : Z;
  event_id : string;
  parent_event_id : option string;
  session_key : string;
  session_id : string;
  event_type : string;
  event_subtype : option string;
  timestamp : Z;
  created_at : Z;
  content_json : JS.json;
  role : option string;
  tool_name : option string;
  model_provider : option string;
  model_id : option string;
  is_error : Z;
  content_size : Z
}.
End EventRow.

(** A row of [thinking_blocks]. *)
Module ThinkingRow.
Record t : Type := {
  event_id : string;
  thinking_content : string;
  thinking_signature : option string;
  content_size : option Z;
  created_at : Z
}.
End ThinkingRow.

(** A row of [usage_stats]. *)
Module UsageRow.
Record t : Type := {
  event_id : string;
  input_tokens : JS.json;
  output_tokens : JS.json;
  cache_read_tokens : JS.json;
  cache_write_tokens : JS.json;
  total_tokens : JS.json;
  input_cost : JS.json;
  output_cost : JS.json;
  cache_read_cost : JS.json;
  cache_write_cost : JS.json;
  total_cost : JS.json;
  model_provider : option string;
  model_id : option string;
  timestamp : option Z
}.
End UsageRow.

(** The database.  [archive_state] maps a key to its value and
    [updated_at]; [foreign_keys] is the pragma.  The tables
    [attachments], [reactions] and [sessions] are neither read nor written
    by the operations below and are left out. *)
Record Store : Type := {
  messages : list MessageRow.t;
  edits : list EditRow.t;
  archive_state : gmap string (string * Z);
  events : list EventRow.t;
  thinking_blocks : list ThinkingRow.t;
  usage_stats : list UsageRow.t;
  foreign_keys : bool
}.

(** The database a fresh [new MessageArchive(path)] opens. *)
Definition empty_store : Store :=
  {| messages := []; edits := []; archive_state := ∅; events := [];
     thinking_blocks := []; usage_stats := []; foreign_keys := true |}.

Definition with_messages (s : Store) (ms : list MessageRow.t) : Store :=
  {| messages := ms; edits := edits s; archive_state := archive_state s;
     events := events s; thinking_blocks := thinking_blocks s;
     usage_stats := usage_stats s; foreign_keys := foreign_keys s |}.

Definition with_edits (s : Store) (es : list EditRow.t) : Store :=
  {| messages := messages s; edits := es; archive_state := archive_state s;
     events := events s; thinking_blocks := thinking_blocks s;
     usage_stats := usage_stats s; foreign_keys := foreign_keys s |}.

Definition with_archive_state (s : Store) (st : gmap string (string * Z))
  : Store :=
  {| messages := messages s; edits := edits s; archive_state := st;
     events := events s; thinking_blocks := thinking_blocks s;
     usage_stats := usage_stats s; foreign_keys := foreign_keys s |}.

Definition with_events (s : Store) (es : list EventRow.t) : Store :=
  {| messages := messages s; edits := edits s;
     archive_state := archive_state s;
     events := es; thinking_blocks := thinking_blocks s;
     usage_stats := usage_stats s; foreign_keys := foreign_keys s |}.

Definition with_thinking_blocks (s : Store) (ts : list ThinkingRow.t)
  : Store :=
  {| messages := messages s; edits := edits s;
     archive_state := archive_state s;
     events := events s; thinking_blocks := ts;
     usage_stats := usage_stats s; foreign_keys := foreign_keys s |}.

Definition with_usage_stats (s : Store) (us : list UsageRow.t) : Store :=
  {| messages := messages s; edits := edits s;
     archive_state := archive_state s;
     events := events s; thinking_blocks := thinking_blocks s;
     usage_stats := us; foreign_keys := foreign_keys s |}.

Definition with_foreign_keys (s : Store) (on : bool) : Store :=
  {| messages := messages s; edits := edits s;
     archive_state := archive_state s;
     events := events s; thinking_blocks := thinking_blocks s;
     usage_stats := usage_stats s; foreign_keys := on |}.

(* ===================================================================== *)
(** * lib/archive-db.js: class MessageArchive, messages                   *)
(* ===================================================================== *)

Module MessageArchive.
Import JS Num.

Definition UNIQUE : string := "SQLITE_CONSTRAINT_UNIQUE".
Definition NOTNULL : string := "SQLITE_CONSTRAINT_NOTNULL".
Definition CHECK : string := "SQLITE_CONSTRAINT_CHECK".
Definition FOREIGNKEY : string := "SQLITE_CONSTRAINT_FOREIGNKEY".

(** [x || null] on a text and on a number. *)
Definition nonempty (x : option string) : option string :=
  match x with
  | Some s => if String.eqb s "" then None else Some s
  | None => None
  end.

Definition nonzero (x : option Z) : option Z :=
  match x with
  | Some n => if n =? 0 then None else Some n
  | None => None
  end.

(** [x || ''] inside a template literal. *)
Definition or_empty (x : option string) : string := default "" x.

(** [column = ?] of SQL: never true on NULL. *)
Definition sql_eq (column : option string) (param : string) : bool :=
  match column with
  | Some c => String.eqb c param
  | None => false
  end.

(** The rowid an AUTOINCREMENT column gives the next row. *)
Definition next_rowid (ids : list Z) : Z :=
  1 + List.fold_right Z.max 0 ids.

Definition hashMessage (messageData : Message.t) : string :=
  let payload :=
    or_empty (Message.sender_id messageData) +:+ "|"
    +:+ Number_toString (Message.timestamp messageData) +:+ "|"
    +:+ or_empty (Message.content_text messageData) in
  Sha256.sha256_hex payload.

(** Level 1: exact [message_id] match. *)
Definition byId (s : Store) (messageData : Message.t) : bool :=
  match Message.message_id messageData with
  | Some mid =>
      existsb (fun r => String.eqb (MessageRow.message_id r) mid) (messages s)
  | None => false
  end.

(** Level 2: content hash match. *)
Definition byHash (s : Store) (messageData : Message.t) : bool :=
  let hash := hashMessage messageData in
  existsb (fun r => sql_eq (MessageRow.content_hash r) hash) (messages s).

(** Level 3: same sender, same content, timestamps less than a second
    apart; tried only when [sender_id] and [content_text] are truthy. *)
Definition fuzzy (s : Store) (messageData : Message.t) : bool :=
  match nonempty (Message.sender_id messageData),
        nonempty (Message.content_text messageData) with
  | Some sender, Some text =>
      match Message.timestamp messageData with
      | Some ts =>
          existsb (fun r =>
                     sql_eq (MessageRow.sender_id r) sender
                     && (Z.abs (MessageRow.timestamp r - ts) <? 1000)
                     && sql_eq (MessageRow.content_text r) text)
                  (messages s)
      | None => false
      end
  | _, _ => false
  end.

Definition isDuplicate (s : Store) (messageData : Message.t) : bool :=
  if byId s messageData then true
  else if byHash s messageData then true
  else fuzzy s messageData.

(** The INSERT of [insertMessage]: the NOT NULL and CHECK constraints of
    the columns, UNIQUE(message_id), and the foreign key of [reply_to_id]
    when the pragma is on.  [record] is the object with the defaults of
    the optional fields. *)
Definition insert_message_row (s : Store) (messageData : Message.t)
    (content_hash : string) (created_at : Z) : result (Z * Store) :=
  match Message.message_id messageData,
        Message.session_key messageData,
        Message.direction messageData,
        Message.channel messageData,
        Message.timestamp messageData with
  | Some message_id, Some session_key, Some direction, Some channel,
    Some timestamp =>
      let reply_to_id := nonempty (Message.reply_to_id messageData) in
      if negb (String.eqb direction "inbound" || String.eqb direction "outbound")
      then Throw (SqliteError CHECK)
      else if existsb (fun r => String.eqb (MessageRow.message_id r) message_id)
                      (messages s)
      then Throw (SqliteError UNIQUE)
      else if foreign_keys s
              && match reply_to_id with
                 | Some parent =>
                     negb (String.eqb parent message_id
                           || existsb (fun r => String.eqb (MessageRow.message_id r) parent)
                                      (messages s))
                 | None => false
                 end
      then Throw (SqliteError FOREIGNKEY)
      else
        let rowid := next_rowid (List.map MessageRow.id (messages s)) in
        let row :=
          {| MessageRow.id := rowid;
             MessageRow.message_id := message_id;
             MessageRow.internal_id := nonempty (Message.internal_id messageData);
             MessageRow.session_key := session_key;
             MessageRow.session_id := nonempty (Message.session_id messageData);
             MessageRow.direction := direction;
             MessageRow.sender_id := nonempty (Message.sender_id messageData);
             MessageRow.sender_name := nonempty (Message.sender_name messageData);
             MessageRow.recipient_id := nonempty (Message.recipient_id messageData);
             MessageRow.recipient_name := nonempty (Message.recipient_name messageData);
             MessageRow.channel := channel;
             MessageRow.device_id := nonempty (Message.device_id messageData);
             MessageRow.content_type :=
               default "text" (nonempty (Message.content_type messageData));
             MessageRow.content_text := nonempty (Message.content_text messageData);
             MessageRow.content_json := nonempty (Message.content_json messageData);
             MessageRow.content_hash := Some content_hash;
             MessageRow.reply_to_id := reply_to_id;
             MessageRow.thread_id := nonempty (Message.thread_id messageData);
             MessageRow.timestamp := timestamp;
             MessageRow.edited_at := nonzero (Message.edited_at messageData);
             MessageRow.deleted_at := nonzero (Message.deleted_at messageData);
             MessageRow.created_at := created_at |} in
        Ok (rowid, with_messages s (messages s ++ [row]))
  | _, _, _, _, _ => Throw (SqliteError NOTNULL)
  end.

(** [insertMessage(messageData, { skipIfExists })]; [skipIfExists = None]
    is an option left out (default [true]).  Returns the rowid, or [null]
    when the message is skipped. *)
Definition insertMessage (messageData : Message.t) (skipIfExists : option bool)
    (now : Z) (s : Store) : result (option Z * Store) :=
  if default true skipIfExists && isDuplicate s messageData
  then Ok (None, s)
  else
    let content_hash := hashMessage messageData in
    let created_at := default now (nonzero (Message.created_at messageData)) in
    let* r := insert_message_row s messageData content_hash created_at in
    Ok (Some (fst r), snd r).

(** The loop of [insertBatch]; an exception of [insertMessage] leaves the
    transaction function, which rolls back and rethrows. *)
Fixpoint insertBatch_loop (msgs : list Message.t) (now : Z) (s : Store)
    (inserted skipped : Z) : result (Z * Z * Store) :=
  match msgs with
  | [] => Ok (inserted, skipped, s)
  | msg :: rest =>
      let* r := insertMessage msg (Some true) now s in
      match fst r with
      | Some rowId =>
          if rowId =? 0 then insertBatch_loop rest now (snd r) inserted (skipped + 1)
          else insertBatch_loop rest now (snd r) (inserted + 1) skipped
      | None => insertBatch_loop rest now (snd r) inserted (skipped + 1)
      end
  end.

(** [insertBatch(messages)]: [(inserted, skipped)] and the database. *)
Definition insertBatch (msgs : list Message.t) (now : Z) (s : Store)
  : result (Z * Z * Store) :=
  insertBatch_loop msgs now s 0 0.

(** [updateMessage(messageId, newContent, editTimestamp)];
    [editTimestamp = None] is the argument left out. *)
Definition updateMessage (messageId : string) (newContent : string)
    (editTimestamp : option Z) (now : Z) (s : Store) : result Store :=
  let editTimestamp := default now editTimestamp in
  match List.find (fun r => String.eqb (MessageRow.message_id r) messageId)
                  (messages s) with
  | None => Ok s
  | Some current =>
      (* INSERT INTO edits: previous_content is NOT NULL *)
      match MessageRow.content_text current with
      | None => Throw (SqliteError NOTNULL)
      | Some previous =>
          let edit :=
            {| EditRow.id := next_rowid (List.map EditRow.id (edits s));
               EditRow.message_id := messageId;
               EditRow.previous_content := previous;
               EditRow.edited_at := editTimestamp |} in
          let s1 := with_edits s (edits s ++ [edit]) in
          (* UPDATE messages SET content_text, edited_at *)
          Ok (with_messages s1
                (List.map (fun r =>
                             if String.eqb (MessageRow.message_id r) messageId
                             then MessageRow.set_content r (Some newContent)
                                    (Some editTimestamp)
                             else r)
                          (messages s1)))
      end
  end.

(** [softDeleteMessage(messageId, timestamp)]. *)
Definition softDeleteMessage (messageId : string) (timestamp : option Z)
    (now : Z) (s : Store) : Store :=
  let timestamp := default now timestamp in
  with_messages s
    (List.map (fun r =>
                 if String.eqb (MessageRow.message_id r) messageId
                 then MessageRow.set_deleted_at r (Some timestamp)
                 else r)
              (messages s)).

(** The [filters] object of [queryMessages]; [None] is a property left
    out. *)
Record Filters : Type := {
  sessionKey : option string;
  channel : option string;
  senderId : option string;
  startTime : option Z;
  endTime : option Z;
  contentMatch : option string;
  limit : option Z;
  offset : option Z;
  includeDeleted : option bool
}.

(** ORDER BY timestamp DESC.  Every index the query can run on ends in
    [timestamp] and is read backwards, so that among rows of equal
    timestamp the row inserted last comes first: an insertion sort that
    puts a row before the rows of its timestamp. *)
Fixpoint insert_desc (r : MessageRow.t) (sorted : list MessageRow.t)
  : list MessageRow.t :=
  match sorted with
  | [] => [r]
  | x :: rest =>
      if MessageRow.timestamp x <=? MessageRow.timestamp r
      then r :: sorted
      else x :: insert_desc r rest
  end.

Definition order_desc (rows : list MessageRow.t) : list MessageRow.t :=
  List.fold_left (fun sorted r => insert_desc r sorted) rows [].

(** LIMIT ? OFFSET ?: a negative limit is no limit, a negative offset is
    zero. *)
Definition limit_offset {A} (lim off : Z) (rows : list A) : list A :=
  let rest := List.skipn (Z.to_nat off) rows in
  if lim <? 0 then rest else List.firstn (Z.to_nat lim) rest.

Section Query.
Context `{Host}.

(** The WHERE clause [queryMessages] builds: a filter is added when its
    value is truthy. *)
Definition where_clause (f : Filters) (r : MessageRow.t) : bool :=
  match nonempty (sessionKey f) with
  | Some k => String.eqb (MessageRow.session_key r) k
  | None => true
  end
  && match nonempty (channel f) with
     | Some c => String.eqb (MessageRow.channel r) c
     | None => true
     end
  && match nonempty (senderId f) with
     | Some sid => sql_eq (MessageRow.sender_id r) sid
     | None => true
     end
  && match nonzero (startTime f) with
     | Some t => t <=? MessageRow.timestamp r
     | None => true
     end
  && match nonzero (endTime f) with
     | Some t => MessageRow.timestamp r <=? t
     | None => true
     end
  && (if negb (default false (includeDeleted f))
      then match MessageRow.deleted_at r with
           | None => true
           | Some _ => false
           end
      else true)
  && match nonempty (contentMatch f) with
     | Some q => fts_match q (MessageRow.content_text r)
     | None => true
     end.

Definition queryMessages (f : Filters) (s : Store) : list MessageRow.t :=
  limit_offset (default 100 (limit f)) (default 0 (offset f))
    (order_desc (List.filter (where_clause f) (messages s))).

End Query.

(** [checkpoint(key, value)]; [value = None] reads. *)
Definition checkpoint (key : string) (value : option string) (now : Z)
    (s : Store) : option string * Store :=
  match value with
  | Some v =>
      (Some v, with_archive_state s (<[key := (v, now)]> (archive_state s)))
  | None => (fst <$> (archive_state s !! key), s)
  end.

(* --------------------------------------------------------------------- *)
(** ** Event archiving methods                                            *)
(* --------------------------------------------------------------------- *)

(** ** Binding a parameter

    better-sqlite3 binds a string as TEXT, a number as REAL, [null] and
    [undefined] as NULL, and throws a TypeError on a boolean, an array or
    an object, before the statement runs. *)

Fixpoint strip_zeros (ds : list Z) : list Z :=
  match ds with
  | [] => []
  | d :: rest =>
      match strip_zeros rest with
      | [] => if d =? 0 then [] else [d]
      | kept => d :: kept
      end
  end.

Fixpoint digits_of (fuel : nat) (n : Z) (acc : list Z) : list Z :=
  match fuel with
  | O => acc
  | S k => if n <? 10 then n :: acc else digits_of k (n / 10) (n mod 10 :: acc)
  end.

Definition digits_text (ds : list Z) : string :=
  String.concat "" (List.map (fun d => Number_toString (Some d)) ds).

(** The text SQLite makes of the REAL [n] that lands in a TEXT column
    (its format [%!.15g]): the digits and [.0] up to 15 digits, beyond
    that 15 significant digits, rounded, and an exponent. *)
Definition real_text (n : Z) : string :=
  let sign := if n <? 0 then "-" else "" in
  let a := Z.abs n in
  let ds := digits_of 400 a [] in
  let len := Z.of_nat (List.length ds) in
  if len <=? 15 then sign +:+ digits_text ds +:+ ".0"
  else
    let unit := 10 ^ (len - 15) in
    let q := (2 * a + unit) / (2 * unit) in
    let carried := 1000000000000000 <=? q in
    let q := if carried then q / 10 else q in
    let exponent := if carried then len else len - 1 in
    match digits_of 400 q [] with
    | [] => sign +:+ "0.0"
    | d :: rest =>
        sign +:+ digits_text [d] +:+ "."
        +:+ match strip_zeros rest with
            | [] => "0"
            | kept => digits_text kept
            end
        +:+ "e+" +:+ (if exponent <? 10 then "0" else "")
        +:+ Number_toString (Some exponent)
    end.

(** The value a TEXT column holds for a bound parameter, [None] for
    NULL. *)
Definition bind_text (v : jsval) : result (option string) :=
  match v with
  | None => Ok None
  | Some JNull => Ok None
  | Some (JStr s) => Ok (Some s)
  | Some (JNum n) => Ok (Some (real_text n))
  | Some _ => Throw TypeError
  end.

(** A parameter of a numeric column, as it is bound: a number, or a text
    (which the affinity of the column then reads as a number where it
    spells one). *)
Definition bind_number (v : jsval) : result json :=
  match v with
  | None => Ok JNull
  | Some JNull => Ok JNull
  | Some (JStr s) => Ok (JStr s)
  | Some (JNum n) => Ok (JNum n)
  | Some _ => Throw TypeError
  end.

(** The [options] of [insertEvent] and [insertEventBatch]; [None] is a
    property left out. *)
Record EventOptions : Type := {
  skipIfExists : option bool;
  sessionId : jsval;
  disableForeignKeys : option bool;
  verbose : option bool
}.

(** [SELECT id FROM events WHERE event_id = ?] finds a row; the bound
    value is compared as the text the column would hold, and NULL equals
    nothing. *)
Definition has_event (s : Store) (event_id : option string) : bool :=
  match event_id with
  | Some i => existsb (fun r => String.eqb (EventRow.event_id r) i) (events s)
  | None => false
  end.

(** Modelled from the spec: the DDL of the [events] table
    (message-archive-events-schema.sql) is not among the sources.  The
    constraints are the ones the troubleshooting guide and the
    specification give: [event_id TEXT UNIQUE NOT NULL],
    [session_id TEXT NOT NULL], a timestamp that must be present, and
    [FOREIGN KEY (parent_event_id) REFERENCES events(event_id)], enforced
    when the pragma is on.  The parameters are bound first, all of them,
    then the row is checked and written. *)
Definition insert_event_row (s : Store) (eventData : Event.t)
    (sessionKey : string) (now contentSize : Z) : result (Z * Store) :=
  let* event_id := bind_text (Event.event_id eventData) in
  let* parent := bind_text (or_else (Event.parent_event_id eventData) null) in
  let* session_id := bind_text (or_else (Event.session_id eventData) null) in
  let* event_subtype :=
    bind_text (or_else (Event.event_subtype eventData) null) in
  let* role := bind_text (or_else (Event.role eventData) null) in
  let* tool_name := bind_text (or_else (Event.tool_name eventData) null) in
  let* model_provider :=
    bind_text (or_else (Event.model_provider eventData) null) in
  let* model_id := bind_text (or_else (Event.model_id eventData) null) in
  match event_id, session_id, Event.timestamp eventData with
  | Some event_id, Some session_id, Some timestamp =>
      if has_event s (Some event_id) then Throw (SqliteError UNIQUE)
      else if foreign_keys s
              && match parent with
                 | Some p => negb (String.eqb p event_id || has_event s (Some p))
                 | None => false
                 end
      then Throw (SqliteError FOREIGNKEY)
      else
        let rowid := next_rowid (List.map EventRow.id (events s)) in
        let row :=
          {| EventRow.id := rowid;
             EventRow.event_id := event_id;
             EventRow.parent_event_id := parent;
             EventRow.session_key := sessionKey;
             EventRow.session_id := session_id;
             EventRow.event_type := Event.event_type eventData;
             EventRow.event_subtype := event_subtype;
             EventRow.timestamp := timestamp;
             EventRow.created_at := now;
             EventRow.content_json := Event.content_json eventData;
             EventRow.role := role;
             EventRow.tool_name := tool_name;
             EventRow.model_provider := model_provider;
             EventRow.model_id := model_id;
             EventRow.is_error := Event.is_error eventData;
             EventRow.content_size := contentSize |} in
        Ok (rowid, with_events s (events s ++ [row]))
  | _, _, _ => Throw (SqliteError NOTNULL)
  end.

(** Modelled from the spec: the DDL of [thinking_blocks] is not among the
    sources.  A ThinkingBlock is one-to-one with its event, so [event_id]
    is unique and present; [insertThinkingBlock] swallows the conflict of
    uniqueness and rethrows every other error. *)
Definition insertThinkingBlock (eventId : jsval) (content : string)
    (signature : jsval) (size : option Z) (now : Z) (s : Store)
  : result Store :=
  let* event_id := bind_text eventId in
  let* thinking_signature := bind_text (or_else signature null) in
  match event_id with
  | None => Throw (SqliteError NOTNULL)
  | Some event_id =>
      if existsb (fun r => String.eqb (ThinkingRow.event_id r) event_id)
                 (thinking_blocks s)
      then Ok s
      else
        Ok (with_thinking_blocks s
              (thinking_blocks s ++
               [{| ThinkingRow.event_id := event_id;
                   ThinkingRow.thinking_content := content;
                   ThinkingRow.thinking_signature := thinking_signature;
                   ThinkingRow.content_size := size;
                   ThinkingRow.created_at := now |}]))
  end.

(** [x || 0]. *)
Definition or_zero (v : jsval) : jsval := or_else v (Some (JNum 0)).

(** Modelled from the spec: the DDL of [usage_stats] is not among the
    sources.  A UsageStats row is one-to-one with its event, so [event_id]
    is unique and present; [insertUsageStats] swallows the conflict of
    uniqueness and rethrows every other error. *)
Definition insertUsageStats (eventId : jsval) (usage : Event.Usage)
    (provider modelId : jsval) (timestamp : option Z) (s : Store)
  : result Store :=
  let* event_id := bind_text eventId in
  let* input_tokens := bind_number (or_zero (Event.input_tokens usage)) in
  let* output_tokens := bind_number (or_zero (Event.output_tokens usage)) in
  let* cache_read_tokens :=
    bind_number (or_zero (Event.cache_read_tokens usage)) in
  let* cache_write_tokens :=
    bind_number (or_zero (Event.cache_write_tokens usage)) in
  let* total_tokens := bind_number (or_zero (Event.total_tokens usage)) in
  let* input_cost := bind_number (or_zero (Event.input_cost usage)) in
  let* output_cost := bind_number (or_zero (Event.output_cost usage)) in
  let* cache_read_cost :=
    bind_number (or_zero (Event.cache_read_cost usage)) in
  let* cache_write_cost :=
    bind_number (or_zero (Event.cache_write_cost usage)) in
  let* total_cost := bind_number (or_zero (Event.total_cost usage)) in
  let* model_provider := bind_text (or_else provider null) in
  let* model_id := bind_text (or_else modelId null) in
  match event_id with
  | None => Throw (SqliteError NOTNULL)
  | Some event_id =>
      if existsb (fun r => String.eqb (UsageRow.event_id r) event_id)
                 (usage_stats s)
      then Ok s
      else
        Ok (with_usage_stats s
              (usage_stats s ++
               [{| UsageRow.event_id := event_id;
                   UsageRow.input_tokens := input_tokens;
                   UsageRow.output_tokens := output_tokens;
                   UsageRow.cache_read_tokens := cache_read_tokens;
                   UsageRow.cache_write_tokens := cache_write_tokens;
                   UsageRow.total_tokens := total_tokens;
                   UsageRow.input_cost := input_cost;
                   UsageRow.output_cost := output_cost;
                   UsageRow.cache_read_cost := cache_read_cost;
                   UsageRow.cache_write_cost := cache_write_cost;
                   UsageRow.total_cost := total_cost;
                   UsageRow.model_provider := model_provider;
                   UsageRow.model_id := model_id;
                   UsageRow.timestamp := timestamp |}]))
  end.

(** The two special cases of [insertEvent] after the main INSERT: the
    row of a thinking block, then the row of the usage statistics; what
    the first of them to fail throws, and the database as the statements
    before it left it. *)
Definition insert_satellites (eventData : Event.t) (now : Z) (s : Store)
  : result unit * Store :=
  let thinking :=
    match Event._thinking_content eventData with
    | Some content =>
        if String.eqb (Event.event_type eventData) "thinking_block"
           && negb (String.eqb content "")
        then insertThinkingBlock (Event.event_id eventData) content
               (Event._thinking_signature eventData)
               (Event._content_size eventData) now s
        else Ok s
    | None => Ok s
    end in
  match thinking with
  | Throw e => (Throw e, s)
  | Ok s1 =>
      let usage :=
        match Event._usage eventData with
        | Some usage =>
            if String.eqb (Event.event_type eventData) "usage_stats"
            then insertUsageStats (Event.event_id eventData) usage
                   (Event.model_provider eventData) (Event.model_id eventData)
                   (Event.timestamp eventData) s1
            else Ok s1
        | None => Ok s1
        end in
      match usage with
      | Throw e => (Throw e, s1)
      | Ok s2 => (Ok tt, s2)
      end
  end.

(** The first statement of [insertEvent]: a session event without
    [session_id] takes its own id. *)
Definition fill_own_session (eventData : Event.t) : Event.t :=
  if negb (truthy (Event.session_id eventData))
     && String.eqb (Event.event_type eventData) "session"
  then Event.set_session_id eventData (Event.event_id eventData)
  else eventData.

(** The [catch] of [insertEvent]: a conflict of uniqueness under
    [skipIfExists] returns [null], every other error is thrown again. *)
Definition caught (skip : bool) (e : exn) : result (option Z) :=
  match e with
  | SqliteError code =>
      if String.eqb code UNIQUE && skip then Ok None else Throw e
  | _ => Throw e
  end.

(** [insertEvent(eventData, sessionKey, options)]: the rowid, or [null]
    when the event is skipped, or what it throws; and the database it
    leaves.  Inside the transaction of a batch the row of the main INSERT
    stays when a statement after it throws. *)
Definition insertEvent (eventData : Event.t) (sessionKey : string)
    (options : EventOptions) (now : Z) (s : Store)
  : result (option Z) * Store :=
  let skip := default true (skipIfExists options) in
  let eventData := fill_own_session eventData in
  let existing :=
    if skip
    then let* event_id := bind_text (Event.event_id eventData) in
         Ok (has_event s event_id)
    else Ok false in
  match existing with
  | Throw e => (Throw e, s)
  | Ok true => (Ok None, s)
  | Ok false =>
      let contentSize := byteLength (stringify (Event.content_json eventData)) in
      match insert_event_row s eventData sessionKey now contentSize with
      | Ok (rowid, s1) =>
          match insert_satellites eventData now s1 with
          | (Ok _, s2) => (Ok (Some rowid), s2)
          | (Throw e, s2) => (caught skip e, s2)
          end
      | Throw e => (caught skip e, s)
      end
  end.

Record BatchStats : Type := {
  inserted : Z;
  skipped : Z;
  errors : Z
}.

(** The transaction of [insertEventBatch]: the loop catches what
    [insertEvent] throws and goes on. *)
Fixpoint insertTransaction (evts : list Event.t) (sessionKey : string)
    (options : EventOptions) (now : Z) (s : Store) (stats : BatchStats)
  : BatchStats * Store :=
  match evts with
  | [] => (stats, s)
  | evt :: rest =>
      match insertEvent evt sessionKey options now s with
      | (Ok (Some _), s1) =>
          insertTransaction rest sessionKey options now s1
            {| inserted := inserted stats + 1; skipped := skipped stats;
               errors := errors stats |}
      | (Ok None, s1) =>
          insertTransaction rest sessionKey options now s1
            {| inserted := inserted stats; skipped := skipped stats + 1;
               errors := errors stats |}
      | (Throw _, s1) =>
          insertTransaction rest sessionKey options now s1
            {| inserted := inserted stats; skipped := skipped stats;
               errors := errors stats + 1 |}
      end
  end.

(** The session id of a batch: the option, else the [session_id] of the
    first session event, else [null]. *)
Definition batch_session_id (evts : list Event.t) (options : EventOptions)
  : jsval :=
  let sessionId := or_else (sessionId options) null in
  if truthy sessionId then sessionId
  else
    match List.find (fun e => String.eqb (Event.event_type e) "session") evts with
    | Some sessionEvent => Event.session_id sessionEvent
    | None => null
    end.

Definition fill_session_id (sessionId : jsval) (e : Event.t) : Event.t :=
  if truthy (Event.session_id e) then e else Event.set_session_id e sessionId.

(** [insertEventBatch(events, sessionKey, options)]. *)
Definition insertEventBatch (evts : list Event.t) (sessionKey : string)
    (options : EventOptions) (now : Z) (s : Store) : BatchStats * Store :=
  let sessionId := batch_session_id evts options in
  let evts := List.map (fill_session_id sessionId) evts in
  let disable := default false (disableForeignKeys options) in
  let s1 := if disable then with_foreign_keys s false else s in
  let '(stats, s2) :=
    insertTransaction evts sessionKey options now s1
      {| inserted := 0; skipped := 0; errors := 0 |} in
  (stats, if disable then with_foreign_keys s2 true else s2).

(** The [options] of [getSessionEvents]. *)
Record SessionEventsOptions : Type := {
  includeThinking : option bool;
  includeUsage : option bool;
  eventsStartTime : option Z;
  eventsEndTime : option Z;
  eventTypes : option (list string)
}.

(** A row [getSessionEvents] returns, with the satellite rows attached to
    it. *)
Record SessionEvent : Type := {
  row : EventRow.t;
  thinking : option ThinkingRow.t;
  usage : option UsageRow.t
}.

(** ORDER BY timestamp ASC: a stable insertion sort. *)
Fixpoint insert_asc (r : EventRow.t) (sorted : list EventRow.t)
  : list EventRow.t :=
  match sorted with
  | [] => [r]
  | x :: rest =>
      if EventRow.timestamp r <? EventRow.timestamp x
      then r :: sorted
      else x :: insert_asc r rest
  end.

Definition order_asc (rows : list EventRow.t) : list EventRow.t :=
  List.fold_left (fun sorted r => insert_asc r sorted) rows [].

Definition session_events_where (sessionId : string)
    (options : SessionEventsOptions) (r : EventRow.t) : bool :=
  String.eqb (EventRow.session_id r) sessionId
  && match nonzero (eventsStartTime options) with
     | Some t => t <=? EventRow.timestamp r
     | None => true
     end
  && match nonzero (eventsEndTime options) with
     | Some t => EventRow.timestamp r <=? t
     | None => true
     end
  && match eventTypes options with
     | Some (ty :: tys) =>
         existsb (String.eqb (EventRow.event_type r)) (ty :: tys)
     | _ => true
     end.

Definition getSessionEvents (sessionId : string)
    (options : SessionEventsOptions) (s : Store) : list SessionEvent :=
  let rows :=
    order_asc (List.filter (session_events_where sessionId options) (events s)) in
  List.map
    (fun evt =>
       {| row := evt;
          thinking :=
            if default false (includeThinking options)
               && String.eqb (EventRow.event_type evt) "thinking_block"
            then List.find (fun t => String.eqb (ThinkingRow.event_id t)
                                       (EventRow.event_id evt))
                           (thinking_blocks s)
            else None;
          usage :=
            if default true (includeUsage options)
               && String.eqb (EventRow.event_type evt) "usage_stats"
            then List.find (fun u => String.eqb (UsageRow.event_id u)
                                       (EventRow.event_id evt))
                           (usage_stats s)
            else None |})
    rows.

(** The array index a property name writes: a decimal number below
    2^32 - 1 in its canonical writing. *)
Definition array_index (k : string) : option Z :=
  match decimal_prefix k with
  | Some i =>
      if String.eqb (Number_toString (Some i)) k && (i <? 4294967295)
      then Some i else None
  | None => None
  end.

(** [k] is enumerated before [k']: the array indices come first, in
    ascending order, then the other names in the order of their
    creation. *)
Definition enumerated_before (k k' : string) : bool :=
  match array_index k, array_index k' with
  | Some i, Some i' => i <? i'
  | Some _, None => true
  | None, _ => false
  end.

Definition has_prop (k : string) (target : list (string * json)) : bool :=
  existsb (fun kv => String.eqb k (fst kv)) target.

(** [target[k] = v]: an existing property keeps its place, a new one
    takes the place of its name in the enumeration. *)
Fixpoint set_prop (k : string) (v : json) (target : list (string * json))
  : list (string * json) :=
  match target with
  | [] => [(k, v)]
  | (k', v') :: rest =>
      if String.eqb k k' then (k, v) :: rest
      else if enumerated_before k k' && negb (has_prop k rest)
      then (k, v) :: target
      else (k', v') :: set_prop k v rest
  end.

Fixpoint indexed (i : Z) (xs : list json) : list (string * json) :=
  match xs with
  | [] => []
  | x :: rest => (Number_toString (Some i), x) :: indexed (i + 1) rest
  end.

(** The own enumerable properties of a value. *)
Definition own_entries (source : json) : list (string * json) :=
  match source with
  | JObj kvs => kvs
  | JArr xs => indexed 0 xs
  | JStr s => indexed 0 (units s)
  | _ => []
  end.

(** [Object.assign(target, source)]. *)
Definition Object_assign (target : list (string * json)) (source : json)
  : list (string * json) :=
  List.fold_left (fun t kv => set_prop (fst kv) (snd kv) t)
                 (own_entries source) target.

Definition synthetic (event_type : string) : bool :=
  existsb (String.eqb event_type) ["tool_call"; "thinking_block"; "usage_stats"].

(** The object [exportSessionAsJsonl] rebuilds for one event. *)
Definition reconstruct (evt : EventRow.t) : result json :=
  let content := EventRow.content_json evt in
  let* iso := toISOString (Some (EventRow.timestamp evt)) in
  let reconstructed :=
    [("type", JStr (if String.eqb (EventRow.event_type evt) "tool_result"
                    then "message" else EventRow.event_type evt));
     ("id", JStr (EventRow.event_id evt));
     ("timestamp", JStr iso)] in
  let reconstructed :=
    match nonempty (EventRow.parent_event_id evt) with
    | Some parent => set_prop "parentId" (JStr parent) reconstructed
    | None => reconstructed
    end in
  Ok (JObj (Object_assign reconstructed content)).

Fixpoint reconstruct_all (evts : list SessionEvent) : result (list json) :=
  match evts with
  | [] => Ok []
  | evt :: rest =>
      if synthetic (EventRow.event_type (row evt)) then reconstruct_all rest
      else
        let* line := reconstruct (row evt) in
        let* lines := reconstruct_all rest in
        Ok (line :: lines)
  end.

(** The objects of the lines of [exportSessionAsJsonl], before
    [JSON.stringify]. *)
Definition exportSessionObjects (sessionId : string) (s : Store)
  : result (list json) :=
  reconstruct_all
    (getSessionEvents sessionId
       {| includeThinking := Some true; includeUsage := Some true;
          eventsStartTime := None; eventsEndTime := None;
          eventTypes := None |} s).

Definition newline : string := String (ascii_of_nat 10) EmptyString.


End MessageArchive.

(* ===================================================================== *)
(** * lib/backfill-parsers.js: class WhatsAppExportParser                 *)
(* ===================================================================== *)

Module WhatsAppExportParser.
Import JS Num.

(** What [parseLine] returns for a line that opens a message. *)
Record Parsed : Type := {
  date : string;
  time : string;
  sender : string;
  text : string
}.

Definition set_text (p : Parsed) (t : string) : Parsed :=
  {| date := date p; time := time p; sender := sender p; text := t |}.

(** [hay.includes(needle)]. *)
Fixpoint includes (needle hay : string) : bool :=
  if String.prefix needle hay then true
  else match hay with
       | EmptyString => false
       | String _ rest => includes needle rest
       end.

(** [s.replace(/\s+/g, '_')]: [in_run] is true after a white-space
    character. *)
Fixpoint replace_spaces (in_run : bool) (s : string) : string :=
  let space rest :=
    if in_run then replace_spaces true rest
    else String "_" (replace_spaces true rest) in
  match s with
  | EmptyString => ""
  | String c1 rest1 =>
      if is_space c1 then space rest1
      else
        match rest1 with
        | String c2 rest2 =>
            if is_space2 c1 c2 then space rest2
            else
              match rest2 with
              | String c3 rest3 =>
                  if is_space3 c1 c2 c3 then space rest3
                  else String c1 (replace_spaces false rest1)
              | EmptyString => String c1 (replace_spaces false rest1)
              end
        | EmptyString => String c1 (replace_spaces false rest1)
        end
  end.

Section Parser.
Context `{Host}.

(** The two regular expressions of [parseLine] are not embedded: the
    matcher is an argument of [parseExport]. *)
Variable parseLine : string -> option Parsed.

Definition normalizeMessage (parsed : Parsed) (now : Z) : Message.t :=
  let dateTimeStr := date parsed +:+ " " +:+ time parsed in
  let timestamp := Date_parse dateTimeStr in
  let has s := includes s (text parsed) in
  let detected :=
    if has "<Media omitted>" || has "image omitted" then ("image", "[Image]")
    else if has "video omitted" then ("video", "[Video]")
    else if has "audio omitted" || has "voice message" then ("audio", "[Audio]")
    else if has "document omitted" || has "attached:" then ("document", "[Document]")
    else if has "location:" then ("location", text parsed)
    else if has "sticker omitted" then ("sticker", "[Sticker]")
    else ("text", text parsed) in
  let contentType := fst detected in
  let contentText := snd detected in
  {| Message.message_id :=
       Some ("whatsapp_export_" +:+ Number_toString timestamp +:+ "_"
             +:+ replace_spaces false (sender parsed));
     Message.internal_id := None;
     Message.session_key := Some "imported:whatsapp:export";
     Message.session_id := None;
     Message.direction :=
       Some (if String.eqb (sender parsed) "You" then "outbound" else "inbound");
     Message.sender_id := None;
     Message.sender_name := Some (sender parsed);
     Message.recipient_id := None;
     Message.recipient_name := None;
     Message.channel := Some "whatsapp";
     Message.device_id := None;
     Message.content_type := Some contentType;
     Message.content_text := Some contentText;
     Message.content_json :=
       Some (stringify (JObj [("date", JStr (date parsed));
                              ("time", JStr (time parsed));
                              ("sender", JStr (sender parsed));
                              ("text", JStr (text parsed))]));
     Message.reply_to_id := None;
     Message.thread_id := None;
     Message.timestamp := timestamp;
     Message.edited_at := None;
     Message.deleted_at := None;
     Message.created_at := Some now |}.

(** The loop of [parseExport] over the lines of the file. *)
Fixpoint parseExport_loop (lines : list string) (currentMessage : option Parsed)
    (now : Z) : list Message.t :=
  match lines with
  | [] =>
      match currentMessage with
      | Some m => [normalizeMessage m now]
      | None => []
      end
  | line :: rest =>
      match parseLine line with
      | Some parsed =>
          match currentMessage with
          | Some m => normalizeMessage m now :: parseExport_loop rest (Some parsed) now
          | None => parseExport_loop rest (Some parsed) now
          end
      | None =>
          match currentMessage with
          | Some m =>
              if negb (EventParser.is_blank line)
              then parseExport_loop rest
                     (Some (set_text m (text m +:+ MessageArchive.newline +:+ line))) now
              else parseExport_loop rest currentMessage now
          | None => parseExport_loop rest None now
          end
      end
  end.

Definition parseExport (lines : list string) (now : Z) : list Message.t :=
  parseExport_loop lines None now.

End Parser.
End WhatsAppExportParser.

(* ===================================================================== *)
(** * tools/archive-scan.js: scanEvents                                   *)
(* ===================================================================== *)

Module ArchiveScan.
Import JS Num.

(** A session file: its path and its lines, [None] when it does not
    exist. *)
Record SessionFile : Type := {
  path : string;
  content : option (list string)
}.

Definition EVENTS_CHECKPOINT_KEY : string := "last_events_scan_timestamp".

(** The segment after the last slash. *)
Fixpoint last_segment (s acc : string) : string :=
  match s with
  | EmptyString => acc
  | String c rest =>
      if Ascii.eqb c "/" then last_segment rest ""
      else last_segment rest (acc +:+ String c "")
  end.

Fixpoint ends_with (ext s : string) : option string :=
  if String.eqb s ext then Some ""
  else match s with
       | EmptyString => None
       | String c rest => option_map (String c) (ends_with ext rest)
       end.

(** [path.basename(p, ext)]. *)
Definition basename (p ext : string) : string :=
  let name := last_segment p "" in
  match ends_with ext name with
  | Some stem => if String.eqb stem "" then name else stem
  | None => name
  end.

Record ScanStats : Type := {
  inserted : Z;
  skipped : Z;
  errors : Z;
  filesProcessed : Z
}.

Section Scan.
Context `{Host}.

(** The body of the loop over the session files. *)
Definition scan_file (sessionFile : SessionFile) (lastTimestamp : option Z)
    (force : bool) (now : Z) (acc : ScanStats * Store) : ScanStats * Store :=
  let '(stats, s) := acc in
  match EventParser.parseEvents (content sessionFile) lastTimestamp with
  | Throw _ =>
      ({| inserted := inserted stats; skipped := skipped stats;
          errors := errors stats + 1;
          filesProcessed := filesProcessed stats |}, s)
  | Ok [] => (stats, s)
  | Ok evts =>
      let sessionKey := "agent:main:main" in
      let sessionId := basename (path sessionFile) ".jsonl" in
      let '(result, s1) :=
        MessageArchive.insertEventBatch evts sessionKey
          {| MessageArchive.skipIfExists := Some true;
             MessageArchive.sessionId := Some (JStr sessionId);
             MessageArchive.disableForeignKeys := Some force;
             MessageArchive.verbose := None |} now s in
      ({| inserted := inserted stats + MessageArchive.inserted result;
          skipped := skipped stats + MessageArchive.skipped result;
          errors := errors stats + MessageArchive.errors result;
          filesProcessed := filesProcessed stats + 1 |}, s1)
  end.

(** [scanEvents(archive, sessionFiles, force)]. *)
Definition scanEvents (sessionFiles : list SessionFile) (force : bool)
    (now : Z) (s : Store) : ScanStats * Store :=
  let stored := fst (MessageArchive.checkpoint EVENTS_CHECKPOINT_KEY None now s) in
  let lastTimestamp :=
    if force then Some 0
    else parseInt (default "0" (MessageArchive.nonempty stored)) in
  let '(stats, s1) :=
    List.fold_left
      (fun acc sessionFile => scan_file sessionFile lastTimestamp force now acc)
      sessionFiles
      ({| inserted := 0; skipped := 0; errors := 0; filesProcessed := 0 |}, s) in
  (stats,
   snd (MessageArchive.checkpoint EVENTS_CHECKPOINT_KEY
          (Some (Number_toString (Some now))) now s1)).

End Scan.
End ArchiveScan.

(* ===================================================================== *)
(** * A host for the worked examples                                      *)
(* ===================================================================== *)

Module Sample.
Import JS Num.

Definition digits (s : string) : option Z :=
  match s with
  | EmptyString => None
  | _ => option_map Z.of_uint (NilEmpty.uint_of_string s)
  end.

Definition days_from_civil (y m d : Z) : Z :=
  let y := if m <=? 2 then y - 1 else y in
  let era := y / 400 in
  let yoe := y - era * 400 in
  let doy := (153 * (if 2 <? m then m - 3 else m + 9) + 2) / 5 + d - 1 in
  let doe := yoe * 365 + yoe / 4 - yoe / 100 + doy in
  era * 146097 + doe - 719468.

(** The time value of a date in the format [toISOString] prints,
    YYYY-MM-DDTHH:mm:ss.sssZ. *)
Definition iso_parse (s : string) : option Z :=
  let part i n := digits (String.substring i n s) in
  let sep i c := String.eqb (String.substring i 1 s) c in
  match part 0%nat 4%nat, part 5%nat 2%nat, part 8%nat 2%nat,
        part 11%nat 2%nat, part 14%nat 2%nat, part 17%nat 2%nat,
        part 20%nat 3%nat with
  | Some y, Some m, Some d, Some hh, Some mm, Some ss, Some ms =>
      if (String.length s =? 24)%nat
         && sep 4%nat "-" && sep 7%nat "-" && sep 10%nat "T"
         && sep 13%nat ":" && sep 16%nat ":" && sep 19%nat "." && sep 23%nat "Z"
         && (1 <=? m) && (m <=? 12) && (1 <=? d) && (d <=? 31)
         && (hh <? 24) && (mm <? 60) && (ss <? 60)
      then Some (days_from_civil y m d * 86400000
                 + hh * 3600000 + mm * 60000 + ss * 1000 + ms)
      else None
  | _, _, _, _, _, _, _ => None
  end.

(** A host that reads the ISO dates, the dates of [dates], and the lines
    that are the JSON text of one of [records]; its MATCH holds when the
    query occurs in the text. *)
Definition host (records : list json) (dates : list (string * Z)) : Host :=
  {| Date_parse := fun s =>
       match assoc s dates with
       | Some t => Some t
       | None => iso_parse s
       end;
     JSON_parse := fun line =>
       List.find (fun v => String.eqb (stringify v) line) records;
     fts_match := fun q text =>
       match text with
       | Some t => WhatsAppExportParser.includes q t
       | None => false
       end |}.

End Sample.

(* ===================================================================== *)
(** * Vocabulary of the properties                                        *)
(* ===================================================================== *)

Module Vocabulary.
Import JS Num.

(** The five source types of [parseEvent]. *)
Definition recognized_type (ty : jsval) : bool :=
  is_str ty "session" || is_str ty "model_change"
  || is_str ty "thinking_level_change" || is_str ty "custom"
  || is_str ty "message".

(** A record whose [type] is none of the five. *)
Definition unrecognized (rawEvent : json) : bool :=
  match prop (Some rawEvent) "type" with
  | Ok ty => negb (recognized_type ty)
  | Throw _ => false
  end.

(** [raw.id], [msg.content] of an assistant message as the loop of
    [parseMessageEvent] visits it, and the reading of one block. *)
Definition record_id (raw : jsval) : jsval :=
  match prop raw "id" with
  | Ok v => v
  | Throw _ => undefined
  end.

Definition assistant_blocks (raw : jsval) : list json :=
  match (let* msg := prop raw "message" in
         let* role := prop msg "role" in
         let* content := prop msg "content" in
         if is_str role "assistant" && truthy content
         then iterate content else Ok []) with
  | Ok blocks => blocks
  | Throw _ => []
  end.

Definition has_usage (raw : jsval) : bool :=
  match (let* msg := prop raw "message" in
         let* role := prop msg "role" in
         let* usage := prop msg "usage" in
         Ok (is_str role "assistant" && truthy usage)) with
  | Ok b => b
  | Throw _ => false
  end.

Definition block_type_is (block : json) (ty : string) : bool :=
  match prop (Some block) "type" with
  | Ok v => is_str v ty
  | Throw _ => false
  end.

Definition is_tool_call (block : json) : bool :=
  block_type_is block "toolCall" || block_type_is block "toolUse".

Definition is_thinking (block : json) : bool :=
  block_type_is block "thinking".

Definition block_id (block : json) : jsval :=
  match prop (Some block) "id" with
  | Ok v => v
  | Throw _ => undefined
  end.

(** The identifiers of invariant I2. *)
Definition tool_call_id (parent : jsval) (block : json) : jsval :=
  Some (JStr (to_string parent +:+ "_tool_" +:+ to_string (block_id block))).

Definition thinking_id (parent : jsval) : jsval :=
  Some (JStr (to_string parent +:+ "_thinking")).

Definition usage_id (parent : jsval) : jsval :=
  Some (JStr (to_string parent +:+ "_usage")).

(** The identifier of a synthetic event is the one I2 gives it. *)
Definition synthetic_id_ok (parent : jsval) (blocks : list json)
    (e : Event.t) : Prop :=
  (Event.event_type e = "tool_call" ->
   exists block, In block blocks /\ is_tool_call block = true
                 /\ Event.event_id e = tool_call_id parent block)
  /\ (Event.event_type e = "thinking_block" ->
      Event.event_id e = thinking_id parent)
  /\ (Event.event_type e = "usage_stats" ->
      Event.event_id e = usage_id parent).

(** The synthetic events of one block, as (event type, identifier): a
    [tool_call] for a tool-call block, a [thinking_block] for a thinking
    block. *)
Definition block_synthetics (parent : jsval) (block : json)
  : list (string * jsval) :=
  (if is_tool_call block then [("tool_call", tool_call_id parent block)] else [])
  ++ (if is_thinking block then [("thinking_block", thinking_id parent)] else []).

Definition content_synthetics (parent : jsval) (blocks : list json)
  : list (string * jsval) :=
  List.flat_map (block_synthetics parent) blocks.

Definition kind (e : Event.t) : string * jsval :=
  (Event.event_type e, Event.event_id e).

(** K, J and U of a message record. *)
Definition count_tool_calls (raw : jsval) : nat :=
  List.length (List.filter is_tool_call (assistant_blocks raw)).

Definition count_thinking (raw : jsval) : nat :=
  List.length (List.filter is_thinking (assistant_blocks raw)).

Definition count_usage (raw : jsval) : nat :=
  if has_usage raw then 1%nat else 0%nat.

Definition message_role (raw : jsval) : jsval :=
  match (let* msg := prop raw "message" in prop msg "role") with
  | Ok role => role
  | Throw _ => undefined
  end.

(** A block the loop can read: it is not [null], and the text of a
    thinking block is a string (or is absent). *)
Definition readable_block (block : json) : bool :=
  match block with
  | JNull => false
  | _ =>
      if is_thinking block
      then match prop (Some block) "thinking" with
           | Ok thinking =>
               match or_else thinking (Some (JStr "")) with
               | Some (JStr _) => true
               | _ => false
               end
           | Throw _ => false
           end
      else true
  end.

(** A message record [parseMessageEvent] can read: [message] is there,
    and the content of an assistant message is a list of readable
    blocks. *)
Definition readable_message (raw : jsval) : bool :=
  match prop raw "message" with
  | Ok (Some JNull) => false
  | Ok (Some m) =>
      match prop (Some m) "role", prop (Some m) "content" with
      | Ok role, Ok content =>
          if is_str role "assistant" && truthy content
          then match iterate content with
               | Ok blocks => forallb readable_block blocks
               | Throw _ => false
               end
          else true
      | _, _ => false
      end
  | _ => false
  end.

(** A value better-sqlite3 can bind: a string, a number, [null] or
    [undefined]; on a boolean, an array or an object it throws. *)
Definition bindable (v : jsval) : bool :=
  match v with
  | Some (JBool _) => false
  | Some (JArr _) => false
  | Some (JObj _) => false
  | _ => true
  end.

(** The text a TEXT column holds for the value; [None] when it is NULL or
    when the value cannot be bound. *)
Definition bound (v : jsval) : option string :=
  match MessageArchive.bind_text v with
  | Ok text => text
  | Throw _ => None
  end.

(** The text [insertEvent] binds as [event_id] and as [parent_event_id]. *)
Definition event_key (e : Event.t) : option string :=
  bound (Event.event_id e).

Definition parent_key (e : Event.t) : option string :=
  bound (or_else (Event.parent_event_id e) null).

(** The parameters of the INSERT into [events] can be bound. *)
Definition row_binds (e : Event.t) : bool :=
  bindable (Event.event_id e)
  && bindable (or_else (Event.parent_event_id e) null)
  && bindable (or_else (Event.session_id (MessageArchive.fill_own_session e)) null)
  && bindable (or_else (Event.event_subtype e) null)
  && bindable (or_else (Event.role e) null)
  && bindable (or_else (Event.tool_name e) null)
  && bindable (or_else (Event.model_provider e) null)
  && bindable (or_else (Event.model_id e) null).

Definition usage_binds (u : Event.Usage) : bool :=
  forallb (fun v => bindable (MessageArchive.or_zero v))
    [Event.input_tokens u; Event.output_tokens u; Event.cache_read_tokens u;
     Event.cache_write_tokens u; Event.total_tokens u; Event.input_cost u;
     Event.output_cost u; Event.cache_read_cost u; Event.cache_write_cost u;
     Event.total_cost u].

(** The parameters of the INSERT into the satellite table of the event,
    if it has one, can be bound: the signature of a thinking block, the
    numbers of the usage statistics. *)
Definition satellite_binds (e : Event.t) : bool :=
  (if String.eqb (Event.event_type e) "thinking_block"
      && negb (String.eqb (default "" (Event._thinking_content e)) "")
   then bindable (or_else (Event._thinking_signature e) null)
   else true)
  && match Event._usage e with
     | Some u =>
         if String.eqb (Event.event_type e) "usage_stats"
         then usage_binds u else true
     | None => true
     end.

(** Every value of the event that an INSERT binds, the session id
    apart, can be bound. *)
Definition event_binds (e : Event.t) : bool :=
  bindable (Event.event_id e)
  && bindable (or_else (Event.parent_event_id e) null)
  && bindable (or_else (Event.event_subtype e) null)
  && bindable (or_else (Event.role e) null)
  && bindable (or_else (Event.tool_name e) null)
  && bindable (or_else (Event.model_provider e) null)
  && bindable (or_else (Event.model_id e) null)
  && satellite_binds e.

(** The properties of a message record that end in a column: [raw.k],
    [raw.message.k], [block.k], [raw.message.usage.k] and
    [(raw.message.usage.cost || {}).k]; [undefined] where the path cannot
    be read. *)
Definition record_field (raw : jsval) (k : string) : jsval :=
  match prop raw k with
  | Ok v => v
  | Throw _ => undefined
  end.

Definition message_field (raw : jsval) (k : string) : jsval :=
  record_field (record_field raw "message") k.

Definition block_field (block : json) (k : string) : jsval :=
  record_field (Some block) k.

Definition usage_field (raw : jsval) (k : string) : jsval :=
  record_field (message_field raw "usage") k.

Definition cost_field (raw : jsval) (k : string) : jsval :=
  record_field (or_else (usage_field raw "cost") (Some (JObj []))) k.

(** The name of a tool-call block and the signature of a thinking block
    can be bound. *)
Definition block_binds (block : json) : bool :=
  (if is_tool_call block
   then bindable (or_else (block_field block "name") null) else true)
  && (if is_thinking block
      then bindable (or_else (block_field block "thinkingSignature") null)
      else true).

(** The token counts and the costs of the usage object. *)
Definition usage_values (raw : jsval) : list jsval :=
  [usage_field raw "input"; usage_field raw "output";
   usage_field raw "cacheRead"; usage_field raw "cacheWrite";
   usage_field raw "totalTokens"; cost_field raw "input";
   cost_field raw "output"; cost_field raw "cacheRead";
   cost_field raw "cacheWrite"; cost_field raw "total"].

(** Every value of a message record that ends in a column can be bound:
    the parent id, the role, the tool name of a tool result, the provider
    and the model, the names of the tool calls, the signature of the
    thinking block, and the numbers of the usage object. *)
Definition record_binds (raw : jsval) : bool :=
  bindable (or_else (record_field raw "parentId") null)
  && bindable (or_else (message_field raw "role") null)
  && (if is_str (message_field raw "role") "toolResult"
      then bindable (or_else (message_field raw "toolName") null) else true)
  && bindable (or_else (message_field raw "provider") null)
  && bindable (or_else (message_field raw "model") null)
  && forallb block_binds (assistant_blocks raw)
  && (if has_usage raw
      then forallb (fun v => bindable (MessageArchive.or_zero v))
             (usage_values raw)
      else true).

(** The row of the event passes the NOT NULL constraints: it has an
    [event_id], a [session_id] (its own id, for a session event) and a
    timestamp. *)
Definition row_valid (e : Event.t) : bool :=
  match event_key e,
        bound (or_else (Event.session_id (MessageArchive.fill_own_session e)) null),
        Event.timestamp e with
  | Some _, Some _, Some _ => true
  | _, _, _ => false
  end.

(** The parent reference of the event holds in the database: enforcement
    is off, or there is no parent, or the parent is the event itself or a
    stored event. *)
Definition fk_ok (s : Store) (e : Event.t) : bool :=
  negb (foreign_keys s)
  || match parent_key e with
     | None => true
     | Some p =>
         match event_key e with
         | Some i => String.eqb p i
         | None => false
         end
         || MessageArchive.has_event s (Some p)
     end.

(** The event can be stored in the database as it is: its parameters
    bind, its row passes the NOT NULL constraints and its parent reference
    holds. *)
Definition storable (s : Store) (e : Event.t) : bool :=
  row_binds e && row_valid e && fk_ok s e.

(** The events table, the pragma and the tables of the messages are the
    same in the two databases. *)
Definition same_events (s s1 : Store) : Prop :=
  events s1 = events s /\ foreign_keys s1 = foreign_keys s
  /\ messages s1 = messages s /\ edits s1 = edits s
  /\ archive_state s1 = archive_state s.


Definition bump_inserted (st : MessageArchive.BatchStats)
  : MessageArchive.BatchStats :=
  {| MessageArchive.inserted := MessageArchive.inserted st + 1;
     MessageArchive.skipped := MessageArchive.skipped st;
     MessageArchive.errors := MessageArchive.errors st |}.


Definition bump_errors (st : MessageArchive.BatchStats)
  : MessageArchive.BatchStats :=
  {| MessageArchive.inserted := MessageArchive.inserted st;
     MessageArchive.skipped := MessageArchive.skipped st;
     MessageArchive.errors := MessageArchive.errors st + 1 |}.

(** The time value of the record's timestamp, and the text of its
    [parentId]. *)
Definition record_time `{Host} (raw : jsval) : option Z :=
  match prop raw "timestamp" with
  | Ok ts => Date_getTime ts
  | Throw _ => None
  end.

Definition record_parent (raw : jsval) : option string :=
  match prop raw "parentId" with
  | Ok parent => bound (or_else parent null)
  | Throw _ => None
  end.

(** The identifiers of the events of a message record: its own, then the
    synthetic ones. *)
Definition expected_ids (raw : jsval) : list jsval :=
  record_id raw
  :: List.map snd (content_synthetics (record_id raw) (assistant_blocks raw))
     ++ (if has_usage raw then [usage_id (record_id raw)] else []).

(** None of the identifiers is stored yet. *)
Definition fresh (s : Store) (ids : list jsval) : Prop :=
  Forall (fun i => MessageArchive.has_event s (bound i) = false) ids.

(** The parent reference of the record can be stored: enforcement is
    suspended for the batch or off, or the record has no parent, or the
    parent is stored. *)
Definition parent_resolves (s : Store) (options : MessageArchive.EventOptions)
    (raw : jsval) : Prop :=
  default false (MessageArchive.disableForeignKeys options) = true
  \/ foreign_keys s = false
  \/ record_parent raw = None
  \/ MessageArchive.has_event s (record_parent raw) = true.

(** A synthetic event points to the record it comes from. *)
Definition child_of (rawId : jsval) (ts : option Z) (e : Event.t) : Prop :=
  Event.parent_event_id e = rawId /\ Event.timestamp e = ts
  /\ Event.session_id e = null.

Definition nullish (v : jsval) : bool :=
  match v with
  | None => true
  | Some JNull => true
  | Some _ => false
  end.

(** What the identifiers of a record's events add to the id of the
    record: nothing for the main event, then the suffixes of I2. *)
Definition tool_suffix (block : json) : string :=
  "_tool_" +:+ to_string (block_id block).

Definition block_suffixes (block : json) : list string :=
  (if is_tool_call block then [tool_suffix block] else [])
  ++ (if is_thinking block then ["_thinking"] else []).

Definition suffixes (raw : jsval) : list string :=
  "" :: List.flat_map block_suffixes (assistant_blocks raw)
     ++ (if has_usage raw then ["_usage"] else []).



(** The id of the event is stored. *)
Definition known (s : Store) (e : Event.t) : bool :=
  MessageArchive.has_event s (event_key e).


(** The watermark a scan works with after a scan at [now]. *)
Definition watermark (force : bool) (now : Z) : option Z :=
  if force then Some 0 else Some now.

(** The identifiers of the events of a parse. *)
Definition ids_of (r : result (list Event.t)) : result (list jsval) :=
  let* evs := r in Ok (List.map Event.event_id evs).

End Vocabulary.

(* ===================================================================== *)
(** * Records and files of the worked examples                            *)
(* ===================================================================== *)

Module Examples.
Import JS Num.

(** {type:session, id:AAA, version:3, timestamp:2026-02-13T12:00:00.000Z,
    cwd:/x} *)
Definition session_record : json :=
  JObj [("type", JStr "session"); ("id", JStr "AAA"); ("version", JNum 3);
        ("timestamp", JStr "2026-02-13T12:00:00.000Z"); ("cwd", JStr "/x")].

(** A session record that carries no timestamp. *)
Definition untimed_record : json :=
  JObj [("type", JStr "session"); ("id", JStr "BBB"); ("version", JNum 3);
        ("cwd", JStr "/x")].

(** A record of a type the parser does not know. *)
Definition compaction_record : json :=
  JObj [("type", JStr "compaction"); ("id", JStr "C1");
        ("timestamp", JStr "2026-02-13T12:00:02.000Z")].

(** An assistant message M with one tool call T1, one thinking block and
    a usage object (scenario S2 of the specification). *)
Definition assistant_record : json :=
  JObj [("type", JStr "message"); ("id", JStr "M"); ("parentId", JStr "AAA");
        ("timestamp", JStr "2026-02-13T12:00:01.000Z");
        ("message",
         JObj [("role", JStr "assistant");
               ("content",
                JArr [JObj [("type", JStr "toolCall"); ("id", JStr "T1");
                            ("name", JStr "exec"); ("arguments", JObj [])];
                      JObj [("type", JStr "thinking");
                            ("thinking", JStr "let me look")]]);
               ("usage",
                JObj [("input", JNum 100); ("output", JNum 50);
                      ("totalTokens", JNum 150)])])].

(** The same message with two tool calls that carry the same id. *)
Definition repeated_call_record : json :=
  JObj [("type", JStr "message"); ("id", JStr "M");
        ("timestamp", JStr "2026-02-13T12:00:01.000Z");
        ("message",
         JObj [("role", JStr "assistant");
               ("content",
                JArr [JObj [("type", JStr "toolCall"); ("id", JStr "T1");
                            ("name", JStr "exec"); ("arguments", JObj [])];
                      JObj [("type", JStr "toolCall"); ("id", JStr "T1");
                            ("name", JStr "read"); ("arguments", JObj [])]])])].

(** A message whose tool call has the name [true]. *)
Definition odd_call_record : json :=
  JObj [("type", JStr "message"); ("id", JStr "M");
        ("timestamp", JStr "2026-02-13T12:00:01.000Z");
        ("message",
         JObj [("role", JStr "assistant");
               ("content",
                JArr [JObj [("type", JStr "toolCall"); ("id", JStr "T1");
                            ("name", JBool true); ("arguments", JObj [])]])])].

(** A tool result. *)
Definition tool_result_record : json :=
  JObj [("type", JStr "message"); ("id", JStr "R"); ("parentId", JStr "M");
        ("timestamp", JStr "2026-02-13T12:00:02.000Z");
        ("message",
         JObj [("role", JStr "toolResult"); ("toolCallId", JStr "T1");
               ("toolName", JStr "exec");
               ("content", JArr [JObj [("type", JStr "text");
                                       ("text", JStr "output")]]);
               ("isError", JBool false)])].

(** A user message whose body carries its own timestamp, as the agent
    runtime writes it. *)
Definition user_record : json :=
  JObj [("type", JStr "message"); ("id", JStr "U1"); ("parentId", JStr "AAA");
        ("timestamp", JStr "2026-02-13T12:00:03.000Z");
        ("message",
         JObj [("role", JStr "user");
               ("content", JArr [JObj [("type", JStr "text");
                                       ("text", JStr "hi")]]);
               ("timestamp", JNum 1770984003123)])].

(** The host of the examples: it reads the records above. *)
#[export] Instance host : Host :=
  Sample.host
    [session_record; untimed_record; compaction_record; assistant_record;
     repeated_call_record; tool_result_record; user_record]
    [].

Definition events_of (record : json) : list Event.t :=
  match EventParser.parseMessageEvent (Some record) with
  | Ok evs => evs
  | Throw _ => []
  end.

(** The session file AAA.jsonl with the session record and the user
    message, and the database after a first scan of it. *)
Definition chat_file : ArchiveScan.SessionFile :=
  {| ArchiveScan.path := "/state/agents/main/sessions/AAA.jsonl";
     ArchiveScan.content :=
       Some [stringify session_record; stringify user_record] |}.

Definition chat_store : Store :=
  snd (ArchiveScan.scanEvents [chat_file] false 1770984005000 empty_store).

(** The options [scanEvents] passes for the session AAA, in a normal and
    in a forced scan. *)
Definition scan_options (force : bool) : MessageArchive.EventOptions :=
  {| MessageArchive.skipIfExists := Some true;
     MessageArchive.sessionId := Some (JStr "AAA");
     MessageArchive.disableForeignKeys := Some force;
     MessageArchive.verbose := None |}.

(** A text message of the session [test:session]. *)
Definition message (message_id sender_id content_text : string)
    (timestamp : Z) : Message.t :=
  {| Message.message_id := Some message_id;
     Message.internal_id := None;
     Message.session_key := Some "test:session";
     Message.session_id := None;
     Message.direction := Some "inbound";
     Message.sender_id := Some sender_id;
     Message.sender_name := None;
     Message.recipient_id := None;
     Message.recipient_name := None;
     Message.channel := Some "test";
     Message.device_id := None;
     Message.content_type := Some "text";
     Message.content_text := Some content_text;
     Message.content_json := None;
     Message.reply_to_id := None;
     Message.thread_id := None;
     Message.timestamp := Some timestamp;
     Message.edited_at := None;
     Message.deleted_at := None;
     Message.created_at := None |}.

(** The database after [insertMessage] of the messages, in order, at
    clock 5000. *)
Fixpoint store_with (msgs : list Message.t) (s : Store) : Store :=
  match msgs with
  | [] => s
  | m :: rest =>
      match MessageArchive.insertMessage m None 5000 s with
      | Ok (_, s1) => store_with rest s1
      | Throw _ => store_with rest s
      end
  end.

(** Message M with the text hello (scenario S6). *)
Definition hello : Message.t := message "M" "user123" "hello" 1000.

(** The row [insertMessage] stores for it. *)
Definition hello_row : MessageRow.t :=
  {| MessageRow.id := 1;
     MessageRow.message_id := "M";
     MessageRow.internal_id := None;
     MessageRow.session_key := "test:session";
     MessageRow.session_id := None;
     MessageRow.direction := "inbound";
     MessageRow.sender_id := Some "user123";
     MessageRow.sender_name := None;
     MessageRow.recipient_id := None;
     MessageRow.recipient_name := None;
     MessageRow.channel := "test";
     MessageRow.device_id := None;
     MessageRow.content_type := "text";
     MessageRow.content_text := Some "hello";
     MessageRow.content_json := None;
     MessageRow.content_hash := Some (MessageArchive.hashMessage hello);
     MessageRow.reply_to_id := None;
     MessageRow.thread_id := None;
     MessageRow.timestamp := 1000;
     MessageRow.edited_at := None;
     MessageRow.deleted_at := None;
     MessageRow.created_at := 5000 |}.

(** A picture without caption, as the Telegram parser normalizes it: the
    text is empty. *)
Definition photo : Message.t := message "P" "user123" "" 2000.

(** Two pictures without caption that one sender posts half a second
    apart, under different ids. *)
Definition picture1 : Message.t := message "telegram_export_11" "user1" "" 1000.
Definition picture2 : Message.t := message "telegram_export_12" "user1" "" 1500.

(** Three lines of a WhatsApp export, all of 12/31/23, 10:30 PM:
    Alice: Hi / Bob: Hi / Bob: Bye, as [parseLine] splits them. *)
Definition alice_hi : WhatsAppExportParser.Parsed :=
  {| WhatsAppExportParser.date := "12/31/23";
     WhatsAppExportParser.time := "10:30 PM";
     WhatsAppExportParser.sender := "Alice";
     WhatsAppExportParser.text := "Hi" |}.

Definition bob_hi : WhatsAppExportParser.Parsed :=
  {| WhatsAppExportParser.date := "12/31/23";
     WhatsAppExportParser.time := "10:30 PM";
     WhatsAppExportParser.sender := "Bob";
     WhatsAppExportParser.text := "Hi" |}.

Definition bob_bye : WhatsAppExportParser.Parsed :=
  {| WhatsAppExportParser.date := "12/31/23";
     WhatsAppExportParser.time := "10:30 PM";
     WhatsAppExportParser.sender := "Bob";
     WhatsAppExportParser.text := "Bye" |}.

(** A host in the UTC zone, for the date of these lines. *)
Definition whatsapp_host : Host :=
  Sample.host [] [("12/31/23 10:30 PM", 1704061800000)].

Definition normalize (p : WhatsAppExportParser.Parsed) : Message.t :=
  WhatsAppExportParser.normalizeMessage (H := whatsapp_host) p 0.

Definition no_filter : MessageArchive.Filters :=
  {| MessageArchive.sessionKey := None; MessageArchive.channel := None;
     MessageArchive.senderId := None; MessageArchive.startTime := None;
     MessageArchive.endTime := None; MessageArchive.contentMatch := None;
     MessageArchive.limit := None; MessageArchive.offset := None;
     MessageArchive.includeDeleted := None |}.

Definition with_deleted : MessageArchive.Filters :=
  {| MessageArchive.sessionKey := Some "test:session";
     MessageArchive.channel := None;
     MessageArchive.senderId := None; MessageArchive.startTime := None;
     MessageArchive.endTime := None; MessageArchive.contentMatch := None;
     MessageArchive.limit := None; MessageArchive.offset := None;
     MessageArchive.includeDeleted := Some true |}.

(** The second page of one row, deleted messages included. *)
Definition second_with_deleted : MessageArchive.Filters :=
  {| MessageArchive.sessionKey := Some "test:session";
     MessageArchive.channel := None;
     MessageArchive.senderId := None; MessageArchive.startTime := None;
     MessageArchive.endTime := None; MessageArchive.contentMatch := None;
     MessageArchive.limit := Some 1; MessageArchive.offset := Some 1;
     MessageArchive.includeDeleted := Some true |}.

End Examples.

From Stdlib Require Import Sorting.Sorted Sorting.Permutation.

(* ===================================================================== *)
(** * lib/archive-db.js: the tables of reactions and sessions             *)
(* ===================================================================== *)

(** A row of [reactions]. *)
Module ReactionRow.
Record t : Type := {
  id : Z;
  message_id : string;
  emoji : string;
  user_id : string;
  user_name : option string;
  added_at : Z;
  removed_at : option Z
}.

Definition set_active (r : t) (added : Z) : t :=
  {| id := id r; message_id := message_id r; emoji := emoji r;
     user_id := user_id r; user_name := user_name r;
     added_at := added; removed_at := None |}.

Definition set_removed_at (r : t) (removed : Z) : t :=
  {| id := id r; message_id := message_id r; emoji := emoji r;
     user_id := user_id r; user_name := user_name r;
     added_at := added_at r; removed_at := Some removed |}.
End ReactionRow.

(** A row of [sessions], by the schema [initializeSessionsSchema] holds
    inline; [message_count] and [event_count] may be NULL. *)
Module SessionRow.
Record t : Type := {
  id : string;
  session_key : string;
  type : string;
  parent_id : option string;
  label : option string;
  agent_id : option string;
  model : option string;
  started_at : Z;
  ended_at : option Z;
  status : string;
  title : string;
  summary : string;
  message_count : option Z;
  event_count : option Z;
  created_at : Z;
  updated_at : Z
}.

Definition set_status (r : t) (st : string) (updated : Z) : t :=
  {| id := id r; session_key := session_key r; type := type r;
     parent_id := parent_id r; label := label r; agent_id := agent_id r;
     model := model r; started_at := started_at r; ended_at := ended_at r;
     status := st;
     title := title r; summary := summary r;
     message_count := message_count r; event_count := event_count r;
     created_at := created_at r; updated_at := updated |}.

Definition set_counts (r : t) (events messages : option Z) (updated : Z) : t :=
  {| id := id r; session_key := session_key r; type := type r;
     parent_id := parent_id r; label := label r; agent_id := agent_id r;
     model := model r; started_at := started_at r; ended_at := ended_at r;
     status := status r; title := title r; summary := summary r;
     message_count := messages; event_count := events;
     created_at := created_at r; updated_at := updated |}.
End SessionRow.

(** The database with the two tables beside the ones of [Store]. *)
Record Database : Type := {
  store : Store;
  reactions : list ReactionRow.t;
  sessions : list SessionRow.t
}.

Definition empty_database : Database :=
  {| store := empty_store; reactions := []; sessions := [] |}.

Definition with_reactions (db : Database) (rs : list ReactionRow.t)
  : Database :=
  {| store := store db; reactions := rs; sessions := sessions db |}.

Definition with_sessions (db : Database) (ss : list SessionRow.t)
  : Database :=
  {| store := store db; reactions := reactions db; sessions := ss |}.

(* ===================================================================== *)
(** * lib/archive-db.js: further methods of MessageArchive                *)
(* ===================================================================== *)

Module MessageArchiveMore.
Import JS Num MessageArchive.

(** [getEventsByType(sessionId, eventType)]: the rows of the session with
    that type, ORDER BY timestamp ASC. *)
Definition getEventsByType (sessionId eventType : string) (s : Store)
  : list EventRow.t :=
  order_asc
    (List.filter
       (fun r => String.eqb (EventRow.session_id r) sessionId
                 && String.eqb (EventRow.event_type r) eventType)
       (events s)).

(** The columns of UNIQUE(message_id, emoji, user_id). *)
Definition same_reaction (messageId emoji userId : string)
    (r : ReactionRow.t) : bool :=
  String.eqb (ReactionRow.message_id r) messageId
  && String.eqb (ReactionRow.emoji r) emoji
  && String.eqb (ReactionRow.user_id r) userId.

(** [addReaction(messageId, emoji, userId, userName)]: the INSERT, or on
    a conflict with the unique key the UPDATE of the row that is there;
    the INSERT needs the message when foreign keys are enforced. *)
Definition addReaction (messageId emoji userId : string)
    (userName : option string) (now : Z) (db : Database) : result Database :=
  if existsb (same_reaction messageId emoji userId) (reactions db)
  then
    Ok (with_reactions db
          (List.map (fun r => if same_reaction messageId emoji userId r
                              then ReactionRow.set_active r now else r)
                    (reactions db)))
  else if foreign_keys (store db)
          && negb (existsb (fun m => String.eqb (MessageRow.message_id m) messageId)
                           (messages (store db)))
  then Throw (SqliteError FOREIGNKEY)
  else
    Ok (with_reactions db
          (reactions db ++
           [{| ReactionRow.id :=
                 next_rowid (List.map ReactionRow.id (reactions db));
               ReactionRow.message_id := messageId;
               ReactionRow.emoji := emoji;
               ReactionRow.user_id := userId;
               ReactionRow.user_name := userName;
               ReactionRow.added_at := now;
               ReactionRow.removed_at := None |}])).

(** [removeReaction(messageId, emoji, userId)]. *)
Definition removeReaction (messageId emoji userId : string) (now : Z)
    (db : Database) : Database :=
  with_reactions db
    (List.map (fun r =>
                 if same_reaction messageId emoji userId r
                    && match ReactionRow.removed_at r with
                       | None => true
                       | Some _ => false
                       end
                 then ReactionRow.set_removed_at r now else r)
              (reactions db)).

(** The object [upsertSession] receives; [None] is [null]. *)
Record SessionData : Type := {
  id : string;
  session_key : option string;
  type : option string;
  parent_id : option string;
  label : option string;
  agent_id : option string;
  model : option string;
  started_at : option Z;
  ended_at : option Z;
  status : option string;
  title : option string;
  summary : option string;
  message_count : option Z;
  event_count : option Z
}.

(** The values [upsertSession] binds, checked against NOT NULL, the two
    CHECK constraints and the foreign key of [parent_id]; [created] is the
    [created_at] of the row. *)
Definition session_row (sessionData : SessionData) (created now : Z)
    (db : Database) : result SessionRow.t :=
  match session_key sessionData, type sessionData, started_at sessionData,
        title sessionData, summary sessionData with
  | Some key, Some ty, Some started, Some title, Some summary =>
      let status := default "active" (nonempty (status sessionData)) in
      let parent := nonempty (parent_id sessionData) in
      if negb (existsb (String.eqb ty) ["main"; "subagent"; "cron"; "isolated"])
      then Throw (SqliteError CHECK)
      else if negb (existsb (String.eqb status) ["active"; "completed"; "failed"])
      then Throw (SqliteError CHECK)
      else if foreign_keys (store db)
              && match parent with
                 | Some p =>
                     negb (String.eqb p (id sessionData)
                           || existsb (fun r => String.eqb (SessionRow.id r) p)
                                      (sessions db))
                 | None => false
                 end
      then Throw (SqliteError FOREIGNKEY)
      else
        Ok {| SessionRow.id := id sessionData;
              SessionRow.session_key := key;
              SessionRow.type := ty;
              SessionRow.parent_id := parent;
              SessionRow.label := nonempty (label sessionData);
              SessionRow.agent_id := nonempty (agent_id sessionData);
              SessionRow.model := nonempty (model sessionData);
              SessionRow.started_at := started;
              SessionRow.ended_at := nonzero (ended_at sessionData);
              SessionRow.status := status;
              SessionRow.title := title;
              SessionRow.summary := summary;
              SessionRow.message_count :=
                Some (default 0 (nonzero (message_count sessionData)));
              SessionRow.event_count :=
                Some (default 0 (nonzero (event_count sessionData)));
              SessionRow.created_at := created;
              SessionRow.updated_at := now |}
  | _, _, _, _, _ => Throw (SqliteError NOTNULL)
  end.

(** [getSession(sessionId)]. *)
Definition getSession (sessionId : string) (db : Database)
  : option SessionRow.t :=
  List.find (fun r => String.eqb (SessionRow.id r) sessionId) (sessions db).

(** [upsertSession(sessionData)]: [true] when the session is inserted,
    [false] when it is updated. *)
Definition upsertSession (sessionData : SessionData) (now : Z)
    (db : Database) : result (bool * Database) :=
  match getSession (id sessionData) db with
  | Some existing =>
      let* updated :=
        session_row sessionData (SessionRow.created_at existing) now db in
      Ok (false,
          with_sessions db
            (List.map (fun r => if String.eqb (SessionRow.id r) (id sessionData)
                                then updated else r)
                      (sessions db)))
  | None =>
      let* inserted := session_row sessionData now now db in
      Ok (true, with_sessions db (sessions db ++ [inserted]))
  end.

(** [updateSessionCounts(sessionId)]: COUNT is 0 and SUM is NULL when the
    session has no event. *)
Definition updateSessionCounts (sessionId : string) (now : Z) (db : Database)
  : Database :=
  let rows :=
    List.filter (fun r => String.eqb (EventRow.session_id r) sessionId)
                (events (store db)) in
  let total_events := Z.of_nat (List.length rows) in
  let message_count :=
    match rows with
    | [] => None
    | _ =>
        Some (Z.of_nat
                (List.length
                   (List.filter
                      (fun r => String.eqb (EventRow.event_type r) "message")
                      rows)))
    end in
  with_sessions db
    (List.map (fun r => if String.eqb (SessionRow.id r) sessionId
                        then SessionRow.set_counts r (Some total_events)
                               message_count now
                        else r)
              (sessions db)).

(** The UPDATE of [completeSession] and [failSession]. *)
Definition close_session (final sessionId : string) (now : Z) (db : Database)
  : Database :=
  with_sessions db
    (List.map (fun r => if String.eqb (SessionRow.id r) sessionId
                           && String.eqb (SessionRow.status r) "active"
                        then SessionRow.set_status r final now
                        else r)
              (sessions db)).

(** [completeSession(sessionId)]. *)
Definition completeSession (sessionId : string) (now : Z) (db : Database)
  : Database :=
  close_session "completed" sessionId now db.

(** [failSession(sessionId)]. *)
Definition failSession (sessionId : string) (now : Z) (db : Database)
  : Database :=
  close_session "failed" sessionId now db.

End MessageArchiveMore.

(* ===================================================================== *)
(** * lib/event-parser.js: extractSessionMetadata                         *)
(* ===================================================================== *)

Module EventParserMore.
Import JS Num.

(** A number that may be infinite: [Math.min()] is [Infinity] and
    [Math.max()] is [-Infinity]. *)
Inductive extended : Type :=
| NegInfinity
| Finite (n : Z)
| Infinity.

Definition Math_min (xs : list Z) : extended :=
  match xs with
  | [] => Infinity
  | x :: rest => Finite (List.fold_left Z.min rest x)
  end.

Definition Math_max (xs : list Z) : extended :=
  match xs with
  | [] => NegInfinity
  | x :: rest => Finite (List.fold_left Z.max rest x)
  end.

Record Metadata : Type := {
  session_id : jsval;
  started_at : extended;
  ended_at : extended;
  event_count : Z;
  has_thinking : bool;
  has_usage : bool;
  tool_calls : Z;
  errors : Z
}.

(** [events.map(e => e.timestamp).filter(t => t)]: the time values that
    are neither [NaN] nor 0. *)
Definition truthy_timestamps (events : list Event.t) : list Z :=
  List.flat_map (fun e => match MessageArchive.nonzero (Event.timestamp e) with
                          | Some t => [t]
                          | None => []
                          end) events.

Definition has_type (ty : string) (e : Event.t) : bool :=
  String.eqb (Event.event_type e) ty.

(** [extractSessionMetadata(events)]; [None] is [null]. *)
Definition extractSessionMetadata (events : list Event.t) : option Metadata :=
  match events with
  | [] => None
  | _ =>
      match List.find (has_type "session") events with
      | None => None
      | Some sessionEvent =>
          let timestamps := truthy_timestamps events in
          Some {| session_id := Event.session_id sessionEvent;
                  started_at := Math_min timestamps;
                  ended_at := Math_max timestamps;
                  event_count := Z.of_nat (List.length events);
                  has_thinking := existsb (has_type "thinking_block") events;
                  has_usage := existsb (has_type "usage_stats") events;
                  tool_calls :=
                    Z.of_nat (List.length
                                (List.filter (has_type "tool_call") events));
                  errors :=
                    Z.of_nat (List.length
                                (List.filter
                                   (fun e => negb (Event.is_error e =? 0))
                                   events)) |}
      end
  end.

End EventParserMore.

(* ===================================================================== *)
(** * lib/message-parser.js: extractTextContent                           *)
(* ===================================================================== *)

Module SessionParser.
Import JS Num.

(** The callback of [content.map]: what one block contributes. *)
Definition block_text (block : json) : result jsval :=
  match block with
  | JStr _ => Ok (Some block)
  | _ =>
      let* ty := prop (Some block) "type" in
      let* text := prop (Some block) "text" in
      if is_str ty "text" then Ok text
      else if truthy text then Ok text
      else Ok (Some (JStr ""))
  end.

Fixpoint block_texts (blocks : list json) : result (list jsval) :=
  match blocks with
  | [] => Ok []
  | block :: rest =>
      let* text := block_text block in
      let* texts := block_texts rest in
      Ok (text :: texts)
  end.

(** What [Array.prototype.join] makes of an element: nothing of
    [undefined] and [null], the string conversion of the others. *)
Definition joined (v : jsval) : string :=
  match v with
  | None => ""
  | Some JNull => ""
  | Some j => json_to_string j
  end.

(** [extractTextContent(content)]. *)
Definition extractTextContent (content : jsval) : result jsval :=
  match content with
  | Some (JStr _) => Ok content
  | Some (JArr blocks) =>
      let* texts := block_texts blocks in
      Ok (Some (JStr (String.concat MessageArchive.newline
                        (List.map joined texts))))
  | Some (JObj fields) =>
      Ok (or_else (assoc "text" fields)
            (or_else (assoc "content" fields)
               (Some (JStr (stringify (JObj fields))))))
  | _ => Ok (Some (JStr ""))
  end.

End SessionParser.

(* ===================================================================== *)
(** * lib/session-detector.js: class SessionDetector                      *)
(* ===================================================================== *)

Module SessionDetector.
Import JS Num.

(** What [classifySession] returns. *)
Record Classified : Type := {
  type : string;
  sessionKey : string;
  parentId : jsval;
  label : jsval;
  agentId : option string
}.

(** What [detectSession] returns; [started_at] and [ended_at] are [None]
    when they are [NaN], and [ended_at] also when it is [null]. *)
Record Detected : Type := {
  id : string;
  session_key : string;
  session_type : string;
  parent_id : jsval;
  session_label : jsval;
  agent_id : option string;
  model : jsval;
  started_at : option Z;
  ended_at : option Z;
  status : string;
  message_count : Z;
  event_count : Z
}.

(** The variables of the loop of [detectSession]. *)
Record Seen : Type := {
  firstEvent : jsval;
  lastEvent : jsval;
  sessionEvent : jsval;
  modelChangeEvent : jsval;
  messageCount : Z;
  eventCount : Z
}.

Section Detector.
Context `{Host}.

(** [path.dirname] and [fs.existsSync] are the runtime's: they are
    arguments of the detector. *)
Variable dirname : string -> string.
Variable existsSync : string -> bool.

(** [sessionEvent && sessionEvent.k]. *)
Definition and_prop (v : jsval) (k : string) : result jsval :=
  if truthy v then prop v k else Ok v.

Definition classifySession (filePath : string) (sessionEvent : jsval)
    (firstEvent : jsval) : result Classified :=
  let dirPath := dirname filePath in
  if WhatsAppExportParser.includes "/cron/runs" dirPath then
    let* sessionLabel := and_prop sessionEvent "label" in
    Ok {| type := "cron"; sessionKey := "cron"; parentId := null;
          label := if truthy sessionLabel then sessionLabel else null;
          agentId := None |}
  else if WhatsAppExportParser.includes "/agents/main/sessions" dirPath then
    let* firstParent := prop firstEvent "parentId" in
    let* sessionParent :=
      if truthy firstParent then Ok firstParent
      else and_prop sessionEvent "parentId" in
    let* sessionLabel := and_prop sessionEvent "label" in
    let label := if truthy sessionLabel then sessionLabel else null in
    if truthy sessionParent
    then Ok {| type := "subagent";
               sessionKey :=
                 "agent:main:subagent:"
                 +:+ ArchiveScan.basename filePath ".jsonl";
               parentId := sessionParent;
               label := label; agentId := Some "main" |}
    else Ok {| type := "main"; sessionKey := "agent:main:main";
               parentId := null; label := label; agentId := Some "main" |}
  else
    Ok {| type := "isolated"; sessionKey := "unknown"; parentId := null;
          label := null; agentId := None |}.

(** [endedAt = None] is [null] or [NaN]. *)
Definition determineStatus (filePath : string) (endedAt : option Z) : string :=
  if existsSync (filePath +:+ ".lock") then "active"
  else if WhatsAppExportParser.includes ".deleted." filePath then "completed"
  else match MessageArchive.nonzero endedAt with
       | Some _ => "completed"
       | None => "active"
       end.

(** The body of the loop over the lines; a line that is not JSON is
    skipped, and the exception on the property of [null] leaves the
    counters and the first and last event as they were set. *)
Definition see (seen : Seen) (line : string) : Seen :=
  if EventParser.is_blank line then seen
  else
    match JSON_parse line with
    | None => seen
    | Some event =>
        let first :=
          if truthy (firstEvent seen) then firstEvent seen else Some event in
        let counted :=
          {| firstEvent := first; lastEvent := Some event;
             sessionEvent := sessionEvent seen;
             modelChangeEvent := modelChangeEvent seen;
             messageCount := messageCount seen;
             eventCount := eventCount seen + 1 |} in
        match prop (Some event) "type" with
        | Throw _ => counted
        | Ok ty =>
            {| firstEvent := first; lastEvent := Some event;
               sessionEvent :=
                 if is_str ty "session" then Some event
                 else sessionEvent seen;
               modelChangeEvent :=
                 if is_str ty "model_change"
                    && negb (truthy (modelChangeEvent seen))
                 then Some event else modelChangeEvent seen;
               messageCount :=
                 if is_str ty "message" then messageCount seen + 1
                 else messageCount seen;
               eventCount := eventCount seen + 1 |}
        end
    end.

Definition nothing_seen : Seen :=
  {| firstEvent := null; lastEvent := null; sessionEvent := null;
     modelChangeEvent := null; messageCount := 0; eventCount := 0 |}.

(** [detectSession(sessionFilePath)]; [file] is the content of the file,
    [None] when it cannot be opened: the read stream then fails with the
    error of the system, given here by its code. *)
Definition detectSession (sessionFilePath : string)
    (file : option (list string)) : result Detected :=
  let sessionId := ArchiveScan.basename sessionFilePath ".jsonl" in
  match file with
  | None => Throw (Error "ENOENT")
  | Some lines =>
      let seen := List.fold_left see lines nothing_seen in
      if negb (truthy (firstEvent seen))
      then Throw (Error ("No events found in " +:+ sessionFilePath))
      else
        let* classified :=
          classifySession sessionFilePath (sessionEvent seen)
            (firstEvent seen) in
        let* firstTs := prop (firstEvent seen) "timestamp" in
        let* firstAlt := prop (firstEvent seen) "ts" in
        let firstTimestamp := or_else firstTs firstAlt in
        let* lastTimestamp :=
          if truthy (lastEvent seen)
          then let* lastTs := prop (lastEvent seen) "timestamp" in
               let* lastAlt := prop (lastEvent seen) "ts" in
               Ok (or_else lastTs lastAlt)
          else Ok null in
        if negb (truthy firstTimestamp)
        then Throw (Error ("No timestamp found in first event of "
                           +:+ sessionFilePath))
        else
          let startedAt := Date_getTime firstTimestamp in
          let endedAt :=
            if truthy lastTimestamp then Date_getTime lastTimestamp
            else None in
          let* modelId := and_prop (modelChangeEvent seen) "modelId" in
          Ok {| id := sessionId;
                session_key := sessionKey classified;
                session_type := type classified;
                parent_id := parentId classified;
                session_label := label classified;
                agent_id := agentId classified;
                model := if truthy (modelChangeEvent seen) then modelId
                         else null;
                started_at := startedAt;
                ended_at := endedAt;
                status := determineStatus sessionFilePath endedAt;
                message_count := messageCount seen;
                event_count := eventCount seen |}
  end.

End Detector.
End SessionDetector.

(* ===================================================================== *)
(** * Vocabulary of the further properties                                *)
(* ===================================================================== *)

Module Orders.

(** The orders of the result lists: ORDER BY timestamp ASC on events,
    ORDER BY timestamp DESC on messages. *)
Definition earlier (a b : EventRow.t) : Prop :=
  EventRow.timestamp a <= EventRow.timestamp b.

Definition later (a b : MessageRow.t) : Prop :=
  MessageRow.timestamp b <= MessageRow.timestamp a.

End Orders.

Module ReactionVocabulary.

(** The unique key of a reaction. *)
Definition reaction_key (r : ReactionRow.t) : string * string * string :=
  (ReactionRow.message_id r, ReactionRow.emoji r, ReactionRow.user_id r).

(** UNIQUE(message_id, emoji, user_id) holds. *)
Definition unique_reactions (db : Database) : Prop :=
  List.NoDup (List.map reaction_key (reactions db)).

(** The reactions that are not removed (what [getStats] counts as
    [totalReactions]). *)
Definition active (r : ReactionRow.t) : bool :=
  match ReactionRow.removed_at r with
  | None => true
  | Some _ => false
  end.

(** The message is archived, or foreign keys are not enforced. *)
Definition can_react (db : Database) (messageId : string) : Prop :=
  foreign_keys (store db) = false
  \/ exists m, In m (messages (store db))
               /\ MessageRow.message_id m = messageId.

End ReactionVocabulary.

(** * Further worked examples *)

Module MoreExamples.

(** A message that answers the message [target]. *)
Definition reply (message_id target : string) : Message.t :=
  {| Message.message_id := Some message_id;
     Message.internal_id := None;
     Message.session_key := Some "test:session";
     Message.session_id := None;
     Message.direction := Some "inbound";
     Message.sender_id := Some "user1";
     Message.sender_name := None;
     Message.recipient_id := None;
     Message.recipient_name := None;
     Message.channel := Some "test";
     Message.device_id := None;
     Message.content_type := Some "text";
     Message.content_text := Some "and you?";
     Message.content_json := None;
     Message.reply_to_id := Some target;
     Message.thread_id := None;
     Message.timestamp := Some 3000;
     Message.edited_at := None;
     Message.deleted_at := None;
     Message.created_at := None |}.

(** The database that holds the message M and nothing else, and the same
    after user789 reacts to M. *)
Definition archive_of_hello : Database :=
  {| store := Examples.store_with [Examples.hello] empty_store;
     reactions := []; sessions := [] |}.

Definition archive_with_reaction : Database :=
  match MessageArchiveMore.addReaction "M" "+1" "user789" (Some "Reactor")
          6000 archive_of_hello with
  | JS.Ok db => db
  | JS.Throw _ => archive_of_hello
  end.

(** The session AAA as the scanner describes it, and the database that
    holds that session alone. *)
Definition session_AAA : MessageArchiveMore.SessionData :=
  {| MessageArchiveMore.id := "AAA";
     MessageArchiveMore.session_key := Some "agent:main:main";
     MessageArchiveMore.type := Some "main";
     MessageArchiveMore.parent_id := None;
     MessageArchiveMore.label := None;
     MessageArchiveMore.agent_id := Some "main";
     MessageArchiveMore.model := None;
     MessageArchiveMore.started_at := Some 1770984000000;
     MessageArchiveMore.ended_at := Some 1770984003000;
     MessageArchiveMore.status := None;
     MessageArchiveMore.title := Some "A short chat";
     MessageArchiveMore.summary := Some "The user says hi.";
     MessageArchiveMore.message_count := Some 1;
     MessageArchiveMore.event_count := Some 2 |}.

(** A subagent session that names a parent which is not a session id. *)
Definition session_SUB : MessageArchiveMore.SessionData :=
  {| MessageArchiveMore.id := "SUB";
     MessageArchiveMore.session_key := Some "agent:main:subagent:SUB";
     MessageArchiveMore.type := Some "subagent";
     MessageArchiveMore.parent_id := Some "event-42";
     MessageArchiveMore.label := None;
     MessageArchiveMore.agent_id := Some "main";
     MessageArchiveMore.model := None;
     MessageArchiveMore.started_at := Some 1770984010000;
     MessageArchiveMore.ended_at := None;
     MessageArchiveMore.status := Some "active";
     MessageArchiveMore.title := Some "A subagent";
     MessageArchiveMore.summary := Some "It runs a task.";
     MessageArchiveMore.message_count := None;
     MessageArchiveMore.event_count := None |}.

Definition chat_database : Database :=
  match MessageArchiveMore.upsertSession session_AAA 1770984007000
          empty_database with
  | JS.Ok (_, db) => db
  | JS.Throw _ => empty_database
  end.

End MoreExamples.

(** The lines of a WhatsApp export that open a message, as [parseLine]
    reads them. *)
Module WhatsAppMore.

Definition headers (parseLine : string -> option WhatsAppExportParser.Parsed)
    (lines : list string) : list WhatsAppExportParser.Parsed :=
  List.flat_map (fun line => match parseLine line with
                             | Some parsed => [parsed]
                             | None => []
                             end) lines.

(** What of a normalized message the header alone decides. *)
Definition heading (m : Message.t)
  : option string * option string * option Z * option string :=
  (Message.message_id m, Message.sender_name m, Message.timestamp m,
   Message.direction m).

End WhatsAppMore.
(* ===================================================================== *)
(** * The event-log parser                                                *)
(* ===================================================================== *)

Module ParserFacts.
Import JS Num EventParser.

(** Inversion of a computation in the [result] monad that returned: a
    [let*] is split into its two steps, a test is decided. *)
Ltac ok_step :=
  match goal with
  | H : Ok _ = Ok _ |- _ => injection H as <-
  | H : Throw _ = Ok _ |- _ => discriminate H
  | H : bind ?r ?k = Ok ?v |- _ =>
      let a := fresh "a" in
      let E := fresh "E" in
      destruct r as [ a | ] eqn:E;
      [ change (k a = Ok v) in H; cbv beta in H | discriminate H ]
  | H : (if ?c then _ else _) = Ok _ |- _ =>
      let T := type of c in
      unify T bool;
      let C := fresh "C" in
      destruct c eqn:C
  | H : match ?x with Some _ => _ | None => _ end = Ok _ |- _ =>
      is_var x; destruct x; [ | discriminate H ]
  end.

Ltac ok_inv := repeat ok_step.

Section Facts.
Context `{Host}.

Lemma parseEvents_flat_map (lines : list string) (since : option Z) :
  parseEvents (Some lines) since
  = Ok (List.flat_map (fun line => line_events line since) lines).
Proof.
  unfold parseEvents. f_equal.
  rewrite <- (app_nil_l (flat_map _ lines)).
  generalize (@nil Event.t) as acc.
  induction lines as [ | line rest IH ]; intros acc; simpl.
  - now rewrite app_nil_r.
  - rewrite IH. now rewrite app_assoc.
Qed.

Lemma block_events_timestamp (rawId : jsval) (ts : option Z)
    (block : json) (evs : list Event.t) :
  block_events rawId ts block = Ok evs ->
  Forall (fun e => Event.timestamp e = ts) evs.
Proof.
  intros Hb. unfold block_events, tool_call_event, thinking_event in Hb.
  ok_inv;
    repeat match goal with
           | H : match ?x with _ => _ end = Ok _ |- _ =>
               destruct x as [ [ | | | ? | | ] | ]; try discriminate H;
               injection H as <-
           end;
    repeat constructor.
Qed.

Lemma content_events_timestamp (rawId : jsval) (ts : option Z)
    (blocks : list json) (evs : list Event.t) :
  content_events rawId ts blocks = Ok evs ->
  Forall (fun e => Event.timestamp e = ts) evs.
Proof.
  revert evs. induction blocks as [ | b rest IH ]; intros evs Hc; simpl in Hc.
  - ok_inv. constructor.
  - destruct (block_events rawId ts b) as [ here | ] eqn:Hb;
      simpl in Hc; [ | discriminate Hc ].
    destruct (content_events rawId ts rest) as [ more | ];
      simpl in Hc; [ | discriminate Hc ].
    ok_inv. apply Forall_app. split.
    + eapply block_events_timestamp; eassumption.
    + now apply IH.
Qed.

Lemma usage_event_timestamp (rawId : jsval) (ts : option Z)
    (msg usage : jsval) (e : Event.t) :
  usage_event rawId ts msg usage = Ok e -> Event.timestamp e = ts.
Proof.
  intros Hu. unfold usage_event in Hu. ok_inv. reflexivity.
Qed.

Lemma parseMessageEvent_timestamp (raw rawTs : jsval) (evs : list Event.t) :
  prop raw "timestamp" = Ok rawTs ->
  parseMessageEvent raw = Ok evs ->
  Forall (fun e => Event.timestamp e = Date_getTime rawTs) evs.
Proof.
  intros Hts Hp. unfold parseMessageEvent in Hp. rewrite Hts in Hp.
  ok_inv.
  all: constructor; [ reflexivity | ]; apply Forall_app; split.
  all: repeat match goal with
              | |- Forall _ [] => constructor
              | |- Forall _ (_ :: _) => constructor
              | |- Event.timestamp _ = _ =>
                  eapply usage_event_timestamp; eassumption
              | |- Forall _ _ =>
                  eapply content_events_timestamp; eassumption
              end.
Qed.

(** Every event [parseEvent] emits for a record carries the time value of
    the record's [timestamp]. *)
Lemma parseEvent_timestamp (raw rawTs : jsval) (evs : list Event.t) :
  prop raw "timestamp" = Ok rawTs ->
  parseEvent raw = Ok evs ->
  Forall (fun e => Event.timestamp e = Date_getTime rawTs) evs.
Proof.
  intros Hts Hp. unfold parseEvent in Hp.
  destruct (prop raw "type") as [ ty | ]; simpl in Hp; [ | discriminate Hp ].
  repeat match type of Hp with
         | (if ?c then _ else _) = Ok _ => destruct c
         end.
  6:{ ok_inv. constructor. }
  5:{ eapply parseMessageEvent_timestamp; eassumption. }
  all: unfold parseSessionEvent, parseModelChangeEvent,
         parseThinkingLevelEvent, parseCustomEvent in Hp;
    rewrite Hts in Hp; ok_inv; repeat constructor.
Qed.

Lemma line_events_not_le (line : string) (since : option Z) :
  Forall (fun e => num_le (Event.timestamp e) since = false)
         (line_events line since).
Proof.
  unfold line_events.
  destruct (is_blank line); [ constructor | ].
  destruct (JSON_parse line) as [ rawEvent | ]; [ | constructor ].
  destruct (prop (Some rawEvent) "timestamp") as [ rawTs | ] eqn:Hts;
    simpl; [ | constructor ].
  destruct (num_le (Date_getTime rawTs) since) eqn:Hle; [ constructor | ].
  destruct (parseEvent (Some rawEvent)) as [ evs | ] eqn:Hp; [ | constructor ].
  eapply List.Forall_impl; [ | exact (parseEvent_timestamp _ _ _ Hts Hp) ].
  intros e ->. exact Hle.
Qed.

Lemma line_events_unrecognized (line : string) (rawEvent : json)
    (since : option Z) :
  JSON_parse line = Some rawEvent -> Vocabulary.unrecognized rawEvent = true ->
  line_events line since = [].
Proof.
  intros Hj Hu. unfold line_events.
  destruct (is_blank line); [ reflexivity | ]. rewrite Hj.
  destruct (prop (Some rawEvent) "timestamp") as [ rawTs | ]; simpl;
    [ | reflexivity ].
  destruct (num_le (Date_getTime rawTs) since); [ reflexivity | ].
  unfold parseEvent. unfold Vocabulary.unrecognized in Hu.
  destruct (prop (Some rawEvent) "type") as [ ty | ]; simpl;
    [ | reflexivity ].
  unfold Vocabulary.recognized_type in Hu.
  destruct (is_str ty "session"); [ discriminate Hu | ].
  destruct (is_str ty "model_change"); [ discriminate Hu | ].
  destruct (is_str ty "thinking_level_change"); [ discriminate Hu | ].
  destruct (is_str ty "custom"); [ discriminate Hu | ].
  destruct (is_str ty "message"); [ discriminate Hu | ].
  reflexivity.
Qed.

Lemma parseEvents_skip (before after : list string) (line : string)
    (since : option Z) :
  line_events line since = [] ->
  parseEvents (Some (before ++ line :: after)) since
  = parseEvents (Some (before ++ after)) since.
Proof.
  intros Hl. rewrite !parseEvents_flat_map, !flat_map_app. simpl.
  now rewrite Hl.
Qed.

End Facts.
End ParserFacts.

Module C7.
Import JS Num EventParser ParserFacts.

(** C7, as amended.  For every input file and watermark: (1) the parse
    returns, and every emitted event has a timestamp strictly greater than
    the watermark or no timestamp at all (the record's timestamp is missing
    or is not a date: such a record is not filtered); (2) an empty line, a
    line that fails to parse and a record whose type is not one of the five
    source types add nothing and do not stop the stream; (3) a missing file
    makes the parse throw. *)
Theorem parseEvents_watermark_and_resilience `{Host}
    (lines before after : list string) (line : string) (watermark : Z)
    (since : option Z) :
  (exists evs,
      parseEvents (Some lines) (Some watermark) = Ok evs /\
      Forall (fun e => match Event.timestamp e with
                       | Some t => watermark < t
                       | None => True
                       end) evs)
  /\ (is_blank line = true
      \/ JSON_parse line = None
      \/ (exists rawEvent, JSON_parse line = Some rawEvent
                           /\ Vocabulary.unrecognized rawEvent = true) ->
      parseEvents (Some (before ++ line :: after)) since
      = parseEvents (Some (before ++ after)) since)
  /\ (exists e, parseEvents None since = Throw e).
Proof.
  split; [ | split ].
  - rewrite parseEvents_flat_map. eexists. split; [ reflexivity | ].
    apply Forall_flat_map, Forall_forall. intros l _.
    eapply List.Forall_impl; [ | apply line_events_not_le ].
    intros e He. simpl in He. destruct (Event.timestamp e) as [ t | ]; [ | exact I ].
    simpl in He. lia.
  - intros Hskip. apply parseEvents_skip.
    destruct Hskip as [ Hb | [ Hj | (rawEvent & Hj & Hu) ] ].
    + unfold line_events. now rewrite Hb.
    + unfold line_events. rewrite Hj. now destruct (is_blank line).
    + eapply line_events_unrecognized; eassumption.
  - eexists. reflexivity.
Qed.

Lemma parseEvents_watermark_and_resilience_witness :
  parseEvents (H := Examples.host)
    (Some ([stringify Examples.session_record]
           ++ stringify Examples.compaction_record :: [])) (Some 0)
  = parseEvents (H := Examples.host)
      (Some ([stringify Examples.session_record] ++ [])) (Some 0).
Proof.
  apply (proj1 (proj2 (parseEvents_watermark_and_resilience (H := Examples.host)
                         [] [stringify Examples.session_record] []
                         (stringify Examples.compaction_record) 0 (Some 0)))).
  right. right. exists Examples.compaction_record. split; reflexivity.
Defined.

(** C7 as stated fails: a record without a timestamp passes the watermark
    filter, and its event has no timestamp greater than the watermark. *)
Lemma parseEvents_emits_event_without_timestamp :
  ~ (forall evs,
        parseEvents (H := Examples.host) (Some [stringify Examples.untimed_record]) (Some 0)
        = Ok evs ->
        Forall (fun e => exists t, Event.timestamp e = Some t /\ 0 < t) evs).
Proof.
  intros Hall.
  specialize (Hall _ eq_refl).
  apply Forall_inv in Hall. destruct Hall as (t & Ht & _).
  vm_compute in Ht. discriminate Ht.
Qed.

End C7.

Module MessageFacts.
Import JS Num EventParser ParserFacts Vocabulary.

#[local] Arguments bind {A B} !r k /.

Section Facts.
Context `{Host}.

Lemma or_else_null_idem (v : jsval) :
  or_else (or_else v null) null = or_else v null.
Proof. unfold or_else. destruct (truthy v) eqn:Hv; [ now rewrite Hv | reflexivity ]. Qed.

Lemma tool_call_event_ok (rawId : jsval) (ts : option Z) (block : json)
    (e : Event.t) :
  tool_call_event rawId ts (Some block) = Ok e ->
  kind e = ("tool_call", tool_call_id rawId block) /\ child_of rawId ts e.
Proof.
  intros He. unfold tool_call_event in He. ok_inv.
  unfold kind, tool_call_id, block_id. rewrite E. repeat split.
Qed.

Lemma thinking_event_ok (rawId : jsval) (ts : option Z) (block : json)
    (e : Event.t) :
  thinking_event rawId ts (Some block) = Ok e ->
  kind e = ("thinking_block", thinking_id rawId) /\ child_of rawId ts e.
Proof.
  intros He. unfold thinking_event in He. ok_inv.
  destruct (or_else a (Some (JStr ""))) as [ [ | | | s | | ] | ];
    try discriminate He.
  injection He as <-. repeat split.
Qed.

Lemma block_events_kinds (rawId : jsval) (ts : option Z) (block : json)
    (evs : list Event.t) :
  block_events rawId ts block = Ok evs ->
  List.map kind evs = block_synthetics rawId block
  /\ Forall (child_of rawId ts) evs.
Proof.
  intros Hb. unfold block_events in Hb.
  unfold block_synthetics, is_tool_call, is_thinking, block_type_is.
  ok_inv; cbv beta iota.
  all: repeat match goal with
              | Hc : ?c = _ |- context [ ?c ] => rewrite Hc
              end.
  all: repeat match goal with
              | Ht : tool_call_event _ _ _ = Ok _ |- _ =>
                  apply tool_call_event_ok in Ht; destruct Ht as (? & ?)
              | Ht : thinking_event _ _ _ = Ok _ |- _ =>
                  apply thinking_event_ok in Ht; destruct Ht as (? & ?)
              end.
  all: cbn [List.map app]; split;
    [ congruence | repeat (constructor; [ assumption | ]); constructor ].
Qed.

Lemma content_events_kinds (rawId : jsval) (ts : option Z)
    (blocks : list json) (evs : list Event.t) :
  content_events rawId ts blocks = Ok evs ->
  List.map kind evs = content_synthetics rawId blocks
  /\ Forall (child_of rawId ts) evs.
Proof.
  revert evs. induction blocks as [ | b rest IH ]; intros evs Hc;
    cbn [content_events] in Hc.
  - ok_inv. split; [ reflexivity | constructor ].
  - ok_inv. destruct (block_events_kinds _ _ _ _ E) as (Hk1 & Hc1).
    destruct (IH _ eq_refl) as (Hk2 & Hc2). split.
    + rewrite List.map_app, Hk1, Hk2. reflexivity.
    + apply Forall_app. now split.
Qed.

Lemma usage_event_ok (rawId : jsval) (ts : option Z) (msg usage : jsval)
    (e : Event.t) :
  usage_event rawId ts msg usage = Ok e ->
  kind e = ("usage_stats", usage_id rawId) /\ child_of rawId ts e.
Proof.
  intros Hu. unfold usage_event in Hu. ok_inv. repeat split.
Qed.

(** The shape of a parse of a message record that returned: the main
    event, then the synthetic events of the content, then the usage
    event. *)
Lemma parseMessageEvent_shape (raw : jsval) (evs : list Event.t) :
  parseMessageEvent raw = Ok evs ->
  exists mainEvent children ts,
    evs = mainEvent :: children
    /\ kind mainEvent
       = (if is_str (message_role raw) "toolResult"
          then "tool_result" else "message", record_id raw)
    /\ Event.timestamp mainEvent = ts
    /\ ts = record_time raw
    /\ Vocabulary.parent_key mainEvent = record_parent raw
    /\ Event.session_id mainEvent = null
    /\ List.map kind children
       = content_synthetics (record_id raw) (assistant_blocks raw)
         ++ (if has_usage raw then [("usage_stats", usage_id (record_id raw))]
             else [])
    /\ Forall (child_of (record_id raw) ts) children.
Proof.
  intros Hp. unfold parseMessageEvent in Hp.
  unfold message_role, record_id, assistant_blocks, has_usage, record_time,
    record_parent, Vocabulary.parent_key.
  ok_inv; cbn [bind].
  all: repeat match goal with
              | Hc : ?c = _ |- context [ ?c ] =>
                  rewrite Hc; cbn [bind]
              end.
  all: eexists _, _, _;
    (split; [ reflexivity | ]);
    (split; [ unfold kind; cbn [Event.event_type Event.event_id plain];
              match goal with |- context [ if ?c then _ else _ ] => destruct c end;
              reflexivity | ]);
    (split; [ reflexivity | ]); (split; [ reflexivity | ]);
    (split; [ cbn [Event.parent_event_id plain];
              rewrite or_else_null_idem; reflexivity | ]);
    (split; [ reflexivity | ]).
  all: repeat match goal with
              | Hc : content_events _ _ _ = Ok _ |- _ =>
                  apply content_events_kinds in Hc; destruct Hc as (? & ?)
              | Hu : usage_event _ _ _ _ = Ok _ |- _ =>
                  apply usage_event_ok in Hu; destruct Hu as (? & ?)
              end.
  all: split;
    [ rewrite ?List.map_app; cbn [List.map content_synthetics flat_map];
      rewrite ?app_nil_r; congruence
    | rewrite ?app_nil_r; try (apply Forall_app; split);
      try assumption; repeat (constructor; [ assumption | ]); constructor ].
Qed.

(** ** When the parse of a message record returns *)

Lemma prop_nullish (v : jsval) (k : string) :
  if nullish v then prop v k = Throw TypeError
  else exists r, prop v k = Ok r.
Proof. destruct v as [ [ | | | | | ] | ]; cbn; eauto. Qed.

Lemma prop_ok (v : jsval) (k : string) :
  nullish v = false -> exists r, prop v k = Ok r.
Proof. intros Hn. pose proof (prop_nullish v k) as Hp. now rewrite Hn in Hp. Qed.

Lemma prop_ok_inv (v r : jsval) (k : string) :
  prop v k = Ok r -> nullish v = false.
Proof.
  intros Hp. pose proof (prop_nullish v k) as Hq.
  destruct (nullish v); [ congruence | reflexivity ].
Qed.

Lemma truthy_not_nullish (v : jsval) : truthy v = true -> nullish v = false.
Proof. destruct v as [ [ | | | | | ] | ]; cbn; congruence. Qed.

(** Solves [bind (prop v k) f = ...] chains when [v] is not nullish. *)
Ltac prop_steps :=
  repeat first
    [ match goal with
      | Hr : prop ?v ?k = Ok _ |- context [ prop ?v ?k ] =>
          rewrite Hr; cbn [bind]
      end
    | match goal with
      | Hn : nullish ?v = false |- context [ prop ?v ?k ] =>
          let r := fresh "r" in
          let Hr := fresh "Hr" in
          destruct (prop_ok v k Hn) as (r & Hr); rewrite Hr; cbn [bind]
      end ].

Lemma tool_call_event_total (rawId : jsval) (ts : option Z) (block : json) :
  nullish (Some block) = false ->
  exists e, tool_call_event rawId ts (Some block) = Ok e.
Proof. intros Hn. unfold tool_call_event. prop_steps. eauto. Qed.

Lemma block_events_total (rawId : jsval) (ts : option Z) (block : json) :
  (exists evs, block_events rawId ts block = Ok evs)
  <-> readable_block block = true.
Proof.
  unfold readable_block, is_thinking, block_type_is, block_events,
    thinking_event.
  destruct (nullish (Some block)) eqn:Hn.
  - destruct block; try discriminate Hn. cbn. split; [ | discriminate ].
    intros (evs & Hevs). discriminate Hevs.
  - assert (Hm : forall (A : Type) (x y : A),
               match block with JNull => x | _ => y end = y).
    { intros. destruct block; try reflexivity. discriminate Hn. }
    rewrite Hm. prop_steps.
    destruct (is_str r "toolCall" || is_str r "toolUse").
    + destruct (tool_call_event_total rawId ts block Hn) as (e & He).
      rewrite He. cbn [bind].
      destruct (is_str r "thinking"); [ | split; eauto ].
      prop_steps.
      destruct (or_else r0 (Some (JStr ""))) as [ [ | | | s | | ] | ];
        cbn [bind];
        (split;
         [ first [ intros _; reflexivity
                 | intros (evs & Hevs); discriminate Hevs ]
         | first [ intros _; eexists; reflexivity
                 | intros Hf; discriminate Hf ] ]).
    + cbn [bind].
      destruct (is_str r "thinking"); [ | split; eauto ].
      prop_steps.
      destruct (or_else r0 (Some (JStr ""))) as [ [ | | | s | | ] | ];
        cbn [bind];
        (split;
         [ first [ intros _; reflexivity
                 | intros (evs & Hevs); discriminate Hevs ]
         | first [ intros _; eexists; reflexivity
                 | intros Hf; discriminate Hf ] ]).
Qed.

Lemma content_events_total (rawId : jsval) (ts : option Z)
    (blocks : list json) :
  (exists evs, content_events rawId ts blocks = Ok evs)
  <-> forallb readable_block blocks = true.
Proof.
  induction blocks as [ | b rest IH ]; cbn [content_events forallb].
  - split; eauto.
  - rewrite andb_true_iff, <- IH, <- (block_events_total rawId ts b).
    split.
    + intros (evs & Hevs). ok_inv. eauto.
    + intros ((here & Hh) & (more & Hm)). rewrite Hh, Hm.
      cbn [bind]. eauto.
Qed.

Lemma usage_event_total (rawId : jsval) (ts : option Z) (msg usage : jsval) :
  nullish msg = false -> truthy usage = true ->
  exists e, usage_event rawId ts msg usage = Ok e.
Proof.
  intros Hm Hu. unfold usage_event.
  pose proof (truthy_not_nullish _ Hu) as Hn.
  prop_steps.
  assert (Hc : nullish (or_else r1 (Some (JObj []))) = false).
  { unfold or_else. destruct (truthy r1) eqn:Ht.
    - now apply truthy_not_nullish.
    - reflexivity. }
  prop_steps.
  destruct usage; [ eauto | discriminate Hu ].
Qed.

(** The parse of a message record returns exactly when the record is
    readable; the host plays no part in that. *)
Lemma parseMessageEvent_total (raw : jsval) :
  (exists evs, parseMessageEvent raw = Ok evs)
  <-> readable_message raw = true.
Proof.
  unfold readable_message, parseMessageEvent.
  destruct (nullish raw) eqn:Hraw.
  { pose proof (prop_nullish raw "message") as Hp. rewrite Hraw in Hp.
    rewrite Hp. cbn. split; [ | discriminate ].
    intros (evs & Hevs). discriminate Hevs. }
  destruct (prop_ok raw "message" Hraw) as (msg & Hmsg). rewrite Hmsg.
  cbn [bind]. cbv beta iota.
  destruct (nullish msg) eqn:Hm.
  { prop_steps. pose proof (prop_nullish msg "role") as Hp. rewrite Hm in Hp.
    rewrite Hp. destruct msg as [ [ | | | | | ] | ]; try discriminate Hm;
      split; try discriminate; intros (evs & Hevs); discriminate Hevs. }
  prop_steps.
  destruct msg as [ m | ]; [ | discriminate Hm ].
  assert (Hmm : forall (A : Type) (x y : A),
             match m with JNull => x | _ => y end = y).
  { intros. destruct m; try reflexivity. discriminate Hm. }
  rewrite Hmm. prop_steps.
  match goal with
  | |- context [ is_str ?role "assistant" && truthy ?usage ] =>
      match goal with
      | |- context [ usage_event ?i ?t _ usage ] =>
          assert (Husage : exists fromUsage,
                     (if is_str role "assistant" && truthy usage
                      then let* e := usage_event i t (Some m) usage in Ok [e]
                      else Ok []) = Ok fromUsage);
          [ destruct (is_str role "assistant" && truthy usage) eqn:Hc;
            [ apply andb_true_iff in Hc; destruct Hc as (_ & Ht);
              destruct (usage_event_total i t (Some m) usage Hm Ht) as (e & He);
              rewrite He; cbn [bind]; eauto
            | eauto ]
          | ]
      end
  end.
  destruct Husage as (fromUsage & Husage).
  match goal with
  | |- context [ if ?c then let* blocks := iterate ?content in
                            content_events ?i ?t blocks
                 else Ok [] ] =>
      destruct c;
      [ destruct (iterate content) as [ blocks | ]; cbn [bind];
        [ rewrite <- (content_events_total i t blocks); split;
          [ intros (evs & Hevs); ok_inv; eauto
          | intros (evs & Hevs); rewrite Hevs; cbn [bind];
            rewrite Husage; cbn [bind]; eauto ]
        | split; [ | discriminate ]; intros (evs & Hevs); discriminate Hevs ]
      | cbn [bind]; rewrite Husage;
        cbn [bind]; split; eauto ]
  end.
Qed.

End Facts.
End MessageFacts.

Module C4.
Import JS Num EventParser ParserFacts Vocabulary MessageFacts.

Lemma in_content_synthetics (parent : jsval) (blocks : list json)
    (ty : string) (id : jsval) :
  In (ty, id) (content_synthetics parent blocks) ->
  (ty = "tool_call"
   /\ exists block, In block blocks /\ is_tool_call block = true
                    /\ id = tool_call_id parent block)
  \/ (ty = "thinking_block" /\ id = thinking_id parent).
Proof.
  unfold content_synthetics. rewrite in_flat_map.
  intros (block & Hb & Hin). unfold block_synthetics in Hin.
  apply in_app_or in Hin. destruct Hin as [ Hin | Hin ].
  - destruct (is_tool_call block) eqn:Ht; [ | destruct Hin ].
    destruct Hin as [ [= <- <-] | [] ]. left. eauto.
  - destruct (is_thinking block); [ | destruct Hin ].
    destruct Hin as [ [= <- <-] | [] ]. right. auto.
Qed.

(** C4.  The identifiers of the synthetic events of a message record with
    id P are P_tool_{block id} for each tool call, P_thinking and P_usage;
    every tool-call block has its event; and the identifiers depend on the
    record alone: a parse of the same record on any host returns, with the
    same identifiers in the same order. *)
Theorem synthetic_event_ids `{Host} (raw : jsval) (evs : list Event.t) :
  parseMessageEvent raw = Ok evs ->
  Forall (synthetic_id_ok (record_id raw) (assistant_blocks raw)) evs
  /\ (forall block,
        In block (assistant_blocks raw) -> is_tool_call block = true ->
        exists e, In e evs
                  /\ kind e = ("tool_call", tool_call_id (record_id raw) block))
  /\ (forall other : Host,
        exists again,
          parseMessageEvent (H := other) raw = Ok again
          /\ List.map Event.event_id again = List.map Event.event_id evs).
Proof.
  intros Hp.
  destruct (parseMessageEvent_shape raw evs Hp)
    as (mainEvent & children & ts & -> & Hmain & _ & _ & _ & _ & Hkinds & _).
  split; [ | split ].
  - constructor.
    + unfold kind in Hmain. injection Hmain as Hty _.
      unfold synthetic_id_ok. rewrite Hty.
      destruct (is_str (message_role raw) "toolResult");
        repeat split; intros Hd; discriminate Hd.
    + apply List.Forall_forall. intros e He.
      assert (Hk : In (kind e)
                     (content_synthetics (record_id raw) (assistant_blocks raw)
                      ++ (if has_usage raw
                          then [("usage_stats", usage_id (record_id raw))]
                          else []))).
      { rewrite <- Hkinds. apply List.in_map. exact He. }
      unfold kind in Hk. apply in_app_or in Hk. destruct Hk as [ Hk | Hk ].
      * apply in_content_synthetics in Hk.
        destruct Hk as [ (Hty & block & Hb & Ht & Hid) | (Hty & Hid) ];
          unfold synthetic_id_ok; rewrite Hty;
          repeat split; intros Hd; try discriminate Hd; eauto.
      * destruct (has_usage raw); [ | destruct Hk ].
        destruct Hk as [ [= Hty Hid] | [] ].
        unfold synthetic_id_ok. rewrite <- Hty.
        repeat split; intros Hd; try discriminate Hd; auto.
  - intros block Hb Ht.
    assert (Hk : In ("tool_call", tool_call_id (record_id raw) block)
                   (List.map kind children)).
    { rewrite Hkinds. apply in_or_app. left.
      unfold content_synthetics. apply in_flat_map. exists block.
      split; [ exact Hb | ]. unfold block_synthetics. rewrite Ht.
      cbn [app]. left. reflexivity. }
    apply List.in_map_iff in Hk. destruct Hk as (e & Hk & He).
    exists e. split; [ now right | exact Hk ].
  - intros other.
    assert (Hr : readable_message raw = true).
    { apply (proj1 (parseMessageEvent_total (H := H) raw)). eexists. exact Hp. }
    apply (proj2 (parseMessageEvent_total (H := other) raw)) in Hr.
    destruct Hr as (again & Hagain). exists again. split; [ exact Hagain | ].
    destruct (parseMessageEvent_shape (H := other) raw again Hagain)
      as (mainEvent' & children' & ts' & -> & Hmain' & _ & _ & _ & _ & Hkinds' & _).
    cbn [List.map].
    assert (Hm : kind mainEvent' = kind mainEvent) by congruence.
    assert (Hc : List.map kind children' = List.map kind children)
      by congruence.
    f_equal.
    + unfold kind in Hm. congruence.
    + apply (f_equal (List.map snd)) in Hc.
      rewrite !List.map_map in Hc. exact Hc.
Qed.

Lemma synthetic_event_ids_witness :
  List.map Event.event_id (Examples.events_of Examples.assistant_record)
  = [Some (JStr "M"); Some (JStr "M_tool_T1"); Some (JStr "M_thinking");
     Some (JStr "M_usage")]
  /\ Forall (synthetic_id_ok (Some (JStr "M"))
               (assistant_blocks (Some Examples.assistant_record)))
            (Examples.events_of Examples.assistant_record).
Proof.
  split; [ vm_compute; reflexivity | ].
  refine (proj1 (synthetic_event_ids (H := Examples.host)
                   (Some Examples.assistant_record)
                   (Examples.events_of Examples.assistant_record) _)).
  vm_compute. reflexivity.
Defined.

End C4.

(* ===================================================================== *)
(** * Messages: queries, soft delete, edits                               *)
(* ===================================================================== *)

Module QueryFacts.
Import JS Num MessageArchive.

Lemma insert_desc_In (r x : MessageRow.t) (sorted : list MessageRow.t) :
  In x (insert_desc r sorted) <-> x = r \/ In x sorted.
Proof.
  induction sorted as [ | y rest IH ]; cbn [insert_desc].
  - cbn. intuition congruence.
  - destruct (MessageRow.timestamp y <=? MessageRow.timestamp r); cbn.
    + intuition congruence.
    + rewrite IH. intuition congruence.
Qed.

Lemma order_desc_In (x : MessageRow.t) (rows : list MessageRow.t) :
  In x (order_desc rows) <-> In x rows.
Proof.
  unfold order_desc.
  assert (Hgen : forall acc,
             In x (List.fold_left (fun sorted r => insert_desc r sorted) rows acc)
             <-> In x rows \/ In x acc).
  { induction rows as [ | r rest IH ]; intros acc; cbn [List.fold_left].
    - cbn. intuition.
    - rewrite IH, insert_desc_In. cbn. intuition congruence. }
  rewrite Hgen. cbn. intuition.
Qed.

Lemma order_desc_length (rows : list MessageRow.t) :
  List.length (order_desc rows) = List.length rows.
Proof.
  unfold order_desc.
  assert (Hins : forall r sorted,
             List.length (insert_desc r sorted) = S (List.length sorted)).
  { intros r sorted. induction sorted as [ | y rest IH ]; cbn [insert_desc].
    - reflexivity.
    - destruct (MessageRow.timestamp y <=? MessageRow.timestamp r); cbn;
        [ reflexivity | now rewrite IH ]. }
  assert (Hgen : forall acc,
             List.length (List.fold_left (fun sorted r => insert_desc r sorted) rows acc)
             = (List.length rows + List.length acc)%nat).
  { induction rows as [ | r rest IH ]; intros acc; cbn [List.fold_left].
    - reflexivity.
    - rewrite IH, Hins. cbn. lia. }
  rewrite Hgen. cbn. lia.
Qed.

Lemma limit_offset_In {A} (lim off : Z) (rows : list A) (x : A) :
  In x (limit_offset lim off rows) -> In x rows.
Proof.
  unfold limit_offset. intros Hin.
  assert (Hs : In x (List.skipn (Z.to_nat off) rows) -> In x rows).
  { intros Hx. rewrite <- (List.firstn_skipn (Z.to_nat off) rows).
    apply in_or_app. now right. }
  destruct (lim <? 0); [ now apply Hs | ].
  apply Hs. rewrite <- (List.firstn_skipn (Z.to_nat lim) (skipn _ rows)).
  apply in_or_app. now left.
Qed.

Lemma limit_offset_all {A} (lim off : Z) (rows : list A) :
  off <= 0 -> lim < 0 \/ Z.of_nat (List.length rows) <= lim ->
  limit_offset lim off rows = rows.
Proof.
  intros Hoff Hlim. unfold limit_offset.
  replace (Z.to_nat off) with 0%nat by lia. cbn [List.skipn].
  destruct (lim <? 0) eqn:Hneg; [ reflexivity | ].
  apply List.firstn_all2. lia.
Qed.

(** A change of the rows that keeps their timestamps goes through the
    ordering and through the page. *)
Lemma order_desc_map (g : MessageRow.t -> MessageRow.t)
    (rows : list MessageRow.t) :
  (forall r, MessageRow.timestamp (g r) = MessageRow.timestamp r) ->
  order_desc (List.map g rows) = List.map g (order_desc rows).
Proof.
  intros Hg. unfold order_desc.
  assert (Hins : forall r sorted,
             insert_desc (g r) (List.map g sorted)
             = List.map g (insert_desc r sorted)).
  { intros r sorted. induction sorted as [ | y rest IH ];
      cbn [insert_desc List.map]; [ reflexivity | ].
    rewrite !Hg.
    destruct (MessageRow.timestamp y <=? MessageRow.timestamp r);
      cbn [List.map]; [ reflexivity | now rewrite IH ]. }
  change (@nil MessageRow.t) with (List.map g []) at 1.
  generalize (@nil MessageRow.t) as acc.
  induction rows as [ | r rest IH ]; intros acc; cbn [List.fold_left List.map].
  - reflexivity.
  - rewrite Hins. apply IH.
Qed.

Lemma limit_offset_map {A B} (g : A -> B) (lim off : Z) (rows : list A) :
  limit_offset lim off (List.map g rows)
  = List.map g (limit_offset lim off rows).
Proof.
  unfold limit_offset. rewrite List.skipn_map.
  destruct (lim <? 0); [ reflexivity | apply List.firstn_map ].
Qed.

Section Facts.
Context `{Host}.

Lemma where_clause_default_hides_deleted (f : Filters) (r : MessageRow.t) :
  includeDeleted f <> Some true ->
  where_clause f r = true -> MessageRow.deleted_at r = None.
Proof.
  intros Hinc Hw. unfold where_clause in Hw.
  repeat (apply andb_true_iff in Hw; destruct Hw as (Hw & ?)).
  destruct (includeDeleted f) as [ [ | ] | ]; try congruence;
    cbn in *; now destruct (MessageRow.deleted_at r).
Qed.

Lemma where_clause_blind (f : Filters) (r : MessageRow.t) (d : option Z) :
  includeDeleted f = Some true ->
  where_clause f (MessageRow.set_deleted_at r d) = where_clause f r.
Proof. intros Hinc. unfold where_clause. rewrite Hinc. reflexivity. Qed.

Lemma queryMessages_In (f : Filters) (s : Store) (r : MessageRow.t) :
  In r (queryMessages f s) -> In r (messages s) /\ where_clause f r = true.
Proof.
  unfold queryMessages. intros Hin.
  apply limit_offset_In, order_desc_In, List.filter_In in Hin. exact Hin.
Qed.

Lemma queryMessages_complete (f : Filters) (s : Store) (r : MessageRow.t) :
  default 0 (offset f) <= 0 ->
  default 100 (limit f) < 0
  \/ Z.of_nat (List.length (messages s)) <= default 100 (limit f) ->
  In r (messages s) -> where_clause f r = true ->
  In r (queryMessages f s).
Proof.
  intros Hoff Hlim Hin Hw. unfold queryMessages.
  rewrite limit_offset_all.
  - apply order_desc_In, List.filter_In. now split.
  - exact Hoff.
  - destruct Hlim as [ Hl | Hl ]; [ now left | right ].
    rewrite order_desc_length.
    pose proof (List.filter_length_le (where_clause f) (messages s)). lia.
Qed.

End Facts.
End QueryFacts.

Module C9.
Import JS Num MessageArchive QueryFacts.

(** C9.  [softDeleteMessage] keeps every row in place and changes nothing
    but [deleted_at] of the rows of that message.  For every combination
    of the other filters, the limit and the offset included: a query that
    does not ask for deleted messages returns no row with a [deleted_at],
    and returns what it would return if the rows of the deleted message
    were not in the table; a query with includeDeleted returns the page it
    returned before the deletion, row for row, with the rows of the
    deleted message stamped, so that a deleted message the query showed is
    still shown; its WHERE clause ignores [deleted_at], and a stored row
    that satisfies it is returned when the page holds the whole result. *)
Theorem soft_delete_visibility `{Host} (s : Store) (messageId : string)
    (timestamp : option Z) (now : Z) (f : Filters) :
  let s' := softDeleteMessage messageId timestamp now s in
  let stamp r :=
    if String.eqb (MessageRow.message_id r) messageId
    then MessageRow.set_deleted_at r (Some (default now timestamp))
    else r in
  Forall2 (fun r r' =>
             r' = if String.eqb (MessageRow.message_id r) messageId
                  then MessageRow.set_deleted_at r (Some (default now timestamp))
                  else r)
          (messages s) (messages s')
  /\ (includeDeleted f <> Some true ->
      Forall (fun r => MessageRow.deleted_at r = None) (queryMessages f s')
      /\ queryMessages f s'
         = queryMessages f
             (with_messages s
                (List.filter
                   (fun r => negb (String.eqb (MessageRow.message_id r) messageId))
                   (messages s))))
  /\ (includeDeleted f = Some true ->
      queryMessages f s' = List.map stamp (queryMessages f s)
      /\ (forall r,
            In r (queryMessages f s) ->
            MessageRow.message_id r = messageId ->
            In (MessageRow.set_deleted_at r (Some (default now timestamp)))
               (queryMessages f s'))
      /\ forall r,
           In r (messages s) ->
           MessageRow.message_id r = messageId ->
           let r' := MessageRow.set_deleted_at r (Some (default now timestamp)) in
           In r' (messages s')
           /\ where_clause f r' = where_clause f r
           /\ (where_clause f r = true ->
               default 0 (offset f) <= 0 ->
               default 100 (limit f) < 0
               \/ Z.of_nat (List.length (messages s')) <= default 100 (limit f) ->
               In r' (queryMessages f s'))).
Proof.
  intros s' stamp.
  assert (Hrows : messages s' = List.map stamp (messages s)) by reflexivity.
  split; [ | split ].
  - clear Hrows. subst s'. unfold softDeleteMessage.
    cbn [messages with_messages].
    induction (messages s) as [ | r rest IH ]; cbn [List.map];
      constructor; auto.
  - intros Hinc. split.
    + apply List.Forall_forall. intros r Hr.
      apply queryMessages_In in Hr. destruct Hr as (_ & Hw).
      eapply where_clause_default_hides_deleted; eassumption.
    + unfold queryMessages. rewrite Hrows. cbn [messages with_messages].
      do 2 f_equal. clear Hrows.
      induction (messages s) as [ | r rest IH ]; [ reflexivity | ].
      change (List.filter (where_clause f) (stamp r :: List.map stamp rest)
              = List.filter (where_clause f)
                  (List.filter
                     (fun r => negb (String.eqb (MessageRow.message_id r) messageId))
                     (r :: rest))).
      cbn [List.filter]. rewrite IH. unfold stamp at 1 2.
      destruct (String.eqb (MessageRow.message_id r) messageId);
        cbn [negb List.filter]; [ | reflexivity ].
      destruct (where_clause f (MessageRow.set_deleted_at r _)) eqn:Hw;
        [ | reflexivity ].
      apply (where_clause_default_hides_deleted f _ Hinc) in Hw.
      discriminate Hw.
  - intros Hinc.
    assert (Hblind : forall r, where_clause f (stamp r) = where_clause f r).
    { intros r. unfold stamp.
      destruct (String.eqb (MessageRow.message_id r) messageId);
        [ now apply where_clause_blind | reflexivity ]. }
    assert (Hpage : queryMessages f s' = List.map stamp (queryMessages f s)).
    { unfold queryMessages. rewrite Hrows, <- limit_offset_map. f_equal.
      rewrite <- order_desc_map.
      - f_equal. clear Hrows.
        induction (messages s) as [ | r rest IH ]; [ reflexivity | ].
        cbn [List.map List.filter]. rewrite Hblind, IH.
        now destruct (where_clause f r).
      - intros r. unfold stamp.
        now destruct (String.eqb (MessageRow.message_id r) messageId). }
    split; [ exact Hpage | ]. split.
    + intros r Hin Hid. rewrite Hpage.
      replace (MessageRow.set_deleted_at r (Some (default now timestamp)))
        with (stamp r)
        by (unfold stamp; now rewrite Hid, String.eqb_refl).
      now apply List.in_map.
    + intros r Hin Hid r'.
      assert (Hin' : In r' (messages s')).
      { rewrite Hrows. apply List.in_map_iff. exists r. split; [ | exact Hin ].
        unfold stamp. rewrite Hid, String.eqb_refl. reflexivity. }
      assert (Hblind' : where_clause f r' = where_clause f r).
      { subst r'. now apply where_clause_blind. }
      split; [ exact Hin' | ]. split; [ exact Hblind' | ].
      intros Hw Hoff Hlim. apply queryMessages_complete; try assumption.
      now rewrite Hblind'.
Qed.

(** The picture P (at 2000) and the message M (at 1000) are stored and M
    is deleted at 7000: the default query does not show M; the second
    page of one row of a query with includeDeleted showed M before the
    deletion and shows it after, stamped. *)
Lemma soft_delete_visibility_witness :
  let s := Examples.store_with [Examples.photo; Examples.hello] empty_store in
  let s' := softDeleteMessage "M" (Some 7000) 8000 s in
  List.map MessageRow.message_id
    (queryMessages (H := Examples.host) Examples.no_filter s') = ["P"]
  /\ List.map MessageRow.message_id
       (queryMessages (H := Examples.host) Examples.second_with_deleted s)
     = ["M"]
  /\ List.map (fun r => (MessageRow.message_id r, MessageRow.deleted_at r))
       (queryMessages (H := Examples.host) Examples.second_with_deleted s')
     = [("M", Some 7000)].
Proof.
  intros s s'.
  pose proof (soft_delete_visibility (H := Examples.host) s "M" (Some 7000)
                8000 Examples.no_filter) as (_ & Hhidden & _).
  pose proof (soft_delete_visibility (H := Examples.host) s "M" (Some 7000)
                8000 Examples.second_with_deleted) as (_ & _ & Hshown).
  destruct (Hhidden ltac:(discriminate)) as (_ & Hdefault).
  destruct (Hshown eq_refl) as (Hpage & _).
  fold s' in Hdefault, Hpage.
  split; [ rewrite Hdefault; vm_compute; reflexivity | ].
  split; [ vm_compute; reflexivity | ].
  rewrite Hpage. vm_compute. reflexivity.
Defined.

End C9.

Module C8.
Import JS Num MessageArchive.

(** [updateMessage] on a message id that is not stored returns normally
    and leaves the whole database as it was. *)
Lemma updateMessage_absent (s : Store) (messageId newContent : string)
    (editTimestamp : option Z) (now : Z) :
  Forall (fun r => MessageRow.message_id r <> messageId) (messages s) ->
  updateMessage messageId newContent editTimestamp now s = Ok s.
Proof.
  intros Habs. unfold updateMessage.
  destruct (List.find _ (messages s)) as [ current | ] eqn:Hfind;
    [ | reflexivity ].
  apply List.find_some in Hfind. destruct Hfind as (Hin & Heq).
  apply String.eqb_eq in Heq.
  rewrite List.Forall_forall in Habs. now destruct (Habs _ Hin).
Qed.

(** [updateMessage] on a stored message whose text is not NULL appends one
    edit that carries the previous text and the edit timestamp, and
    rewrites the text and [edited_at] of the message. *)
Lemma updateMessage_existing (s : Store) (messageId newContent : string)
    (editTimestamp : option Z) (now : Z) (current : MessageRow.t)
    (previous : string) :
  List.find (fun r => String.eqb (MessageRow.message_id r) messageId)
            (messages s) = Some current ->
  MessageRow.content_text current = Some previous ->
  exists s',
    updateMessage messageId newContent editTimestamp now s = Ok s'
    /\ (exists edit,
          edits s' = edits s ++ [edit]
          /\ EditRow.message_id edit = messageId
          /\ EditRow.previous_content edit = previous
          /\ EditRow.edited_at edit = default now editTimestamp)
    /\ Forall2 (fun r r' =>
                  r' = if String.eqb (MessageRow.message_id r) messageId
                       then MessageRow.set_content r (Some newContent)
                              (Some (default now editTimestamp))
                       else r)
               (messages s) (messages s').
Proof.
  intros Hfind Hprev. unfold updateMessage. rewrite Hfind, Hprev.
  eexists. split; [ reflexivity | ]. split.
  - eexists. cbn [edits with_messages with_edits].
    split; [ reflexivity | ]. repeat split.
  - cbn [messages with_messages with_edits].
    generalize (messages s) as rows.
    induction rows as [ | r rest IH ]; cbn [List.map]; constructor; auto.
Qed.

(** C8, where the code fails it.  A message stored with an empty text has
    a NULL [content_text]; [updateMessage] on it throws the NOT NULL
    violation of [edits.previous_content] instead of appending the edit
    and rewriting the message. *)
Theorem updateMessage_throws_on_message_without_text :
  let s := Examples.store_with [Examples.photo] empty_store in
  List.map MessageRow.message_id (messages s) = ["P"]
  /\ List.map MessageRow.content_text (messages s) = [None]
  /\ updateMessage "P" "a caption" (Some 9000) 9500 s
     = Throw (SqliteError NOTNULL).
Proof. vm_compute. repeat split. Qed.

End C8.

Module DedupFacts.
Import JS Num MessageArchive.

Lemma isDuplicate_stages (s : Store) (m : Message.t) :
  isDuplicate s m = byId s m || byHash s m || fuzzy s m.
Proof.
  unfold isDuplicate. destruct (byId s m), (byHash s m); reflexivity.
Qed.

(** What [insertMessage] stores when it returns a rowid. *)
Lemma insertMessage_inserted (m : Message.t) (skip : option bool)
    (now rowid : Z) (s s1 : Store) :
  insertMessage m skip now s = Ok (Some rowid, s1) ->
  exists row,
    messages s1 = messages s ++ [row]
    /\ Message.message_id m = Some (MessageRow.message_id row)
    /\ MessageRow.content_hash row = Some (hashMessage m)
    /\ MessageRow.sender_id row = nonempty (Message.sender_id m)
    /\ MessageRow.content_text row = nonempty (Message.content_text m)
    /\ Message.timestamp m = Some (MessageRow.timestamp row).
Proof.
  unfold insertMessage.
  destruct (default true skip && isDuplicate s m); [ discriminate | ].
  unfold insert_message_row.
  destruct (Message.message_id m) as [ mid | ]; [ | discriminate ].
  destruct (Message.session_key m); [ | discriminate ].
  destruct (Message.direction m); [ | discriminate ].
  destruct (Message.channel m); [ | discriminate ].
  destruct (Message.timestamp m); [ | discriminate ].
  repeat match goal with
         | |- context [ if ?c then Throw _ else _ ] => destruct c
         end; try discriminate.
  cbn [bind fst snd]. intros [= <- <-].
  eexists. cbn [messages with_messages]. repeat split.
Qed.

Lemma insertMessage_skips (m : Message.t) (skip : option bool) (now : Z)
    (s : Store) :
  skip <> Some false -> isDuplicate s m = true ->
  insertMessage m skip now s = Ok (None, s).
Proof.
  intros Hskip Hdup. unfold insertMessage. rewrite Hdup.
  destruct skip as [ [ | ] | ]; try reflexivity. congruence.
Qed.

End DedupFacts.

Module C2.
Import JS Num MessageArchive DedupFacts.

(** C2, as amended.  The duplicate predicate is the disjunction of its
    three stages.  For two messages inserted into an empty database with
    skipIfExists, where the first insert stores its row: if their message
    ids are equal, or their fingerprints (SHA-256, in hex, of sender id,
    timestamp and text joined by a bar) are equal, or they have the same
    non-empty sender id and the same non-empty text and timestamps less
    than 1000 ms apart, then the second insert returns null and exactly
    one row exists afterward.  The third stage is not tried when the
    sender id or the text is missing or empty. *)
Theorem duplicate_detection (m1 m2 : Message.t) (skip1 skip2 : option bool)
    (now1 now2 rowid : Z) (s1 : Store) :
  skip2 <> Some false ->
  insertMessage m1 skip1 now1 empty_store = Ok (Some rowid, s1) ->
  Message.message_id m1 = Message.message_id m2
  \/ hashMessage m1 = hashMessage m2
  \/ (exists sender text t1 t2,
         Message.sender_id m1 = Some sender
         /\ Message.sender_id m2 = Some sender /\ sender <> ""
         /\ Message.content_text m1 = Some text
         /\ Message.content_text m2 = Some text /\ text <> ""
         /\ Message.timestamp m1 = Some t1 /\ Message.timestamp m2 = Some t2
         /\ Z.abs (t1 - t2) < 1000) ->
  (forall s m, isDuplicate s m = byId s m || byHash s m || fuzzy s m)
  /\ insertMessage m2 skip2 now2 s1 = Ok (None, s1)
  /\ List.length (messages s1) = 1%nat.
Proof.
  intros Hskip Hins Hdup.
  split; [ exact isDuplicate_stages | ].
  destruct (insertMessage_inserted _ _ _ _ _ _ Hins)
    as (row & Hrows & Hid & Hhash & Hsender & Htext & Hts).
  cbn [messages empty_store app] in Hrows.
  split; [ | now rewrite Hrows ].
  apply insertMessage_skips; [ exact Hskip | ].
  rewrite isDuplicate_stages.
  destruct Hdup as [ Hsame | [ Hsame | Hnear ] ].
  - assert (Hb : byId s1 m2 = true).
    { unfold byId. rewrite <- Hsame, Hid, Hrows. cbn [existsb].
      now rewrite String.eqb_refl. }
    now rewrite Hb.
  - assert (Hb : byHash s1 m2 = true).
    { unfold byHash. rewrite Hrows. cbn [existsb]. rewrite Hhash, Hsame.
      cbn [sql_eq]. now rewrite String.eqb_refl. }
    rewrite Hb. now destruct (byId s1 m2).
  - destruct Hnear as (sender & text & t1 & t2 & Hs1 & Hs2 & Hsne & Hc1 & Hc2
                       & Htne & Ht1 & Ht2 & Hclose).
    assert (Hne : forall x, x <> "" -> nonempty (Some x) = Some x).
    { intros x Hx. cbn [nonempty]. destruct (String.eqb_spec x ""); congruence. }
    assert (Hb : fuzzy s1 m2 = true).
    { unfold fuzzy. rewrite Hs2, Hc2, Ht2, !Hne by assumption.
      rewrite Hrows. cbn [existsb].
      rewrite Hsender, Htext, Hs1, Hc1, !Hne by assumption.
      cbn [sql_eq]. rewrite !String.eqb_refl.
      assert (Hrow : MessageRow.timestamp row = t1) by congruence.
      rewrite Hrow.
      destruct (Z.ltb_spec (Z.abs (t1 - t2)) 1000); [ reflexivity | lia ]. }
    rewrite Hb. now destruct (byId s1 m2), (byHash s1 m2).
Qed.

Lemma duplicate_detection_witness :
  let s1 := Examples.store_with [Examples.hello] empty_store in
  insertMessage (Examples.message "M2" "user123" "hello" 1400) None 6000 s1
  = Ok (None, s1)
  /\ List.length (messages s1) = 1%nat.
Proof.
  intros s1.
  refine (proj2 (duplicate_detection Examples.hello
                   (Examples.message "M2" "user123" "hello" 1400)
                   None None 5000 6000 1 s1 _ _ _)).
  - discriminate.
  - vm_compute. reflexivity.
  - right. right. exists "user123", "hello", 1000, 1400.
    repeat split; discriminate.
Defined.

(** C2 as stated fails: two messages of one sender with the same (empty)
    text and timestamps 500 ms apart are both stored, because the third
    stage is skipped for an empty text. *)
Lemma near_duplicates_without_text_both_stored :
  Message.sender_id Examples.picture1 = Message.sender_id Examples.picture2
  /\ Message.content_text Examples.picture1
     = Message.content_text Examples.picture2
  /\ (exists t1 t2,
        Message.timestamp Examples.picture1 = Some t1
        /\ Message.timestamp Examples.picture2 = Some t2
        /\ Z.abs (t1 - t2) < 1000)
  /\ exists s1 s2,
       insertMessage Examples.picture1 (Some true) 5000 empty_store
       = Ok (Some 1, s1)
       /\ insertMessage Examples.picture2 (Some true) 5000 s1 = Ok (Some 2, s2)
       /\ List.length (messages s2) = 2%nat.
Proof.
  split; [ reflexivity | ]. split; [ reflexivity | ]. split.
  - exists 1000, 1500. repeat split.
  - eexists _, _. split; [ vm_compute; reflexivity | ].
    split; vm_compute; reflexivity.
Qed.

End C2.

Module C10.
Import JS Num MessageArchive DedupFacts WhatsAppExportParser.

Lemma byId_mono (m : Message.t) (skip : option bool) (now : Z)
    (s s1 : Store) (r : option Z) (m' : Message.t) :
  insertMessage m skip now s = Ok (r, s1) ->
  byId s m' = true -> byId s1 m' = true.
Proof.
  intros Hins Hb. destruct r as [ rowid | ].
  - destruct (insertMessage_inserted _ _ _ _ _ _ Hins) as (row & Hrows & _).
    unfold byId in *. destruct (Message.message_id m'); [ | discriminate ].
    rewrite Hrows, List.existsb_app, Hb. reflexivity.
  - unfold insertMessage in Hins.
    destruct (default true skip && isDuplicate s m).
    + injection Hins as <-. exact Hb.
    + destruct (insert_message_row s m _ _); discriminate.
Qed.

Lemma insertBatch_loop_byId (msgs : list Message.t) (now : Z) (s s2 : Store)
    (i k i' k' : Z) (m' : Message.t) :
  insertBatch_loop msgs now s i k = Ok (i', k', s2) ->
  byId s m' = true -> byId s2 m' = true.
Proof.
  revert s i k. induction msgs as [ | m rest IH ]; intros s i k Hloop Hb;
    cbn [insertBatch_loop] in Hloop.
  - injection Hloop as <- <- <-. exact Hb.
  - destruct (insertMessage m (Some true) now s) as [ [ r s1 ] | ] eqn:Hins;
      cbn [bind fst snd] in Hloop; [ | discriminate ].
    pose proof (byId_mono _ _ _ _ _ _ _ Hins Hb) as Hb1.
    destruct r as [ rowId | ]; [ destruct (rowId =? 0) | ];
      eapply IH; eassumption.
Qed.

(** C10, as amended.  The message id the WhatsApp parser mints is
    whatsapp_export_<timestamp>_<sender, white space replaced by
    underscores>; two lines with the same sender and the same timestamp get
    the same id, whatever their texts; and when the first of them is stored
    by the batch, the second is rejected by the exact-id stage of the
    duplicate check, whatever is inserted in between. *)
Theorem whatsapp_ids_collide `{Host} (p1 p2 : Parsed) (now : Z) :
  let m1 := normalizeMessage p1 now in
  let m2 := normalizeMessage p2 now in
  Message.message_id m1
  = Some ("whatsapp_export_" +:+ Number_toString (Message.timestamp m1)
          +:+ "_" +:+ replace_spaces false (sender p1))
  /\ (sender p1 = sender p2 ->
      Message.timestamp m1 = Message.timestamp m2 ->
      Message.message_id m1 = Message.message_id m2
      /\ forall (clock rowid : Z) (s s1 s2 : Store) (between : list Message.t)
                (i k i' k' : Z),
           insertMessage m1 (Some true) clock s = Ok (Some rowid, s1) ->
           insertBatch_loop between clock s1 i k = Ok (i', k', s2) ->
           byId s2 m2 = true
           /\ insertMessage m2 (Some true) clock s2 = Ok (None, s2)).
Proof.
  intros m1 m2. split; [ reflexivity | ].
  intros Hsender Hts.
  assert (Hid : Message.message_id m1 = Message.message_id m2).
  { subst m1 m2. unfold normalizeMessage in *. cbn [Message.timestamp] in Hts.
    cbn [Message.message_id]. now rewrite Hsender, Hts. }
  split; [ exact Hid | ].
  intros clock rowid s s1 s2 between i k i' k' Hins Hloop.
  assert (Hb1 : byId s1 m2 = true).
  { destruct (insertMessage_inserted _ _ _ _ _ _ Hins) as (row & Hrows & Hrid & _).
    unfold byId. rewrite <- Hid, Hrid, Hrows, List.existsb_app.
    cbn [existsb]. rewrite String.eqb_refl. now rewrite orb_true_r. }
  pose proof (insertBatch_loop_byId _ _ _ _ _ _ _ _ _ Hloop Hb1) as Hb2.
  split; [ exact Hb2 | ].
  apply insertMessage_skips; [ discriminate | ].
  rewrite isDuplicate_stages, Hb2. reflexivity.
Qed.

Lemma whatsapp_ids_collide_witness :
  Message.message_id (Examples.normalize Examples.bob_bye)
  = Some "whatsapp_export_1704061800000_Bob"
  /\ Message.message_id (Examples.normalize Examples.bob_hi)
     = Message.message_id (Examples.normalize Examples.bob_bye)
  /\ exists s1,
       insertMessage (Examples.normalize Examples.bob_hi) (Some true) 9000
         empty_store = Ok (Some 1, s1)
       /\ insertMessage (Examples.normalize Examples.bob_bye) (Some true) 9000 s1
          = Ok (None, s1).
Proof.
  destruct (whatsapp_ids_collide (H := Examples.whatsapp_host)
              Examples.bob_hi Examples.bob_bye 0) as (_ & Hpair).
  destruct (Hpair eq_refl eq_refl) as (Hid & Hskip).
  split; [ vm_compute; reflexivity | ]. split; [ exact Hid | ].
  eexists. split; [ vm_compute; reflexivity | ].
  refine (proj2 (Hskip 9000 1 empty_store _ _ [] 0 0 0 0 _ _));
    vm_compute; reflexivity.
Defined.

(** C10 as stated fails: of two lines of Bob in the same minute, the
    first is dropped as a fingerprint duplicate of Alice's line (the
    export carries no sender id, so the fingerprint covers timestamp and
    text only); its id never reaches the database, and the second line of
    Bob is stored. *)
Lemma whatsapp_second_of_pair_is_kept :
  Message.message_id (Examples.normalize Examples.bob_hi)
  = Message.message_id (Examples.normalize Examples.bob_bye)
  /\ exists s,
       insertBatch
         (List.map Examples.normalize
            [Examples.alice_hi; Examples.bob_hi; Examples.bob_bye])
         9000 empty_store = Ok (2, 1, s)
       /\ List.map (fun r => (MessageRow.sender_name r, MessageRow.content_text r))
                   (messages s)
          = [(Some "Alice", Some "Hi"); (Some "Bob", Some "Bye")].
Proof.
  split; [ vm_compute; reflexivity | ].
  eexists. split; [ vm_compute; reflexivity | ].
  vm_compute. reflexivity.
Qed.

End C10.

(* ===================================================================== *)
(** * The JSONL export                                                    *)
(* ===================================================================== *)

Module C6.
Import JS Num MessageArchive.

(** C6, where the code fails it.  The session AAA holds the session event
    and the user message U1 of 12:00:03.000; the body of the message
    carries a [timestamp] property of its own.  [Object.assign] copies the
    body over the rebuilt object, so the exported line of U1 carries the
    body's number in [timestamp], not the timestamp of the event. *)
Theorem export_line_takes_timestamp_of_body :
  List.map (fun r => (EventRow.event_id r, EventRow.event_type r,
                      EventRow.timestamp r))
           (events Examples.chat_store)
  = [("AAA", "session", 1770984000000); ("U1", "message", 1770984003000)]
  /\ toISOString (Some 1770984003000) = Ok "2026-02-13T12:00:03.000Z"
  /\ exists line1 line2,
       exportSessionObjects "AAA" Examples.chat_store
       = Ok [JObj line1; JObj line2]
       /\ assoc "id" line2 = Some (JStr "U1")
       /\ assoc "timestamp" line2 = Some (JNum 1770984003123).
Proof.
  split; [ vm_compute; reflexivity | ].
  split; [ vm_compute; reflexivity | ].
  eexists _, _. split; [ vm_compute; reflexivity | ].
  split; vm_compute; reflexivity.
Qed.

End C6.
(* ===================================================================== *)
(** * The events table                                                    *)
(* ===================================================================== *)

Module EventFacts.
Import JS Num MessageArchive Vocabulary.

#[local] Arguments bind {A B} !r k /.

(** ** Binding *)

Lemma bind_text_bound (v : jsval) :
  bind_text v = if bindable v then Ok (bound v) else Throw TypeError.
Proof. unfold bound. destruct v as [ [ | | | | | ] | ]; reflexivity. Qed.


Lemma bind_number_bindable (v : jsval) :
  bindable v = true -> exists j, bind_number v = Ok j.
Proof. destruct v as [ [ | | | | | ] | ]; cbn; try discriminate; eauto. Qed.

(** ** The session id a session event gives itself *)

Lemma fill_own_session_eq (e : Event.t) :
  fill_own_session e
  = Event.set_session_id e (Event.session_id (fill_own_session e)).
Proof.
  unfold fill_own_session. destruct (_ && _); destruct e; reflexivity.
Qed.

Lemma fill_own_session_id (e : Event.t) :
  Event.event_id (fill_own_session e) = Event.event_id e.
Proof. unfold fill_own_session. now destruct (_ && _). Qed.

Lemma fill_own_session_parent (e : Event.t) :
  Event.parent_event_id (fill_own_session e) = Event.parent_event_id e.
Proof. unfold fill_own_session. now destruct (_ && _). Qed.

Lemma fill_own_session_timestamp (e : Event.t) :
  Event.timestamp (fill_own_session e) = Event.timestamp e.
Proof. unfold fill_own_session. now destruct (_ && _). Qed.

Lemma fill_own_session_type (e : Event.t) :
  Event.event_type (fill_own_session e) = Event.event_type e.
Proof. unfold fill_own_session. now destruct (_ && _). Qed.

(** ** The table grows *)

Lemma has_event_app (s : Store) (rows : list EventRow.t) (k : option string) :
  has_event (with_events s (events s ++ rows)) k
  = has_event s k
    || match k with
       | Some i => existsb (fun r => String.eqb (EventRow.event_id r) i) rows
       | None => false
       end.
Proof.
  unfold has_event. destruct k as [ i | ]; [ | reflexivity ].
  cbn [events with_events]. apply List.existsb_app.
Qed.

Lemma has_event_grow (s s1 : Store) (rows : list EventRow.t)
    (k : option string) :
  events s1 = events s ++ rows ->
  has_event s k = true -> has_event s1 k = true.
Proof.
  intros Hrows Hhas. unfold has_event in *. destruct k as [ i | ];
    [ | discriminate Hhas ].
  rewrite Hrows, List.existsb_app, Hhas. reflexivity.
Qed.


Lemma fk_ok_grow (s s1 : Store) (rows : list EventRow.t) (e : Event.t) :
  events s1 = events s ++ rows -> foreign_keys s1 = foreign_keys s ->
  fk_ok s e = true -> fk_ok s1 e = true.
Proof.
  intros Hrows Hfk. unfold fk_ok. rewrite Hfk.
  destruct (foreign_keys s); cbn [negb orb]; [ | reflexivity ].
  destruct (parent_key e) as [ p | ]; [ | reflexivity ].
  destruct (match event_key e with Some i => String.eqb p i | None => false end);
    cbn [orb]; [ reflexivity | ].
  apply (has_event_grow s s1 rows (Some p) Hrows).
Qed.

(** ** The satellite tables *)

Lemma same_events_refl (s : Store) : same_events s s.
Proof. repeat split. Qed.

Lemma insertThinkingBlock_frame (i : jsval) (content : string)
    (signature : jsval) (size : option Z) (now : Z) (s s1 : Store) :
  insertThinkingBlock i content signature size now s = Ok s1 ->
  same_events s s1.
Proof.
  unfold insertThinkingBlock. intros Hins.
  destruct (bind_text i) as [ [ k | ] | ]; cbn [bind] in Hins;
    try discriminate Hins;
    destruct (bind_text (or_else signature null)); cbn [bind] in Hins;
    try discriminate Hins.
  destruct (existsb _ _); injection Hins as <-; repeat split.
Qed.

Lemma insertUsageStats_frame (i : jsval) (usage : Event.Usage)
    (provider modelId : jsval) (timestamp : option Z) (s s1 : Store) :
  insertUsageStats i usage provider modelId timestamp s = Ok s1 ->
  same_events s s1.
Proof.
  unfold insertUsageStats. intros Hins.
  repeat match type of Hins with
         | bind ?r _ = _ => destruct r; cbn [bind] in Hins;
                            [ | discriminate Hins ]
         end.
  match type of Hins with
  | match ?k with _ => _ end = _ => destruct k; [ | discriminate Hins ]
  end.
  destruct (existsb _ _); injection Hins as <-; repeat split.
Qed.

Lemma insert_satellites_frame (e : Event.t) (now : Z) (s : Store) :
  same_events s (snd (insert_satellites e now s)).
Proof.
  unfold insert_satellites.
  match goal with
  | |- context [ match ?t with Ok _ => _ | Throw _ => _ end ] =>
      destruct t as [ s1 | ex ] eqn:Hthinking
  end; [ | apply same_events_refl ].
  assert (H1 : same_events s s1).
  { destruct (Event._thinking_content e);
      [ match type of Hthinking with
        | (if ?c then _ else _) = _ => destruct c
        end;
        [ now apply insertThinkingBlock_frame in Hthinking | ] | ];
      injection Hthinking as <-; apply same_events_refl. }
  match goal with
  | |- context [ match ?u with Ok _ => _ | Throw _ => _ end ] =>
      destruct u as [ s2 | ex ] eqn:Husage
  end; cbn [snd]; [ | exact H1 ].
  assert (H2 : same_events s1 s2).
  { destruct (Event._usage e);
      [ match type of Husage with
        | (if ?c then _ else _) = _ => destruct c
        end;
        [ now apply insertUsageStats_frame in Husage | ] | ];
      injection Husage as <-; apply same_events_refl. }
  destruct H1 as (? & ? & ? & ? & ?), H2 as (? & ? & ? & ? & ?).
  repeat split; congruence.
Qed.

(** What the satellite inserts throw is never a conflict of
    uniqueness: the [catch] of [insertEvent] throws it again. *)
Lemma insertThinkingBlock_throws (i : jsval) (content : string)
    (signature : jsval) (size : option Z) (now : Z) (s : Store) (ex : exn)
    (skip : bool) :
  insertThinkingBlock i content signature size now s = Throw ex ->
  caught skip ex = Throw ex.
Proof.
  unfold insertThinkingBlock. rewrite !bind_text_bound. intros Hins.
  destruct (bindable i); cbn [bind] in Hins;
    [ | injection Hins as <-; reflexivity ].
  destruct (bindable (or_else signature null)); cbn [bind] in Hins;
    [ | injection Hins as <-; reflexivity ].
  destruct (bound i); [ | injection Hins as <-; reflexivity ].
  destruct (existsb _ _); discriminate Hins.
Qed.

Lemma insertUsageStats_throws (i : jsval) (usage : Event.Usage)
    (provider modelId : jsval) (timestamp : option Z) (s : Store) (ex : exn)
    (skip : bool) :
  insertUsageStats i usage provider modelId timestamp s = Throw ex ->
  caught skip ex = Throw ex.
Proof.
  unfold insertUsageStats. intros Hins.
  assert (Hnum : forall v, bind_number v = Throw ex -> ex = TypeError)
    by (intros [ [ | | | | | ] | ]; cbn; congruence).
  assert (Htext : forall v, bind_text v = Throw ex -> ex = TypeError)
    by (intros [ [ | | | | | ] | ]; cbn; congruence).
  repeat match type of Hins with
         | bind ?r _ = _ =>
             let E := fresh "E" in
             destruct r eqn:E; cbn [bind] in Hins;
             [ | injection Hins as <-;
                 first [ apply Hnum in E | apply Htext in E ];
                 subst; reflexivity ]
         end.
  match type of Hins with
  | match ?k with _ => _ end = _ =>
      destruct k; [ | injection Hins as <-; reflexivity ]
  end.
  destruct (existsb _ _); discriminate Hins.
Qed.

Lemma insert_satellites_throws (e : Event.t) (now : Z) (s : Store) (ex : exn)
    (skip : bool) :
  fst (insert_satellites e now s) = Throw ex ->
  caught skip ex = Throw ex.
Proof.
  unfold insert_satellites.
  match goal with
  | |- context [ match ?t with Ok _ => _ | Throw _ => _ end ] =>
      destruct t as [ s1 | ex1 ] eqn:Hthinking
  end.
  - match goal with
    | |- context [ match ?u with Ok _ => _ | Throw _ => _ end ] =>
        destruct u as [ s2 | ex2 ] eqn:Husage
    end; cbn [fst]; [ discriminate | ].
    intros [= <-].
    destruct (Event._usage e);
      [ match type of Husage with
        | (if ?c then _ else _) = _ => destruct c
        end | ];
      try discriminate Husage.
    now apply (insertUsageStats_throws _ _ _ _ _ _ _ skip) in Husage.
  - cbn [fst]. intros [= <-].
    destruct (Event._thinking_content e);
      [ match type of Hthinking with
        | (if ?c then _ else _) = _ => destruct c
        end | ];
      try discriminate Hthinking.
    now apply (insertThinkingBlock_throws _ _ _ _ _ _ _ skip) in Hthinking.
Qed.


Lemma bind_number_bound (v : jsval) :
  bind_number v
  = if bindable v then Ok (default JNull v) else Throw TypeError.
Proof. destruct v as [ [ | | | | | ] | ]; reflexivity. Qed.

(** A chain of bindings, one value at a time: the value binds and the
    chain goes on, or it does not and the chain throws. *)
Ltac bind_chain :=
  repeat (first [ rewrite bind_text_bound | rewrite bind_number_bound ];
          match goal with
          | Hb : bindable ?v = true |- context [ if bindable ?v then _ else _ ] =>
              rewrite Hb; cbn [bind andb]
          | |- context [ if bindable ?v then _ else _ ] =>
              destruct (bindable v); cbn [bind andb fst]; [ | try reflexivity ]
          end).

Lemma insert_satellites_outcome (e : Event.t) (now : Z) (s : Store) :
  row_binds e = true -> event_key e <> None ->
  fst (insert_satellites (fill_own_session e) now s)
  = if satellite_binds e then Ok tt else Throw TypeError.
Proof.
  intros Hbinds Hkey.
  assert (Hid : bindable (Event.event_id e) = true
                /\ bindable (or_else (Event.model_provider e) null) = true
                /\ bindable (or_else (Event.model_id e) null) = true).
  { unfold row_binds in Hbinds.
    repeat (apply andb_true_iff in Hbinds; destruct Hbinds as (Hbinds & ?)).
    auto. }
  destruct Hid as (Hid & Hprovider & Hmodel).
  unfold event_key in Hkey.
  rewrite (fill_own_session_eq e). generalize (Event.session_id (fill_own_session e)).
  intros sid.
  unfold insert_satellites, satellite_binds, insertThinkingBlock,
    insertUsageStats, usage_binds.
  cbn [Event.set_session_id Event._thinking_content Event.event_type
       Event.event_id Event._thinking_signature Event._content_size
       Event._usage Event.model_provider Event.model_id Event.timestamp
       forallb].
  destruct (bound (Event.event_id e)) as [ i | ] eqn:Hi; [ | contradiction ].
  destruct (Event._thinking_content e) as [ content | ];
    [ change (default "" (Some content)) with content
    | change (default "" (@None string)) with "" ].
  - destruct (String.eqb (Event.event_type e) "thinking_block") eqn:Hty;
      cbn [andb].
    + apply String.eqb_eq in Hty. rewrite Hty.
      change (String.eqb "thinking_block" "usage_stats") with false.
      destruct (negb (String.eqb content "")).
      * bind_chain. rewrite Hi.
        destruct (existsb _ _); cbn [fst];
          destruct (Event._usage e); reflexivity.
      * cbn [fst]. destruct (Event._usage e); reflexivity.
    + destruct (Event._usage e) as [ u | ]; [ | reflexivity ].
      destruct (String.eqb (Event.event_type e) "usage_stats");
        [ | reflexivity ].
      bind_chain. rewrite Hi. destruct (existsb _ _); reflexivity.
  - change (negb (String.eqb "" "")) with false. rewrite andb_false_r.
    destruct (Event._usage e) as [ u | ]; [ | reflexivity ].
    destruct (String.eqb (Event.event_type e) "usage_stats");
      [ | reflexivity ].
    bind_chain. rewrite Hi. destruct (existsb _ _); reflexivity.
Qed.

(** ** The main INSERT *)

Lemma fill_own_session_fields (e : Event.t) :
  Event.event_subtype (fill_own_session e) = Event.event_subtype e
  /\ Event.role (fill_own_session e) = Event.role e
  /\ Event.tool_name (fill_own_session e) = Event.tool_name e
  /\ Event.model_provider (fill_own_session e) = Event.model_provider e
  /\ Event.model_id (fill_own_session e) = Event.model_id e
  /\ Event.content_json (fill_own_session e) = Event.content_json e
  /\ Event.is_error (fill_own_session e) = Event.is_error e.
Proof. unfold fill_own_session. destruct (_ && _); repeat split. Qed.

Ltac fill_fields :=
  rewrite ?fill_own_session_id, ?fill_own_session_parent,
    ?fill_own_session_timestamp, ?fill_own_session_type,
    ?(proj1 (fill_own_session_fields _)),
    ?(proj1 (proj2 (fill_own_session_fields _))),
    ?(proj1 (proj2 (proj2 (fill_own_session_fields _)))),
    ?(proj1 (proj2 (proj2 (proj2 (fill_own_session_fields _))))),
    ?(proj1 (proj2 (proj2 (proj2 (proj2 (fill_own_session_fields _)))))).

Lemma row_binds_split (e : Event.t) :
  row_binds e = true ->
  bindable (Event.event_id e) = true
  /\ bindable (or_else (Event.parent_event_id e) null) = true
  /\ bindable (or_else (Event.session_id (fill_own_session e)) null) = true
  /\ bindable (or_else (Event.event_subtype e) null) = true
  /\ bindable (or_else (Event.role e) null) = true
  /\ bindable (or_else (Event.tool_name e) null) = true
  /\ bindable (or_else (Event.model_provider e) null) = true
  /\ bindable (or_else (Event.model_id e) null) = true.
Proof.
  unfold row_binds. intros Hb.
  repeat (apply andb_true_iff in Hb; destruct Hb as (Hb & ?)).
  repeat split; assumption.
Qed.


Lemma insert_event_row_accepts (s : Store) (e : Event.t) (key : string)
    (now size : Z) :
  row_binds e = true -> row_valid e = true ->
  has_event s (event_key e) = false -> fk_ok s e = true ->
  exists rowid row,
    insert_event_row s (fill_own_session e) key now size
    = Ok (rowid, with_events s (events s ++ [row]))
    /\ event_key e = Some (EventRow.event_id row)
    /\ EventRow.parent_event_id row = parent_key e
    /\ EventRow.event_type row = Event.event_type e.
Proof.
  intros Hb Hvalid Hhas Hfk.
  destruct (row_binds_split e Hb) as (B1 & B2 & B3 & B4 & B5 & B6 & B7 & B8).
  unfold insert_event_row. fill_fields. bind_chain.
  unfold row_valid in Hvalid. unfold fk_ok in Hfk.
  unfold event_key, parent_key in *.
  destruct (bound (Event.event_id e)) as [ i | ]; [ | discriminate Hvalid ].
  destruct (bound (or_else (Event.session_id (fill_own_session e)) null));
    [ | discriminate Hvalid ].
  destruct (Event.timestamp e); [ | discriminate Hvalid ].
  rewrite Hhas.
  assert (Hcheck : foreign_keys s
                   && match bound (or_else (Event.parent_event_id e) null) with
                      | Some p => negb (String.eqb p i || has_event s (Some p))
                      | None => false
                      end = false).
  { destruct (foreign_keys s); [ | reflexivity ]. cbn [negb orb andb] in Hfk |- *.
    destruct (bound (or_else (Event.parent_event_id e) null));
      [ | reflexivity ]. now rewrite Hfk. }
  rewrite Hcheck. eexists _, _. split; [ reflexivity | ].
  cbn [EventRow.event_id EventRow.parent_event_id EventRow.event_type].
  repeat split.
Qed.


(** ** The outcomes of [insertEvent] *)



Lemma insertEvent_accepted (e : Event.t) (key : string)
    (options : EventOptions) (now : Z) (s : Store) :
  known s e = false ->
  storable s e = true ->
  exists out s1 row,
    insertEvent e key options now s = (out, s1)
    /\ events s1 = events s ++ [row]
    /\ event_key e = Some (EventRow.event_id row)
    /\ EventRow.parent_event_id row = parent_key e
    /\ EventRow.event_type row = Event.event_type e
    /\ foreign_keys s1 = foreign_keys s
    /\ messages s1 = messages s /\ edits s1 = edits s
    /\ archive_state s1 = archive_state s
    /\ (if satellite_binds e then exists rowid, out = Ok (Some rowid)
        else exists ex, out = Throw ex).
Proof.
  intros Hhas Hok. unfold insertEvent, known, storable in *.
  apply andb_true_iff in Hok. destruct Hok as (Hok & Hfk).
  apply andb_true_iff in Hok. destruct Hok as (Hb & Hvalid).
  rewrite fill_own_session_id, bind_text_bound.
  destruct (row_binds_split e Hb) as (B1 & _). rewrite B1.
  cbn [bind]. fold (event_key e). rewrite Hhas.
  assert (Hexisting : (if default true (skipIfExists options)
                       then Ok false else Ok false) = @Ok bool false)
    by (now destruct (default true (skipIfExists options))).
  rewrite Hexisting.
  destruct (insert_event_row_accepts s e key now
              (byteLength (stringify (Event.content_json (fill_own_session e))))
              Hb Hvalid Hhas Hfk) as (rowid & row & -> & Hkey & Hparent & Htype).
  assert (Hsome : event_key e <> None) by congruence.
  pose proof (insert_satellites_outcome e now
                (with_events s (events s ++ [row])) Hb Hsome) as Hout.
  pose proof (insert_satellites_frame (fill_own_session e) now
                (with_events s (events s ++ [row])))
    as (He & Hf & Hm & Hd & Ha).
  destruct (insert_satellites (fill_own_session e) now
              (with_events s (events s ++ [row]))) as [ out s2 ].
  cbn [fst snd] in Hout, He, Hf, Hm, Hd, Ha.
  cbn [events with_events foreign_keys messages edits archive_state]
    in He, Hf, Hm, Hd, Ha.
  destruct (satellite_binds e); subst out.
  - eexists _, s2, row. split; [ reflexivity | ]. repeat split; eauto.
  - eexists _, s2, row. split; [ reflexivity | ]. repeat split; eauto.
Qed.

(** ** The loop of the transaction *)



Lemma insertTransaction_insert (evt : Event.t) (rest : list Event.t)
    (key : string) (options : EventOptions) (now : Z) (s : Store)
    (st : BatchStats) :
  known s evt = false -> storable s evt = true ->
  exists s1 row,
    events s1 = events s ++ [row]
    /\ event_key evt = Some (EventRow.event_id row)
    /\ EventRow.parent_event_id row = parent_key evt
    /\ foreign_keys s1 = foreign_keys s
    /\ messages s1 = messages s /\ edits s1 = edits s
    /\ archive_state s1 = archive_state s
    /\ insertTransaction (evt :: rest) key options now s st
       = insertTransaction rest key options now s1
           (if satellite_binds evt then bump_inserted st else bump_errors st).
Proof.
  intros Hhas Hok. cbn [insertTransaction].
  destruct (insertEvent_accepted evt key options now s Hhas Hok)
    as (out & s1 & row & -> & Hrows & Hkey & Hparent & _ & Hfk & Hm & Hd & Ha
        & Hout).
  exists s1, row. repeat (split; [ assumption | ]).
  destruct (satellite_binds evt).
  - destruct Hout as (rowid & ->). reflexivity.
  - destruct Hout as (ex & ->). reflexivity.
Qed.

Lemma filter_length_le {A} (p q : A -> bool) (l : list A) :
  Forall (fun x => q x = true \/ p x = false) l ->
  (List.length (List.filter p l) <= List.length (List.filter q l))%nat.
Proof.
  induction 1 as [ | x l Hx _ IH ]; [ reflexivity | ].
  cbn [List.filter].
  destruct Hx as [ -> | -> ]; [ destruct (p x) | destruct (q x) ];
    cbn [List.length]; lia.
Qed.




(** ** The session id of the batch *)



End EventFacts.
Module C5.
Import JS Num MessageArchive Vocabulary EventFacts.



End C5.

(* ===================================================================== *)
(** * Fan-out of a message record into the events table                   *)
(* ===================================================================== *)

Module FanOutFacts.
Import JS Num MessageArchive EventParser Vocabulary ParserFacts EventFacts
  MessageFacts.

(** ** Strings *)

Lemma append_inj_l (p a b : string) : p +:+ a = p +:+ b -> a = b.
Proof.
  induction p as [ | c p IH ]; cbn; [ auto | ].
  intros [= Heq]. auto.
Qed.

Lemma append_empty_r (p : string) : p +:+ "" = p.
Proof.
  induction p as [ | c p IH ]; [ reflexivity | ].
  change (String c (p +:+ "") = String c p). now rewrite IH.
Qed.

(** ** The suffixes of the identifiers *)

Lemma expected_ids_suffixes (raw : jsval) (P : string) :
  record_id raw = Some (JStr P) ->
  List.map bound (expected_ids raw)
  = List.map (fun suffix => Some (P +:+ suffix)) (suffixes raw).
Proof.
  intros HP. unfold expected_ids, suffixes. rewrite HP.
  cbn [List.map]. f_equal.
  { now rewrite append_empty_r. }
  rewrite !List.map_app. f_equal.
  - unfold content_synthetics.
    induction (assistant_blocks raw) as [ | b rest IH ]; [ reflexivity | ].
    cbn [List.flat_map]. rewrite !List.map_app, IH. f_equal.
    unfold block_synthetics, block_suffixes.
    destruct (is_tool_call b), (is_thinking b); reflexivity.
  - destruct (has_usage raw); reflexivity.
Qed.

Lemma in_block_suffixes (blocks : list json) (x : string) :
  In x (List.flat_map block_suffixes blocks) ->
  (exists b, In b blocks /\ is_tool_call b = true /\ x = tool_suffix b)
  \/ (x = "_thinking" /\ exists b, In b blocks /\ is_thinking b = true).
Proof.
  rewrite in_flat_map. intros (b & Hb & Hin). unfold block_suffixes in Hin.
  apply in_app_or in Hin. destruct Hin as [ Hin | Hin ].
  - destruct (is_tool_call b) eqn:Ht; [ | destruct Hin ].
    destruct Hin as [ <- | [] ]. left. eauto.
  - destruct (is_thinking b) eqn:Ht; [ | destruct Hin ].
    destruct Hin as [ <- | [] ]. right. eauto.
Qed.

Lemma tool_or_thinking (b : json) :
  is_tool_call b = true -> is_thinking b = false.
Proof.
  unfold is_tool_call, is_thinking, block_type_is.
  destruct (prop (Some b) "type") as [ [ [ | | | s | | ] | ] | ]; cbn;
    try discriminate.
  destruct (String.eqb_spec s "toolCall") as [ -> | ]; [ reflexivity | ].
  destruct (String.eqb_spec s "toolUse") as [ -> | ]; [ reflexivity | ].
  discriminate.
Qed.

Lemma block_suffixes_NoDup (blocks : list json) :
  List.NoDup (List.map tool_suffix (List.filter is_tool_call blocks)) ->
  (List.length (List.filter is_thinking blocks) <= 1)%nat ->
  List.NoDup (List.flat_map block_suffixes blocks).
Proof.
  induction blocks as [ | b rest IH ]; intros Htools Hthink;
    cbn [List.flat_map List.filter] in *.
  - constructor.
  - unfold block_suffixes at 1.
    destruct (is_tool_call b) eqn:Ht.
    + rewrite (tool_or_thinking b Ht) in *. cbn [app List.map] in *.
      apply List.NoDup_cons_iff in Htools. destruct Htools as (Hnew & Hrest).
      constructor; [ | now apply IH ].
      intros Hin. apply in_block_suffixes in Hin.
      destruct Hin as [ (b' & Hb' & Ht' & Heq) | (Heq & _) ].
      * apply Hnew. rewrite Heq. apply List.in_map.
        apply List.filter_In. now split.
      * unfold tool_suffix in Heq. discriminate Heq.
    + destruct (is_thinking b) eqn:Hk; cbn [app List.length] in *.
      * constructor; [ | apply IH; [ assumption | lia ] ].
        intros Hin. apply in_block_suffixes in Hin.
        destruct Hin as [ (b' & _ & _ & Heq) | (_ & b' & Hb' & Hk') ].
        -- unfold tool_suffix in Heq. discriminate Heq.
        -- assert (Hin' : In b' (List.filter is_thinking rest))
             by (apply List.filter_In; now split).
           destruct (List.filter is_thinking rest); [ destruct Hin' | ].
           cbn [List.length] in Hthink. lia.
      * now apply IH.
Qed.

Lemma suffixes_NoDup (raw : jsval) :
  List.NoDup (List.map tool_suffix (List.filter is_tool_call (assistant_blocks raw))) ->
  (count_thinking raw <= 1)%nat ->
  List.NoDup (suffixes raw).
Proof.
  intros Htools Hthink. unfold suffixes.
  pose proof (block_suffixes_NoDup _ Htools Hthink) as Hnd.
  assert (Hshape : forall x,
             In x (List.flat_map block_suffixes (assistant_blocks raw)) ->
             exists rest, x = String "_" (String "t" rest)).
  { intros x Hx. apply in_block_suffixes in Hx.
    destruct Hx as [ (b & _ & _ & ->) | (-> & _) ]; unfold tool_suffix;
      cbn; eauto. }
  constructor.
  - intros Hin. apply in_app_or in Hin. destruct Hin as [ Hin | Hin ].
    + destruct (Hshape _ Hin) as (rest & Heq). discriminate Heq.
    + destruct (has_usage raw); [ | destruct Hin ].
      destruct Hin as [ Heq | [] ]. discriminate Heq.
  - destruct (has_usage raw); [ | now rewrite app_nil_r ].
    apply List.NoDup_app; [ exact Hnd | | ].
    + constructor; [ intros [] | constructor ].
    + intros x Hx [ Heq | [] ]. destruct (Hshape _ Hx) as (rest & Hr).
      subst x. discriminate Hr.
Qed.

Lemma content_synthetics_length (P : jsval) (blocks : list json) :
  List.length (content_synthetics P blocks)
  = (List.length (List.filter is_tool_call blocks)
     + List.length (List.filter is_thinking blocks))%nat.
Proof.
  unfold content_synthetics.
  induction blocks as [ | b rest IH ]; [ reflexivity | ].
  cbn [List.flat_map List.filter]. rewrite List.length_app, IH.
  unfold block_synthetics.
  destruct (is_tool_call b), (is_thinking b); cbn [List.length app]; lia.
Qed.

(** ** The values of a message record and of its events *)

Lemma bindable_or_null (v : jsval) :
  bindable v = true -> bindable (or_else v null) = true.
Proof. unfold or_else. now destruct (truthy v). Qed.

Lemma or_zero_idem (v : jsval) : or_zero (or_zero v) = or_zero v.
Proof.
  unfold or_zero, or_else. destruct (truthy v) eqn:Hv; [ now rewrite Hv | ].
  reflexivity.
Qed.

Section Binds.
Context `{Host}.

Lemma tool_call_event_binds (P : string) (ts : option Z) (block : json)
    (e : Event.t) :
  tool_call_event (Some (JStr P)) ts (Some block) = Ok e ->
  bindable (or_else (block_field block "name") null) = true ->
  event_binds e = true.
Proof.
  intros He Hname. unfold tool_call_event in He. ok_inv.
  unfold block_field, record_field in Hname. rewrite E0 in Hname.
  unfold event_binds, satellite_binds.
  cbn [plain Event.event_id Event.parent_event_id Event.event_subtype
       Event.role Event.tool_name Event.model_provider Event.model_id
       Event.event_type Event._thinking_content Event._usage].
  rewrite Hname. unfold or_else. destruct P; reflexivity.
Qed.

Lemma thinking_event_binds (P : string) (ts : option Z) (block : json)
    (e : Event.t) :
  thinking_event (Some (JStr P)) ts (Some block) = Ok e ->
  bindable (or_else (block_field block "thinkingSignature") null) = true ->
  event_binds e = true.
Proof.
  intros He Hsig. unfold thinking_event in He. ok_inv.
  unfold block_field, record_field in Hsig. rewrite E0 in Hsig.
  destruct (or_else a (Some (JStr ""))) as [ [ | | | s | | ] | ];
    try discriminate He.
  injection He as <-.
  unfold event_binds, satellite_binds.
  cbn [Event.event_id Event.parent_event_id Event.event_subtype
       Event.role Event.tool_name Event.model_provider Event.model_id
       Event.event_type Event._thinking_content Event._thinking_signature
       Event._usage].
  rewrite or_else_null_idem, Hsig.
  assert (Hif : forall c : bool, (if c then true else true) = true)
    by (now intros [ | ]).
  rewrite Hif. unfold or_else. destruct P; reflexivity.
Qed.

Lemma block_events_binds (P : string) (ts : option Z) (block : json)
    (evs : list Event.t) :
  block_events (Some (JStr P)) ts block = Ok evs ->
  block_binds block = true ->
  Forall (fun e => event_binds e = true) evs.
Proof.
  intros Hb Hbinds. unfold block_events in Hb.
  unfold block_binds, is_tool_call, is_thinking, block_type_is in Hbinds.
  ok_inv; cbv beta iota in Hbinds; rewrite ?C, ?C0 in Hbinds;
    cbn [andb] in Hbinds;
    try (apply andb_true_iff in Hbinds; destruct Hbinds as (Hname & Hsig));
    rewrite ?andb_true_r in *;
    repeat match goal with
           | Ht : tool_call_event _ _ _ = Ok _ |- _ =>
               apply tool_call_event_binds in Ht; [ | assumption ]
           | Ht : thinking_event _ _ _ = Ok _ |- _ =>
               apply thinking_event_binds in Ht; [ | assumption ]
           end;
    cbn [app]; repeat (constructor; [ assumption | ]); constructor.
Qed.

Lemma content_events_binds (P : string) (ts : option Z) (blocks : list json)
    (evs : list Event.t) :
  content_events (Some (JStr P)) ts blocks = Ok evs ->
  forallb block_binds blocks = true ->
  Forall (fun e => event_binds e = true) evs.
Proof.
  revert evs. induction blocks as [ | b rest IH ]; intros evs Hc Hbinds;
    cbn [content_events forallb] in Hc, Hbinds.
  - ok_inv. constructor.
  - apply andb_true_iff in Hbinds. destruct Hbinds as (Hb & Hrest).
    ok_inv. apply Forall_app. split.
    + now apply (block_events_binds P ts b).
    + now apply IH.
Qed.

Lemma usage_event_binds (P : string) (ts : option Z) (msg usage : jsval)
    (e : Event.t) :
  usage_event (Some (JStr P)) ts msg usage = Ok e ->
  bindable (or_else (record_field msg "provider") null) = true ->
  bindable (or_else (record_field msg "model") null) = true ->
  forallb (fun v => bindable (or_zero v))
    (List.map (record_field usage)
       ["input"; "output"; "cacheRead"; "cacheWrite"; "totalTokens"]
     ++ List.map (record_field (or_else (record_field usage "cost")
                                  (Some (JObj []))))
          ["input"; "output"; "cacheRead"; "cacheWrite"; "total"]) = true ->
  event_binds e = true.
Proof.
  intros Hu Hprovider Hmodel Hvalues. unfold usage_event in Hu. ok_inv.
  unfold record_field in Hprovider, Hmodel, Hvalues.
  cbn [List.map app] in Hvalues.
  repeat match goal with
         | Hp : prop ?v ?k = Ok _ |- _ =>
             rewrite Hp in *; clear Hp
         end.
  unfold event_binds, satellite_binds, usage_binds.
  cbn [Event.event_id Event.parent_event_id Event.event_subtype
       Event.role Event.tool_name Event.model_provider Event.model_id
       Event.event_type Event._thinking_content Event._usage
       Event.input_tokens Event.output_tokens Event.cache_read_tokens
       Event.cache_write_tokens Event.total_tokens Event.input_cost
       Event.output_cost Event.cache_read_cost Event.cache_write_cost
       Event.total_cost].
  rewrite !or_else_null_idem, Hprovider, Hmodel.
  repeat match goal with
         | |- context [ or_else ?x (Some (JNum 0)) ] =>
             change (or_else x (Some (JNum 0))) with (or_zero x)
         end.
  cbn [forallb] in Hvalues |- *. rewrite !or_zero_idem, Hvalues.
  unfold or_else. destruct P; reflexivity.
Qed.

Lemma parseMessageEvent_binds (raw : jsval) (P : string)
    (evs : list Event.t) :
  parseMessageEvent raw = Ok evs ->
  record_id raw = Some (JStr P) ->
  record_binds raw = true ->
  Forall (fun e => event_binds e = true) evs.
Proof.
  intros Hp HP Hbinds. unfold parseMessageEvent in Hp.
  unfold record_binds, usage_values, cost_field, usage_field, message_field,
    record_field, assistant_blocks, has_usage in Hbinds.
  unfold record_id in HP.
  ok_inv; subst; cbn [bind] in Hbinds.
  all: repeat match goal with
              | Hc : ?c = _, Hb : context [ ?c ] |- _ =>
                  rewrite Hc in Hb; cbn [bind] in Hb
              end.
  all: apply andb_true_iff in Hbinds; destruct Hbinds as (Hbinds & Husage);
    apply andb_true_iff in Hbinds; destruct Hbinds as (Hbinds & Hblocks);
    apply andb_true_iff in Hbinds; destruct Hbinds as (Hbinds & Hmodel);
    apply andb_true_iff in Hbinds; destruct Hbinds as (Hbinds & Hprovider);
    apply andb_true_iff in Hbinds; destruct Hbinds as (Hbinds & Htool);
    apply andb_true_iff in Hbinds; destruct Hbinds as (Hparent & Hrole).
  all: constructor;
    [ unfold event_binds, satellite_binds;
      cbn [plain Event.event_id Event.parent_event_id Event.event_subtype
           Event.role Event.tool_name Event.model_provider Event.model_id
           Event.event_type Event._thinking_content Event._usage];
      rewrite !or_else_null_idem, Hparent, Hrole, Hprovider, Hmodel;
      destruct (is_str a1 "toolResult"); rewrite ?Htool; reflexivity
    | apply Forall_app; split ].
  all: try (constructor; fail).
  all: try (eapply content_events_binds; eassumption).
  all: constructor; [ | constructor ].
  all: eapply usage_event_binds; [ eassumption | | | exact Husage ];
    unfold record_field;
    repeat match goal with
           | Hc : ?c = _ |- context [ ?c ] => rewrite Hc
           end;
    first [ assumption | reflexivity ].
Qed.

End Binds.

(** ** Insertion of events that meet no obstacle *)

Lemma has_event_row (s s1 : Store) (row : EventRow.t) (k : option string) :
  events s1 = events s ++ [row] ->
  has_event s1 k
  = has_event s k
    || match k with
       | Some i => String.eqb (EventRow.event_id row) i
       | None => false
       end.
Proof.
  intros Hrows. unfold has_event. destruct k as [ i | ]; [ | reflexivity ].
  rewrite Hrows, List.existsb_app. cbn [existsb]. now rewrite orb_false_r.
Qed.

Lemma insertTransaction_all (evts : list Event.t) (key : string)
    (options : EventOptions) (now : Z) (s : Store) (st : BatchStats) :
  Forall (fun e => row_binds e && row_valid e && satellite_binds e = true)
         evts ->
  List.NoDup (List.map event_key evts) ->
  Forall (fun e => known s e = false) evts ->
  Forall (fun e => fk_ok s e = true) evts ->
  let r := insertTransaction evts key options now s st in
  inserted (fst r) = inserted st + Z.of_nat (List.length evts)
  /\ skipped (fst r) = skipped st /\ errors (fst r) = errors st
  /\ foreign_keys (snd r) = foreign_keys s
  /\ exists rows,
       events (snd r) = events s ++ rows
       /\ Forall2 (fun e row =>
                     event_key e = Some (EventRow.event_id row)
                     /\ EventRow.parent_event_id row = parent_key e)
                  evts rows.
Proof.
  revert s st. induction evts as [ | e rest IH ];
    intros s st Hvalid Hnd Hfresh Hfk.
  - cbn. repeat split; try lia. exists []. rewrite app_nil_r.
    split; [ reflexivity | constructor ].
  - apply List.Forall_cons_iff in Hvalid, Hfresh, Hfk.
    destruct Hvalid as (Hv & Hvalid), Hfresh as (Hf & Hfresh),
      Hfk as (Hk & Hfk).
    cbn [List.map] in Hnd. apply List.NoDup_cons_iff in Hnd.
    destruct Hnd as (Hnew & Hnd).
    apply andb_true_iff in Hv. destruct Hv as (Hv & Hsat).
    assert (Hok : storable s e = true) by (unfold storable; now rewrite Hv, Hk).
    destruct (insertTransaction_insert e rest key options now s st Hf Hok)
      as (s1 & row & Hrows & Hid & Hparent & Hfk1 & _ & _ & _ & ->).
    rewrite Hsat.
    (* the rest meets no obstacle in the new database *)
    assert (Hfresh1 : Forall (fun e' => known s1 e' = false) rest).
    { apply List.Forall_forall. intros e' He'.
      rewrite List.Forall_forall in Hfresh. unfold known in *.
      rewrite (has_event_row s s1 row _ Hrows), (Hfresh _ He').
      destruct (event_key e') as [ i | ] eqn:Hi; [ | reflexivity ].
      cbn [orb]. destruct (String.eqb_spec (EventRow.event_id row) i);
        [ | reflexivity ].
      exfalso. apply Hnew. rewrite Hid. subst i. rewrite <- Hi.
      apply List.in_map. exact He'. }
    assert (Hfk1' : Forall (fun e' => fk_ok s1 e' = true) rest).
    { eapply List.Forall_impl; [ | exact Hfk ]. intros e'.
      now apply (fk_ok_grow s s1 [row]). }
    destruct (IH s1 (bump_inserted st) Hvalid Hnd Hfresh1 Hfk1')
      as (Hi & Hs & He & Hf1 & rows & Hrows1 & Hall).
    cbn [bump_inserted inserted skipped errors] in Hi, Hs, He.
    cbn [List.length]. repeat split; try lia; try congruence.
    exists (row :: rows). split.
    + rewrite Hrows1, Hrows, <- app_assoc. reflexivity.
    + constructor; [ now split | exact Hall ].
Qed.

(** A record's events: the main event, then events that point to it. *)
Lemma insertTransaction_family (mainEvent : Event.t) (children : list Event.t)
    (P key : string) (options : EventOptions) (now : Z) (s : Store)
    (st : BatchStats) :
  Forall (fun e => row_binds e && row_valid e && satellite_binds e = true)
         (mainEvent :: children) ->
  event_key mainEvent = Some P ->
  Forall (fun c => parent_key c = Some P) children ->
  List.NoDup (List.map event_key (mainEvent :: children)) ->
  Forall (fun e => known s e = false) (mainEvent :: children) ->
  fk_ok s mainEvent = true ->
  let r := insertTransaction (mainEvent :: children) key options now s st in
  inserted (fst r) = inserted st + 1 + Z.of_nat (List.length children)
  /\ skipped (fst r) = skipped st /\ errors (fst r) = errors st
  /\ foreign_keys (snd r) = foreign_keys s
  /\ exists mainRow childRows,
       events (snd r) = events s ++ mainRow :: childRows
       /\ EventRow.event_id mainRow = P
       /\ EventRow.parent_event_id mainRow = parent_key mainEvent
       /\ List.length childRows = List.length children
       /\ Forall (fun row => EventRow.parent_event_id row = Some P) childRows.
Proof.
  intros Hvalid HP Hparents Hnd Hfresh Hfk.
  apply List.Forall_cons_iff in Hvalid, Hfresh.
  destruct Hvalid as (Hv & Hvalid), Hfresh as (Hf & Hfresh).
  cbn [List.map] in Hnd. apply List.NoDup_cons_iff in Hnd.
  destruct Hnd as (Hnew & Hnd).
  apply andb_true_iff in Hv. destruct Hv as (Hv & Hsat).
  assert (Hok : storable s mainEvent = true)
    by (unfold storable; now rewrite Hv, Hfk).
  destruct (insertTransaction_insert mainEvent children key options now s st
              Hf Hok)
    as (s1 & mainRow & Hrows & Hid & Hparent & Hfk1 & _ & _ & _ & Hstep).
  rewrite Hsat in Hstep.
  rewrite HP in Hid. injection Hid as Hid.
  assert (Hfresh1 : Forall (fun c => known s1 c = false) children).
  { apply List.Forall_forall. intros c Hc.
    rewrite List.Forall_forall in Hfresh. unfold known in *.
    rewrite (has_event_row s s1 mainRow _ Hrows), (Hfresh _ Hc).
    destruct (event_key c) as [ i | ] eqn:Hi; [ | reflexivity ].
    cbn [orb]. destruct (String.eqb_spec (EventRow.event_id mainRow) i);
      [ | reflexivity ].
    exfalso. apply Hnew. rewrite HP, Hid. subst i. rewrite <- Hi.
    apply List.in_map. exact Hc. }
  assert (Hfk1' : Forall (fun c => fk_ok s1 c = true) children).
  { eapply List.Forall_impl; [ | exact Hparents ]. intros c Hc.
    unfold fk_ok. rewrite Hc, (has_event_row s s1 mainRow _ Hrows).
    rewrite <- Hid, String.eqb_refl, !orb_true_r. reflexivity. }
  destruct (insertTransaction_all children key options now s1
              (bump_inserted st) Hvalid Hnd Hfresh1 Hfk1')
    as (Hi & Hs & He & Hf1 & rows & Hrows1 & Hall).
  cbv zeta. rewrite Hstep.
  cbn [bump_inserted inserted skipped errors] in Hi, Hs, He.
  repeat split; try lia; try congruence.
  exists mainRow, rows. split; [ | split; [ | split; [ | split ] ] ].
  - rewrite Hrows1, Hrows, <- app_assoc. reflexivity.
  - now symmetry.
  - exact Hparent.
  - symmetry. eapply List.Forall2_length. exact Hall.
  - clear - Hall Hparents. induction Hall as [ | c row cs rows' (_ & Hp) _ IH ];
      constructor.
    + apply List.Forall_inv in Hparents. congruence.
    + apply IH. eapply List.Forall_inv_tail. exact Hparents.
Qed.

End FanOutFacts.

Module C3.
Import JS Num MessageArchive EventParser Vocabulary EventFacts MessageFacts
  FanOutFacts.

Lemma fill_session_id_null (sid : string) (e : Event.t) :
  Event.session_id e = null ->
  fill_session_id (Some (JStr sid)) e = Event.set_session_id e (Some (JStr sid)).
Proof. intros Hnull. unfold fill_session_id. now rewrite Hnull. Qed.

Lemma filled_row_valid (sid i : string) (t : Z) (e : Event.t) :
  sid <> "" -> Event.session_id e = null ->
  event_key e = Some i -> Event.timestamp e = Some t ->
  event_binds e = true ->
  row_binds (fill_session_id (Some (JStr sid)) e)
  && row_valid (fill_session_id (Some (JStr sid)) e)
  && satellite_binds (fill_session_id (Some (JStr sid)) e) = true.
Proof.
  intros Hsid Hnull Hkey Htime Hbinds.
  rewrite (fill_session_id_null sid e Hnull).
  unfold event_binds in Hbinds.
  apply andb_true_iff in Hbinds; destruct Hbinds as (Hbinds & B8).
  apply andb_true_iff in Hbinds; destruct Hbinds as (Hbinds & B7).
  apply andb_true_iff in Hbinds; destruct Hbinds as (Hbinds & B6).
  apply andb_true_iff in Hbinds; destruct Hbinds as (Hbinds & B5).
  apply andb_true_iff in Hbinds; destruct Hbinds as (Hbinds & B4).
  apply andb_true_iff in Hbinds; destruct Hbinds as (Hbinds & B3).
  apply andb_true_iff in Hbinds; destruct Hbinds as (B1 & B2).
  unfold row_binds, row_valid, satellite_binds, event_key, fill_own_session
    in *.
  cbn [Event.session_id Event.set_session_id Event.event_id Event.timestamp
       Event.parent_event_id Event.event_subtype Event.role Event.tool_name
       Event.model_provider Event.model_id Event.event_type
       Event._thinking_content Event._thinking_signature Event._usage
       truthy negb andb].
  destruct sid as [ | c sid ]; [ contradiction | ].
  cbn [String.eqb negb andb].
  cbn [Event.session_id Event.set_session_id Event.event_id Event.timestamp
       Event.parent_event_id Event.event_subtype Event.role Event.tool_name
       Event.model_provider Event.model_id Event.event_type
       Event._thinking_content Event._thinking_signature Event._usage].
  rewrite Hkey, Htime, B1, B2, B3, B4, B5, B6, B7, B8. reflexivity.
Qed.

(** C3.  A readable message record whose id is a non-empty string and
    whose timestamp the host can read, and whose values that end in a
    column (parent id, role, tool name, provider, model, names of the tool
    calls, signature of the thinking block, numbers of the usage object)
    are strings or numbers where they are present, is parsed into the
    main event
    followed by K + J + U synthetic events (K tool-call blocks, J thinking
    blocks, U for the usage object); the main event is a tool_result when
    the embedded role is toolResult and a message otherwise.  When
    moreover the ids of the tool-call blocks are pairwise distinct, there
    is at most one thinking block, none of the identifiers is stored yet,
    the batch carries a session id and the parent of the record can be
    stored, ingesting the parse inserts all 1 + K + J + U events, skips
    none and fails on none: the table gains the row of the record and then
    K + J + U rows whose parent_event_id is the id of the record. *)
Theorem fan_out_completeness `{Host} (raw : jsval) (P sid sessionKey : string)
    (t : Z) (options : EventOptions) (now : Z) (s : Store) :
  readable_message raw = true ->
  record_id raw = Some (JStr P) -> P <> "" ->
  record_time raw = Some t ->
  record_binds raw = true ->
  sessionId options = Some (JStr sid) -> sid <> "" ->
  List.NoDup (List.map (fun block => to_string (block_id block))
                (List.filter is_tool_call (assistant_blocks raw))) ->
  (count_thinking raw <= 1)%nat ->
  fresh s (expected_ids raw) ->
  parent_resolves s options raw ->
  let fanout := (count_tool_calls raw + count_thinking raw + count_usage raw)%nat in
  exists mainEvent children mainRow childRows,
    parseMessageEvent raw = Ok (mainEvent :: children)
    /\ Event.event_type mainEvent
       = (if is_str (message_role raw) "toolResult"
          then "tool_result" else "message")
    /\ List.length children = fanout
    /\ (let r := insertEventBatch (mainEvent :: children) sessionKey options
                   now s in
        inserted (fst r) = 1 + Z.of_nat fanout
        /\ skipped (fst r) = 0 /\ errors (fst r) = 0
        /\ events (snd r) = events s ++ mainRow :: childRows
        /\ EventRow.event_id mainRow = P
        /\ List.length childRows = fanout
        /\ Forall (fun row => EventRow.parent_event_id row = Some P) childRows).
Proof.
  intros Hread HP Hne Htime Hbinds Hsession Hsid Htools Hthink Hfresh Hparent
    fanout.
  destruct (proj2 (parseMessageEvent_total (H := H) raw) Hread) as (evs & Hparse).
  pose proof (parseMessageEvent_binds raw P evs Hparse HP Hbinds) as Hbound.
  destruct (parseMessageEvent_shape raw evs Hparse)
    as (mainEvent & children & ts & -> & Hmain & Hts & -> & Hpk & Hnull
        & Hkinds & Hchildren).
  apply List.Forall_cons_iff in Hbound. destruct Hbound as (Hbmain & Hbrest).
  rewrite Htime in Hchildren, Hts.
  injection Hmain as Htype Hid.
  (* the number of synthetic events *)
  assert (Hlen : List.length children = fanout).
  { rewrite <- (List.length_map kind), Hkinds, List.length_app,
      content_synthetics_length.
    unfold fanout, count_tool_calls, count_thinking, count_usage.
    destruct (has_usage raw); reflexivity. }
  (* the events as the batch hands them to the loop *)
  set (filled := List.map (fill_session_id (Some (JStr sid))) children).
  set (mainFilled := fill_session_id (Some (JStr sid)) mainEvent).
  assert (Hkeep : forall e, Event.session_id e = null ->
             event_key (fill_session_id (Some (JStr sid)) e) = event_key e
             /\ parent_key (fill_session_id (Some (JStr sid)) e) = parent_key e).
  { intros e He. rewrite (fill_session_id_null sid e He). now split. }
  assert (Hkeys : List.map event_key (mainFilled :: filled)
                  = List.map bound (expected_ids raw)).
  { unfold expected_ids. cbn [List.map]. f_equal.
    - unfold mainFilled. rewrite (proj1 (Hkeep _ Hnull)).
      unfold event_key. now rewrite Hid.
    - assert (Hsnd : List.map snd (content_synthetics (record_id raw)
                                     (assistant_blocks raw))
                     ++ (if has_usage raw then [usage_id (record_id raw)] else [])
                     = List.map Event.event_id children).
      { transitivity (List.map snd (List.map kind children)).
        - rewrite Hkinds, List.map_app. f_equal.
          destruct (has_usage raw); reflexivity.
        - rewrite List.map_map. reflexivity. }
      rewrite Hsnd. unfold filled. rewrite !List.map_map.
      apply List.map_ext_in. intros c Hc.
      rewrite List.Forall_forall in Hchildren.
      destruct (Hchildren c Hc) as (_ & _ & Hcn).
      now rewrite (proj1 (Hkeep c Hcn)). }
  assert (Hmkey : event_key mainFilled = Some P).
  { unfold mainFilled. rewrite (proj1 (Hkeep _ Hnull)).
    unfold event_key. now rewrite Hid, HP. }
  assert (Hnd : List.NoDup (List.map event_key (mainFilled :: filled))).
  { rewrite Hkeys, (expected_ids_suffixes raw P HP).
    apply Finite.Injective_map_NoDup.
    - intros a b [= Hab]. now apply append_inj_l in Hab.
    - apply suffixes_NoDup; [ | exact Hthink ].
      replace (List.map tool_suffix
                 (List.filter is_tool_call (assistant_blocks raw)))
        with (List.map (fun x => "_tool_" +:+ x)
                (List.map (fun block => to_string (block_id block))
                   (List.filter is_tool_call (assistant_blocks raw))))
        by (now rewrite List.map_map).
      apply Finite.Injective_map_NoDup; [ | exact Htools ].
      intros a b Hab. now apply append_inj_l in Hab. }
  assert (Hvalid : Forall (fun e => row_binds e && row_valid e
                                    && satellite_binds e = true)
                     (mainFilled :: filled)).
  { assert (Hall : forall e i, Event.session_id e = null ->
               Event.timestamp e = Some t -> event_key e = Some i ->
               event_binds e = true ->
               row_binds (fill_session_id (Some (JStr sid)) e)
               && row_valid (fill_session_id (Some (JStr sid)) e)
               && satellite_binds (fill_session_id (Some (JStr sid)) e) = true)
      by (intros e i He Ht Hk Hb;
          now apply filled_row_valid with (i := i) (t := t)).
    constructor.
    - apply (Hall mainEvent P Hnull); [ congruence | | exact Hbmain ].
      unfold event_key. now rewrite Hid, HP.
    - unfold filled. apply List.Forall_forall. intros c' Hc'.
      apply List.in_map_iff in Hc'. destruct Hc' as (c & <- & Hc).
      rewrite List.Forall_forall in Hchildren, Hbrest.
      pose proof (Hbrest c Hc) as Hbc.
      destruct (Hchildren c Hc) as (_ & Hct & Hcn).
      assert (Hin : In (event_key (fill_session_id (Some (JStr sid)) c))
                       (List.map event_key (mainFilled :: filled))).
      { apply List.in_map. right. unfold filled. now apply List.in_map. }
      rewrite Hkeys, (expected_ids_suffixes raw P HP) in Hin.
      apply List.in_map_iff in Hin. destruct Hin as (suffix & Hsuffix & _).
      rewrite (proj1 (Hkeep c Hcn)) in Hsuffix.
      now apply (Hall c (P +:+ suffix) Hcn Hct). }
  assert (Hparents : Forall (fun c => parent_key c = Some P) filled).
  { unfold filled. apply List.Forall_forall. intros c' Hc'.
    apply List.in_map_iff in Hc'. destruct Hc' as (c & <- & Hc).
    rewrite List.Forall_forall in Hchildren.
    destruct (Hchildren c Hc) as (Hcp & _ & Hcn).
    rewrite (proj2 (Hkeep c Hcn)). unfold parent_key. rewrite Hcp, HP.
    destruct P as [ | ch P' ]; [ contradiction | reflexivity ]. }
  (* the batch *)
  exists mainEvent, children.
  unfold insertEventBatch, batch_session_id. rewrite Hsession.
  assert (Htruthy : truthy (or_else (Some (JStr sid)) null) = true)
    by (destruct sid; [ contradiction | reflexivity ]).
  rewrite Htruthy.
  assert (Hor : or_else (Some (JStr sid)) null = Some (JStr sid))
    by (destruct sid; [ contradiction | reflexivity ]).
  rewrite Hor. cbn [List.map]. fold filled mainFilled.
  set (s1 := if default false (disableForeignKeys options)
             then with_foreign_keys s false else s).
  assert (Hevents1 : events s1 = events s)
    by (unfold s1; now destruct (default false (disableForeignKeys options))).
  assert (Hhas1 : forall k, has_event s1 k = has_event s k)
    by (intros k; unfold has_event; now rewrite Hevents1).
  assert (Hfresh1 : Forall (fun e => known s1 e = false)
                      (mainFilled :: filled)).
  { apply List.Forall_forall. intros e He. unfold known. rewrite Hhas1.
    apply (List.in_map event_key) in He. rewrite Hkeys in He.
    apply List.in_map_iff in He. destruct He as (i & <- & Hi).
    unfold fresh in Hfresh. rewrite List.Forall_forall in Hfresh.
    now apply Hfresh. }
  assert (Hfk : fk_ok s1 mainFilled = true).
  { unfold fk_ok, mainFilled. rewrite (proj2 (Hkeep _ Hnull)), Hpk.
    destruct Hparent as [ Hoff | [ Hoff | [ Hnone | Hstored ] ] ].
    - unfold s1. now rewrite Hoff.
    - unfold s1. destruct (default false (disableForeignKeys options));
        [ reflexivity | now rewrite Hoff ].
    - rewrite Hnone. apply orb_true_r.
    - destruct (record_parent raw) as [ p | ]; [ | apply orb_true_r ].
      rewrite Hhas1, Hstored, !orb_true_r. reflexivity. }
  pose proof (insertTransaction_family mainFilled filled P sessionKey options
                now s1 {| inserted := 0; skipped := 0; errors := 0 |}
                Hvalid Hmkey Hparents Hnd Hfresh1 Hfk) as Hbatch.
  cbv zeta in Hbatch.
  destruct (insertTransaction (mainFilled :: filled) sessionKey options now s1
              {| inserted := 0; skipped := 0; errors := 0 |})
    as (stats & s2) eqn:Hrun.
  cbn [fst snd inserted skipped errors] in Hbatch |- *.
  destruct Hbatch as (Hi & Hs & He & _ & mainRow & childRows & Hrows & Hrid
                      & _ & Hrlen & Hrparents).
  exists mainRow, childRows.
  assert (Hflen : List.length filled = fanout)
    by (unfold filled; now rewrite List.length_map).
  repeat split; try assumption; try lia.
  - destruct (default false (disableForeignKeys options));
      cbn [events with_foreign_keys]; rewrite Hrows, Hevents1; reflexivity.
Qed.

Lemma fan_out_completeness_witness :
  exists mainEvent children mainRow childRows,
    parseMessageEvent (H := Examples.host) (Some Examples.assistant_record)
    = Ok (mainEvent :: children)
    /\ Event.event_type mainEvent = "message"
    /\ List.length children = 3%nat
    /\ (let r := insertEventBatch (mainEvent :: children) "agent:main:main"
                   (Examples.scan_options false) 1770984006000
                   Examples.chat_store in
        inserted (fst r) = 4
        /\ skipped (fst r) = 0 /\ errors (fst r) = 0
        /\ events (snd r)
           = events Examples.chat_store ++ mainRow :: childRows
        /\ EventRow.event_id mainRow = "M"
        /\ List.length childRows = 3%nat
        /\ Forall (fun row => EventRow.parent_event_id row = Some "M")
                  childRows).
Proof.
  apply (fan_out_completeness (H := Examples.host)
           (Some Examples.assistant_record) "M" "AAA" "agent:main:main"
           1770984001000 (Examples.scan_options false) 1770984006000
           Examples.chat_store).
  - vm_compute. reflexivity.
  - vm_compute. reflexivity.
  - discriminate.
  - vm_compute. reflexivity.
  - vm_compute. reflexivity.
  - reflexivity.
  - discriminate.
  - vm_compute. constructor; [ intros [] | constructor ].
  - vm_compute. lia.
  - apply List.Forall_forall. intros i Hi. vm_compute in Hi.
    destruct Hi as [ <- | [ <- | [ <- | [ <- | [] ] ] ] ];
      vm_compute; reflexivity.
  - right. right. right. vm_compute. reflexivity.
Defined.

(** Two tool-call blocks with one id: the parse has 1 + 2 events, the
    table gains two rows and the third event is skipped.  And a message
    whose parent is not stored, in an ordinary batch: the parse has
    1 + 1 + 1 + 1 events and the table gains no row.  And a message whose
    tool call has the name true, a value that cannot be bound to a
    column: the parse has 1 + 1 events, the table gains the row of the
    message and the tool call is counted as an error. *)
Lemma fan_out_loses_rows :
  (let raw := Some Examples.repeated_call_record in
   exists evs,
     parseMessageEvent (H := Examples.host) raw = Ok evs
     /\ count_tool_calls raw = 2%nat /\ count_thinking raw = 0%nat
     /\ count_usage raw = 0%nat
     /\ List.length evs = 3%nat
     /\ (let r := insertEventBatch evs "agent:main:main"
                    (Examples.scan_options true) 1770984006000 empty_store in
         List.length (events (snd r)) = 2%nat
         /\ inserted (fst r) = 2 /\ skipped (fst r) = 1
         /\ errors (fst r) = 0))
  /\ (let raw := Some Examples.assistant_record in
      exists evs,
        parseMessageEvent (H := Examples.host) raw = Ok evs
        /\ count_tool_calls raw = 1%nat /\ count_thinking raw = 1%nat
        /\ count_usage raw = 1%nat
        /\ List.length evs = 4%nat
        /\ (let r := insertEventBatch evs "agent:main:main"
                       (Examples.scan_options false) 1770984006000
                       empty_store in
            events (snd r) = []
            /\ inserted (fst r) = 0 /\ skipped (fst r) = 0
            /\ errors (fst r) = 4))
  /\ (let raw := Some Examples.odd_call_record in
      exists evs,
        parseMessageEvent (H := Examples.host) raw = Ok evs
        /\ count_tool_calls raw = 1%nat /\ count_thinking raw = 0%nat
        /\ count_usage raw = 0%nat
        /\ record_binds raw = false
        /\ List.length evs = 2%nat
        /\ (let r := insertEventBatch evs "agent:main:main"
                       (Examples.scan_options true) 1770984006000
                       empty_store in
            List.map EventRow.event_id (events (snd r)) = ["M"]
            /\ inserted (fst r) = 1 /\ skipped (fst r) = 0
            /\ errors (fst r) = 1)).
Proof.
  split; [ | split ]; intros raw;
    (eexists; split; [ vm_compute; reflexivity | ]);
    vm_compute; repeat split.
Qed.

End C3.

(* ===================================================================== *)
(** * The scanner                                                         *)
(* ===================================================================== *)

Module ScanFacts.
Import JS Num MessageArchive EventParser Vocabulary ParserFacts EventFacts.

(** ** The watermark is read back as it was written *)

Lemma digits_prefix_uint (d : Decimal.uint) :
  digits_prefix (NilEmpty.string_of_uint d) = NilEmpty.string_of_uint d.
Proof.
  induction d as [ | d IH | d IH | d IH | d IH | d IH | d IH | d IH | d IH
                 | d IH | d IH ]; [ reflexivity | .. ];
    cbn [NilEmpty.string_of_uint digits_prefix];
    (change (is_digit _) with true); cbn iota; now rewrite IH.
Qed.

Lemma unsigned_prefix_uint (d : Decimal.uint) :
  d <> Decimal.Nil ->
  unsigned_prefix (NilEmpty.string_of_uint d) = Some (Z.of_uint d).
Proof.
  intros Hd.
  assert (Hdec : decimal_prefix (NilEmpty.string_of_uint d) = Some (Z.of_uint d)).
  { unfold decimal_prefix. rewrite digits_prefix_uint.
    pose proof (NilEmpty.usu d) as Husu.
    destruct d; [ contradiction | .. ];
      cbn [NilEmpty.string_of_uint] in Husu |- *; rewrite Husu;
      reflexivity. }
  rewrite <- Hdec.
  destruct d as [ | d | d | d | d | d | d | d | d | d | d ];
    try reflexivity.
  destruct d; reflexivity.
Qed.

(** A string that starts with an ASCII character other than white space
    has no white space to skip. *)
Lemma skip_spaces_head (c : ascii) (rest : string) :
  byte c < 128 -> is_space c = false ->
  skip_spaces (String c rest) = String c rest.
Proof.
  intros Hascii Hspace. cbn [skip_spaces]. rewrite Hspace.
  assert (H2 : forall c2, is_space2 c c2 = false).
  { intros c2. unfold is_space2.
    destruct (Z.eqb_spec (byte c) 194); [ lia | reflexivity ]. }
  assert (H3 : forall c2 c3, is_space3 c c2 c3 = false).
  { intros c2 c3. unfold is_space3.
    destruct (Z.eqb_spec (byte c) 225); [ lia | ].
    destruct (Z.eqb_spec (byte c) 226); [ lia | ].
    destruct (Z.eqb_spec (byte c) 227); [ lia | ].
    destruct (Z.eqb_spec (byte c) 239); [ lia | ].
    reflexivity. }
  destruct rest as [ | c2 [ | c3 rest ] ]; rewrite ?H2, ?H3; reflexivity.
Qed.

Lemma parseInt_uint (d : Decimal.uint) :
  d <> Decimal.Nil ->
  parseInt (NilEmpty.string_of_uint d) = Some (Z.of_uint d).
Proof.
  intros Hd. rewrite <- (unsigned_prefix_uint d Hd).
  destruct d; [ contradiction | .. ];
    unfold parseInt; cbn [NilEmpty.string_of_uint];
    (rewrite skip_spaces_head; [ reflexivity | vm_compute | ]; reflexivity).
Qed.

Lemma parseInt_toString (n : Z) : parseInt (Number_toString (Some n)) = Some n.
Proof.
  destruct n as [ | p | p ]; [ reflexivity | | ].
  - unfold Number_toString, NilZero.string_of_int, NilZero.string_of_uint.
    cbn [Z.to_int].
    pose proof (DecimalPos.Unsigned.to_uint_nonnil p) as Hd.
    replace (match Pos.to_uint p with
             | Decimal.Nil => "0"
             | _ => NilEmpty.string_of_uint (Pos.to_uint p)
             end) with (NilEmpty.string_of_uint (Pos.to_uint p))
      by (destruct (Pos.to_uint p); [ contradiction | reflexivity .. ]).
    rewrite (parseInt_uint _ Hd). unfold Z.of_uint.
    now rewrite DecimalPos.Unsigned.of_to.
  - unfold Number_toString, NilZero.string_of_int, NilZero.string_of_uint.
    cbn [Z.to_int].
    pose proof (DecimalPos.Unsigned.to_uint_nonnil p) as Hd.
    replace (match Pos.to_uint p with
             | Decimal.Nil => "0"
             | _ => NilEmpty.string_of_uint (Pos.to_uint p)
             end) with (NilEmpty.string_of_uint (Pos.to_uint p))
      by (destruct (Pos.to_uint p); [ contradiction | reflexivity .. ]).
    unfold parseInt.
    rewrite skip_spaces_head; [ | vm_compute; reflexivity | reflexivity ].
    cbn iota. rewrite (unsigned_prefix_uint _ Hd). unfold Z.of_uint.
    now rewrite DecimalPos.Unsigned.of_to.
Qed.

Lemma toString_nonempty (n : Z) : Number_toString (Some n) <> "".
Proof.
  intros Heq. pose proof (parseInt_toString n) as Hp. rewrite Heq in Hp.
  discriminate Hp.
Qed.

(** ** A batch over events that are stored or cannot be stored *)






(** ** One file *)

Section Scan.
Context `{Host}.







End Scan.

End ScanFacts.
Module C1.
Import JS Num MessageArchive EventParser Vocabulary ParserFacts EventFacts
  ScanFacts.




End C1.

(* ===================================================================== *)
(** * Further properties of the event-log parser                          *)
(* ===================================================================== *)

Module ParserMore.
Import JS Num EventParser Vocabulary ParserFacts MessageFacts.

Section Facts.
Context `{Host}.

Lemma filter_one_time (ts : option Z) (w : Z) (evs : list Event.t) :
  Forall (fun e => Event.timestamp e = ts) evs ->
  List.filter (fun e => negb (num_le (Event.timestamp e) (Some w))) evs
  = if num_le ts (Some w) then [] else evs.
Proof.
  induction 1 as [ | e rest He _ IH ]; [ now destruct (num_le ts (Some w)) | ].
  cbn [List.filter]. rewrite He, IH. now destruct (num_le ts (Some w)).
Qed.

Lemma line_events_later (line : string) (w1 w2 : Z) :
  w1 <= w2 ->
  line_events line (Some w2)
  = List.filter (fun e => negb (num_le (Event.timestamp e) (Some w2)))
      (line_events line (Some w1)).
Proof.
  intros Hle. unfold line_events.
  destruct (is_blank line); [ reflexivity | ].
  destruct (JSON_parse line) as [ rawEvent | ]; [ | reflexivity ].
  destruct (prop (Some rawEvent) "timestamp") as [ rawTs | ] eqn:Hts;
    cbn [bind]; [ | reflexivity ].
  assert (Hkeep : forall evs,
             parseEvent (Some rawEvent) = Ok evs ->
             List.filter (fun e => negb (num_le (Event.timestamp e) (Some w2))) evs
             = if num_le (Date_getTime rawTs) (Some w2) then [] else evs).
  { intros evs Hp. apply filter_one_time.
    exact (parseEvent_timestamp _ _ _ Hts Hp). }
  destruct (Date_getTime rawTs) as [ t | ] eqn:Ht; cbn [num_le] in *.
  - destruct (Z.leb_spec t w1), (Z.leb_spec t w2); try lia; try reflexivity.
    + destruct (parseEvent (Some rawEvent)) as [ evs | ]; [ | reflexivity ].
      symmetry. rewrite (Hkeep evs eq_refl).
      destruct (Z.leb_spec t w2); [ reflexivity | lia ].
    + destruct (parseEvent (Some rawEvent)) as [ evs | ]; [ | reflexivity ].
      symmetry. rewrite (Hkeep evs eq_refl).
      destruct (Z.leb_spec t w2); [ lia | reflexivity ].
  - destruct (parseEvent (Some rawEvent)) as [ evs | ]; [ | reflexivity ].
    symmetry. exact (Hkeep evs eq_refl).
Qed.

End Facts.

(** X1.  The events of a file are the events of its first lines followed
    by the events of the lines after them: lines appended to a log add
    events at the end and change none of the events parsed before. *)
Theorem parseEvents_append `{Host} (before after : list string)
    (since : option Z) :
  exists evs1 evs2,
    parseEvents (Some before) since = Ok evs1
    /\ parseEvents (Some after) since = Ok evs2
    /\ parseEvents (Some (before ++ after)) since = Ok (evs1 ++ evs2).
Proof.
  rewrite !parseEvents_flat_map. eexists. eexists.
  split; [ reflexivity | ]. split; [ reflexivity | ].
  now rewrite List.flat_map_app.
Qed.

(** X2.  A later watermark only removes events: the parse of a file with
    the watermark w2 is the parse with an earlier watermark w1 without the
    events stamped at or before w2, in the same order. *)
Theorem parseEvents_later_watermark `{Host} (file : option (list string))
    (w1 w2 : Z) (evs1 : list Event.t) :
  w1 <= w2 ->
  parseEvents file (Some w1) = Ok evs1 ->
  parseEvents file (Some w2)
  = Ok (List.filter (fun e => negb (num_le (Event.timestamp e) (Some w2)))
          evs1).
Proof.
  intros Hle Hparse.
  destruct file as [ lines | ]; [ | discriminate Hparse ].
  rewrite parseEvents_flat_map in *. injection Hparse as <-. f_equal.
  induction lines as [ | line rest IH ]; [ reflexivity | ].
  cbn [List.flat_map]. rewrite List.filter_app, <- IH.
  now rewrite (line_events_later line w1 w2 Hle).
Qed.

Lemma parseEvents_later_watermark_witness :
  0 <= 1770984002000
  /\ exists evs1,
       parseEvents (H := Examples.host)
         (ArchiveScan.content Examples.chat_file) (Some 0) = Ok evs1
       /\ List.length evs1 = 2%nat
       /\ parseEvents (H := Examples.host)
            (ArchiveScan.content Examples.chat_file) (Some 1770984002000)
          = Ok (List.filter
                  (fun e => negb (num_le (Event.timestamp e)
                                    (Some 1770984002000)))
                  evs1).
Proof.
  split; [ lia | ].
  eexists. split; [ vm_compute; reflexivity | ]. split; [ reflexivity | ].
  apply (parseEvents_later_watermark (H := Examples.host)
           (ArchiveScan.content Examples.chat_file) 0 1770984002000).
  - lia.
  - vm_compute. reflexivity.
Defined.

Lemma synthetic_types (parent : jsval) (blocks : list json)
    (k : string * jsval) :
  In k (content_synthetics parent blocks) ->
  fst k = "tool_call" \/ fst k = "thinking_block".
Proof.
  unfold content_synthetics. rewrite List.in_flat_map.
  intros (block & _ & Hk). unfold block_synthetics in Hk.
  apply List.in_app_or in Hk.
  destruct Hk as [ Hk | Hk ];
    [ destruct (is_tool_call block) | destruct (is_thinking block) ];
    cbn [In] in Hk; try contradiction; destruct Hk as [ <- | [] ]; auto.
Qed.

(** X3.  The parser gives a session id to session events only, and it is
    the event's own id: an event of type session carries its own id as
    session_id, and every event of another type has session_id null, for
    the scanner to fill.  A record of type session yields one event, of
    type session, whose id and session_id are the id of the record; a
    record of another type yields no event of type session. *)
Theorem parser_leaves_session_id_to_scanner `{Host} (raw : jsval)
    (evs : list Event.t) :
  parseEvent raw = Ok evs ->
  Forall (fun e =>
            (Event.event_type e = "session" ->
             Event.session_id e = Event.event_id e)
            /\ (Event.event_type e <> "session" ->
                Event.session_id e = null))
         evs
  /\ (forall ty, prop raw "type" = Ok ty -> is_str ty "session" = true ->
      exists e,
        evs = [e]
        /\ Event.event_type e = "session"
        /\ Event.event_id e = record_id raw
        /\ Event.session_id e = record_id raw)
  /\ (forall ty, prop raw "type" = Ok ty -> is_str ty "session" = false ->
      Forall (fun e => Event.event_type e <> "session") evs).
Proof.
  intros Hp. unfold parseEvent in Hp.
  destruct (prop raw "type") as [ ty | ] eqn:Hty; cbn [bind] in Hp;
    [ | discriminate Hp ].
  destruct (is_str ty "session") eqn:Hsession.
  - unfold parseSessionEvent in Hp. unfold record_id.
    destruct (prop raw "id") as [ id | ]; cbn [bind] in Hp;
      [ | discriminate Hp ].
    ok_inv. split; [ | split ].
    + constructor; [ | constructor ]. cbn. split; [ reflexivity | ].
      intros Hne. now contradiction Hne.
    + intros ty' [= <-] _. eexists. split; [ reflexivity | ].
      cbn. auto.
    + intros ty' [= <-] Hno. congruence.
  - assert (Hevs : Forall (fun e => Event.event_type e <> "session"
                                    /\ Event.session_id e = null) evs).
    { repeat match type of Hp with
             | (if ?c then _ else _) = Ok _ => destruct c
             end.
      5:{ injection Hp as <-. constructor. }
      4:{ destruct (parseMessageEvent_shape raw evs Hp)
            as (mainEvent & children & ts & -> & Hkind & _ & _ & _ & Hnull
                & Hkinds & Hchildren).
          constructor.
          - split; [ | exact Hnull ].
            apply (f_equal fst) in Hkind. cbn [kind fst] in Hkind.
            rewrite Hkind.
            now destruct (is_str (message_role raw) "toolResult").
          - apply List.Forall_forall. intros e He.
            split;
              [ | now destruct (proj1 (List.Forall_forall _ _) Hchildren e He)
                        as (_ & _ & Hs) ].
            assert (Hin : In (kind e) (List.map kind children))
              by now apply List.in_map.
            rewrite Hkinds in Hin. apply List.in_app_or in Hin.
            destruct Hin as [ Hin | Hin ].
            + apply synthetic_types in Hin. cbn [kind fst] in Hin.
              destruct Hin as [ -> | -> ]; discriminate.
            + destruct (has_usage raw); cbn [In] in Hin;
                [ | contradiction ].
              destruct Hin as [ Hin | [] ].
              apply (f_equal fst) in Hin. cbn [kind fst] in Hin.
              rewrite <- Hin. discriminate. }
      all: unfold parseModelChangeEvent, parseThinkingLevelEvent,
             parseCustomEvent in Hp;
        ok_inv; constructor; [ | constructor ]; cbn;
        split; [ discriminate | reflexivity ]. }
    split; [ | split ].
    + eapply List.Forall_impl; [ | exact Hevs ].
      intros e (Hne & Hnull). split; [ intros He; now contradiction Hne | ].
      intros _. exact Hnull.
    + intros ty' [= <-] Hyes. congruence.
    + intros _ _ _. eapply List.Forall_impl; [ | exact Hevs ].
      now intros e (Hne & _).
Qed.

Lemma parser_leaves_session_id_to_scanner_witness :
  (exists e,
     parseEvent (H := Examples.host) (Some Examples.session_record) = Ok [e]
     /\ Event.event_type e = "session"
     /\ Event.event_id e = Some (JStr "AAA")
     /\ Event.session_id e = Some (JStr "AAA"))
  /\ (exists evs,
        parseEvent (H := Examples.host) (Some Examples.assistant_record)
        = Ok evs
        /\ List.length evs = 4%nat
        /\ Forall (fun e => Event.event_type e <> "session"
                            /\ Event.session_id e = null) evs).
Proof.
  split.
  - destruct (parser_leaves_session_id_to_scanner (H := Examples.host)
                (Some Examples.session_record) _ eq_refl)
      as (_ & Hsession & _).
    destruct (Hsession _ eq_refl eq_refl) as (e & He & Hty & Hid & Hsid).
    exists e. injection He as <-. repeat split; reflexivity.
  - eexists. split; [ vm_compute; reflexivity | ].
    split; [ reflexivity | ].
    destruct (parser_leaves_session_id_to_scanner (H := Examples.host)
                (Some Examples.assistant_record) _ eq_refl)
      as (Hall & _ & Hnone).
    specialize (Hnone _ eq_refl eq_refl).
    apply List.Forall_forall. intros e He.
    pose proof (proj1 (List.Forall_forall _ _) Hall e He) as (_ & Hnull).
    pose proof (proj1 (List.Forall_forall _ _) Hnone e He) as Hne.
    split; [ exact Hne | now apply Hnull ].
Defined.

(** X4.  A record that is a JSON object and whose type is not message is
    never refused: the parse returns one event when the type is session,
    model_change, thinking_level_change or custom and none otherwise, and
    the event carries the id and the time value of the record. *)
Theorem parseEvent_of_plain_record `{Host} (fields : list (string * json)) :
  is_str (assoc "type" fields) "message" = false ->
  exists evs,
    parseEvent (Some (JObj fields)) = Ok evs
    /\ List.length evs
       = (if recognized_type (assoc "type" fields) then 1 else 0)%nat
    /\ Forall (fun e =>
                 Event.event_id e = assoc "id" fields
                 /\ Event.timestamp e = Date_getTime (assoc "timestamp" fields))
              evs.
Proof.
  intros Hmessage. unfold parseEvent, recognized_type.
  cbn [prop bind]. rewrite Hmessage, orb_false_r.
  destruct (is_str (assoc "type" fields) "session");
    [ eexists; split; [ reflexivity | ]; split; [ reflexivity | ];
      repeat constructor | ].
  destruct (is_str (assoc "type" fields) "model_change");
    [ eexists; split; [ reflexivity | ]; split; [ reflexivity | ];
      repeat constructor | ].
  destruct (is_str (assoc "type" fields) "thinking_level_change");
    [ eexists; split; [ reflexivity | ]; split; [ reflexivity | ];
      repeat constructor | ].
  destruct (is_str (assoc "type" fields) "custom");
    eexists; (split; [ reflexivity | ]); (split; [ reflexivity | ]);
    repeat constructor.
Qed.

Lemma parseEvent_of_plain_record_witness :
  exists evs,
    parseEvent (H := Examples.host) (Some Examples.session_record) = Ok evs
    /\ List.length evs = 1%nat
    /\ Forall (fun e =>
                 Event.event_id e = Some (JStr "AAA")
                 /\ Event.timestamp e = Some 1770984000000)
              evs.
Proof.
  destruct (parseEvent_of_plain_record (H := Examples.host)
              [("type", JStr "session"); ("id", JStr "AAA");
               ("version", JNum 3);
               ("timestamp", JStr "2026-02-13T12:00:00.000Z");
               ("cwd", JStr "/x")] eq_refl)
    as (evs & Hparse & Hlen & Hall).
  exists evs. split; [ exact Hparse | ]. split; [ exact Hlen | exact Hall ].
Defined.

End ParserMore.

(* ===================================================================== *)
(** * The queries                                                         *)
(* ===================================================================== *)

Module OrderFacts.
Import JS Num MessageArchive Orders.

Lemma insert_asc_perm (r : EventRow.t) (sorted : list EventRow.t) :
  Permutation (insert_asc r sorted) (r :: sorted).
Proof.
  induction sorted as [ | x rest IH ]; cbn [insert_asc]; [ reflexivity | ].
  destruct (EventRow.timestamp r <? EventRow.timestamp x); [ reflexivity | ].
  rewrite IH. apply perm_swap.
Qed.

Lemma order_asc_perm (rows : list EventRow.t) :
  Permutation (order_asc rows) rows.
Proof.
  unfold order_asc.
  assert (Hgen : forall acc,
             Permutation
               (List.fold_left (fun sorted r => insert_asc r sorted) rows acc)
               (rows ++ acc)).
  { induction rows as [ | r rest IH ]; intros acc; cbn [List.fold_left app];
      [ reflexivity | ].
    rewrite IH, insert_asc_perm. symmetry. apply Permutation_middle. }
  rewrite Hgen. now rewrite app_nil_r.
Qed.

Lemma insert_asc_sorted (r : EventRow.t) (sorted : list EventRow.t) :
  Sorted earlier sorted -> Sorted earlier (insert_asc r sorted).
Proof.
  induction 1 as [ | x rest Hrest IH Hx ]; cbn [insert_asc].
  - repeat constructor.
  - destruct (Z.ltb_spec (EventRow.timestamp r) (EventRow.timestamp x)).
    + constructor; [ now constructor | ]. constructor. unfold earlier. lia.
    + constructor; [ exact IH | ].
      destruct rest as [ | y rest ]; cbn [insert_asc].
      * constructor. unfold earlier. lia.
      * destruct (EventRow.timestamp r <? EventRow.timestamp y);
          constructor; [ unfold earlier; lia | ].
        now inversion Hx.
Qed.

Lemma order_asc_sorted (rows : list EventRow.t) :
  Sorted earlier (order_asc rows).
Proof.
  unfold order_asc.
  assert (Hgen : forall acc,
             Sorted earlier acc ->
             Sorted earlier
               (List.fold_left (fun sorted r => insert_asc r sorted) rows acc)).
  { induction rows as [ | r rest IH ]; intros acc Hacc; cbn [List.fold_left];
      [ exact Hacc | ].
    apply IH. now apply insert_asc_sorted. }
  apply Hgen. constructor.
Qed.

Lemma insert_desc_sorted (r : MessageRow.t) (sorted : list MessageRow.t) :
  Sorted later sorted -> Sorted later (insert_desc r sorted).
Proof.
  induction 1 as [ | x rest Hrest IH Hx ]; cbn [insert_desc].
  - repeat constructor.
  - destruct (Z.leb_spec (MessageRow.timestamp x) (MessageRow.timestamp r)).
    + constructor; [ now constructor | ]. constructor. unfold later. lia.
    + constructor; [ exact IH | ].
      destruct rest as [ | y rest ]; cbn [insert_desc].
      * constructor. unfold later. lia.
      * destruct (MessageRow.timestamp y <=? MessageRow.timestamp r);
          constructor; [ unfold later; lia | ].
        now inversion Hx.
Qed.

Lemma order_desc_sorted (rows : list MessageRow.t) :
  Sorted later (order_desc rows).
Proof.
  unfold order_desc.
  assert (Hgen : forall acc,
             Sorted later acc ->
             Sorted later
               (List.fold_left (fun sorted r => insert_desc r sorted) rows acc)).
  { induction rows as [ | r rest IH ]; intros acc Hacc; cbn [List.fold_left];
      [ exact Hacc | ].
    apply IH. now apply insert_desc_sorted. }
  apply Hgen. constructor.
Qed.

Lemma later_trans : Relations_1.Transitive later.
Proof. intros a b c. unfold later. lia. Qed.

Lemma StronglySorted_skipn {A} (R : A -> A -> Prop) (n : nat) (l : list A) :
  StronglySorted R l -> StronglySorted R (List.skipn n l).
Proof.
  revert l. induction n as [ | n IH ]; intros l Hl; [ exact Hl | ].
  destruct l as [ | x l ]; [ constructor | ].
  cbn [List.skipn]. apply IH. now inversion Hl.
Qed.

Lemma StronglySorted_firstn {A} (R : A -> A -> Prop) (n : nat) (l : list A) :
  StronglySorted R l -> StronglySorted R (List.firstn n l).
Proof.
  revert l. induction n as [ | n IH ]; intros l Hl; [ constructor | ].
  destruct l as [ | x l ]; [ constructor | ].
  cbn [List.firstn]. inversion Hl as [ | ? ? Hrest Hall ]; subst.
  constructor; [ now apply IH | ].
  rewrite List.Forall_forall in *. intros y Hy. apply Hall.
  rewrite <- (List.firstn_skipn n l). apply in_or_app. now left.
Qed.

End OrderFacts.

Module Queries.
Import JS Num MessageArchive MessageArchiveMore Orders OrderFacts QueryFacts.

Lemma nonzero_spec (x : option Z) (P : Z -> bool) :
  match nonzero x with Some t => P t | None => true end = true
  <-> forall t, x = Some t -> t <> 0 -> P t = true.
Proof.
  unfold nonzero. destruct x as [ t | ].
  - destruct (Z.eqb_spec t 0) as [ -> | Hne ].
    + split; [ intros _ t [= <-] Hne; now contradiction Hne | reflexivity ].
    + split; [ intros Hp t' [= <-] _; exact Hp | intros Hp; now apply Hp ].
  - split; [ discriminate | reflexivity ].
Qed.

Lemma nonempty_spec (x : option string) (P : string -> bool) :
  match nonempty x with Some k => P k | None => true end = true
  <-> forall k, x = Some k -> k <> "" -> P k = true.
Proof.
  unfold nonempty. destruct x as [ k | ].
  - destruct (String.eqb_spec k "") as [ -> | Hne ].
    + split; [ intros _ k [= <-] Hne; now contradiction Hne | reflexivity ].
    + split; [ intros Hp k' [= <-] _; exact Hp | intros Hp; now apply Hp ].
  - split; [ discriminate | reflexivity ].
Qed.

Lemma session_events_where_spec (sessionId : string)
    (options : SessionEventsOptions) (r : EventRow.t) :
  session_events_where sessionId options r = true
  <-> EventRow.session_id r = sessionId
      /\ (forall t, eventsStartTime options = Some t -> t <> 0 ->
                    t <= EventRow.timestamp r)
      /\ (forall t, eventsEndTime options = Some t -> t <> 0 ->
                    EventRow.timestamp r <= t)
      /\ (forall tys, eventTypes options = Some tys -> tys <> [] ->
                      In (EventRow.event_type r) tys).
Proof.
  unfold session_events_where.
  rewrite !andb_true_iff, String.eqb_eq, !nonzero_spec.
  assert (Htypes : match eventTypes options with
                   | Some (ty :: tys) =>
                       existsb (String.eqb (EventRow.event_type r)) (ty :: tys)
                   | _ => true
                   end = true
                   <-> forall tys, eventTypes options = Some tys -> tys <> [] ->
                                   In (EventRow.event_type r) tys).
  { destruct (eventTypes options) as [ [ | ty tys ] | ].
    - split; [ intros _ tys [= <-] Hne; now contradiction Hne | reflexivity ].
    - rewrite List.existsb_exists. split.
      + intros (x & Hx & Heq) tys' [= <-] _. apply String.eqb_eq in Heq.
        now subst x.
      + intros Hin. exists (EventRow.event_type r).
        split; [ now apply Hin | apply String.eqb_refl ].
    - split; [ discriminate | reflexivity ]. }
  rewrite Htypes.
  split.
  - intros (((Hs & Ha) & Hb) & Hc). repeat split; try assumption.
    + intros t Ht Hne. apply Z.leb_le. now apply Ha.
    + intros t Ht Hne. apply Z.leb_le. now apply Hb.
  - intros (Hs & Ha & Hb & Hc). repeat split; try assumption.
    + intros t Ht Hne. apply Z.leb_le. now apply Ha.
    + intros t Ht Hne. apply Z.leb_le. now apply Hb.
Qed.

(** X5.  getSessionEvents returns the stored events of the session that
    pass the time window and the type list, each once, by ascending
    timestamp; no row of another session is returned.  A row passes when
    its timestamp is not before startTime and not after endTime (a bound
    that is left out or 0 does not count) and its type is in eventTypes
    (a list that is left out or empty does not count). *)
Theorem getSessionEvents_sorted_selection (sessionId : string)
    (options : SessionEventsOptions) (s : Store) :
  let rows := List.map row (getSessionEvents sessionId options s) in
  Sorted earlier rows
  /\ (forall r,
        In r rows
        <-> In r (events s)
            /\ EventRow.session_id r = sessionId
            /\ (forall t, eventsStartTime options = Some t -> t <> 0 ->
                          t <= EventRow.timestamp r)
            /\ (forall t, eventsEndTime options = Some t -> t <> 0 ->
                          EventRow.timestamp r <= t)
            /\ (forall tys, eventTypes options = Some tys -> tys <> [] ->
                            In (EventRow.event_type r) tys))
  /\ Permutation rows
       (List.filter
          (fun r =>
             String.eqb (EventRow.session_id r) sessionId
             && match eventsStartTime options with
                | Some t => (t =? 0) || (t <=? EventRow.timestamp r)
                | None => true
                end
             && match eventsEndTime options with
                | Some t => (t =? 0) || (EventRow.timestamp r <=? t)
                | None => true
                end
             && match eventTypes options with
                | Some [] => true
                | Some tys => existsb (String.eqb (EventRow.event_type r)) tys
                | None => true
                end)
          (events s))
  /\ Forall (fun r => EventRow.session_id r = sessionId) rows.
Proof.
  intros rows.
  assert (Hrows : rows
                  = order_asc (List.filter
                                 (session_events_where sessionId options)
                                 (events s))).
  { unfold rows, getSessionEvents. rewrite List.map_map. cbn [row].
    apply List.map_id. }
  assert (Hin : forall r,
             In r rows
             <-> In r (events s)
                 /\ session_events_where sessionId options r = true).
  { intros r. rewrite Hrows. rewrite <- List.filter_In. split.
    - apply (Permutation_in r (order_asc_perm _)).
    - apply (Permutation_in r). symmetry. apply order_asc_perm. }
  split; [ rewrite Hrows; apply order_asc_sorted | ].
  split; [ intros r; rewrite Hin, session_events_where_spec; reflexivity | ].
  split.
  - rewrite Hrows.
    erewrite List.filter_ext; [ apply order_asc_perm | ].
    intros r. unfold session_events_where, nonzero. cbv beta.
    f_equal; [ f_equal; [ f_equal | ] | ].
    + destruct (eventsStartTime options) as [ t | ]; [ | reflexivity ].
      now destruct (t =? 0).
    + destruct (eventsEndTime options) as [ t | ]; [ | reflexivity ].
      now destruct (t =? 0).
    + now destruct (eventTypes options) as [ [ | ty tys ] | ].
  - apply List.Forall_forall. intros r Hr. apply Hin in Hr.
    destruct Hr as (_ & Hw). apply session_events_where_spec in Hw.
    apply Hw.
Qed.

(** X6.  getEventsByType is getSessionEvents restricted to one type, with
    no time window: the two return the same rows in the same order. *)
Theorem getEventsByType_as_getSessionEvents (sessionId eventType : string)
    (includeThinking includeUsage : option bool) (s : Store) :
  getEventsByType sessionId eventType s
  = List.map row
      (getSessionEvents sessionId
         {| MessageArchive.includeThinking := includeThinking;
            MessageArchive.includeUsage := includeUsage;
            eventsStartTime := None; eventsEndTime := None;
            eventTypes := Some [eventType] |} s).
Proof.
  unfold getEventsByType, getSessionEvents. rewrite List.map_map. cbn [row].
  rewrite List.map_id. f_equal. apply List.filter_ext. intros r.
  unfold session_events_where.
  cbn [eventsStartTime eventsEndTime eventTypes nonzero existsb].
  now rewrite !andb_true_r, orb_false_r.
Qed.

(** X7.  What getSessionEvents attaches to a row belongs to it: a thinking
    block only to a thinking_block event and only on request, a usage row
    only to a usage_stats event and unless declined, each with the
    event_id of the row. *)
Theorem getSessionEvents_attachments (sessionId : string)
    (options : SessionEventsOptions) (s : Store) :
  Forall (fun e =>
            match thinking e with
            | Some t =>
                MessageArchive.includeThinking options = Some true
                /\ EventRow.event_type (row e) = "thinking_block"
                /\ ThinkingRow.event_id t = EventRow.event_id (row e)
                /\ In t (thinking_blocks s)
            | None => True
            end
            /\ match usage e with
               | Some u =>
                   MessageArchive.includeUsage options <> Some false
                   /\ EventRow.event_type (row e) = "usage_stats"
                   /\ UsageRow.event_id u = EventRow.event_id (row e)
                   /\ In u (usage_stats s)
               | None => True
               end)
         (getSessionEvents sessionId options s).
Proof.
  unfold getSessionEvents. apply List.Forall_forall. intros e He.
  apply List.in_map_iff in He. destruct He as (r & <- & _). cbn [row thinking usage].
  split.
  - destruct (MessageArchive.includeThinking options) as [ [ | ] | ];
      unfold default, from_option, Datatypes.id; cbn [andb]; try exact I.
    destruct (String.eqb_spec (EventRow.event_type r) "thinking_block");
      [ | exact I ].
    destruct (List.find _ (thinking_blocks s)) as [ t | ] eqn:Hfind;
      [ | exact I ].
    apply List.find_some in Hfind. destruct Hfind as (Hin & Heq).
    apply String.eqb_eq in Heq. auto.
  - destruct (MessageArchive.includeUsage options) as [ [ | ] | ];
      unfold default, from_option, Datatypes.id; cbn [andb]; try exact I.
    all: destruct (String.eqb_spec (EventRow.event_type r) "usage_stats");
      [ | exact I ].
    all: destruct (List.find _ (usage_stats s)) as [ u | ] eqn:Hfind;
      [ | exact I ].
    all: apply List.find_some in Hfind; destruct Hfind as (Hin & Heq).
    all: apply String.eqb_eq in Heq.
    all: repeat split; auto; discriminate.
Qed.

Lemma firstn_short {A} (n : nat) (l : list A) :
  (List.length (List.firstn n l) < n)%nat -> List.firstn n l = l.
Proof.
  rewrite List.length_firstn. intros Hlen. apply List.firstn_all2. lia.
Qed.

Lemma where_clause_spec `{Host} (f : Filters) (r : MessageRow.t) :
  where_clause f r = true
  <-> (forall k, sessionKey f = Some k -> k <> "" ->
                 MessageRow.session_key r = k)
      /\ (forall c, channel f = Some c -> c <> "" -> MessageRow.channel r = c)
      /\ (forall i, senderId f = Some i -> i <> "" ->
                    MessageRow.sender_id r = Some i)
      /\ (forall t, startTime f = Some t -> t <> 0 ->
                    t <= MessageRow.timestamp r)
      /\ (forall t, endTime f = Some t -> t <> 0 ->
                    MessageRow.timestamp r <= t)
      /\ (includeDeleted f <> Some true -> MessageRow.deleted_at r = None)
      /\ (forall q, contentMatch f = Some q -> q <> "" ->
                    fts_match q (MessageRow.content_text r) = true).
Proof.
  unfold where_clause.
  rewrite !andb_true_iff, !nonzero_spec,
    (nonempty_spec (sessionKey f)), (nonempty_spec (channel f)),
    (nonempty_spec (senderId f)), (nonempty_spec (contentMatch f)).
  assert (Hdeleted : (if negb (default false (includeDeleted f))
                      then match MessageRow.deleted_at r with
                           | Some _ => false
                           | None => true
                           end
                      else true) = true
                     <-> (includeDeleted f <> Some true ->
                          MessageRow.deleted_at r = None)).
  { destruct (includeDeleted f) as [ [ | ] | ];
      unfold default, from_option, Datatypes.id; cbn [negb].
    - split; [ intros _ Hne; now contradiction Hne | reflexivity ].
    - destruct (MessageRow.deleted_at r);
        split; try discriminate; try reflexivity.
      intros Hd. now discriminate Hd.
    - destruct (MessageRow.deleted_at r);
        split; try discriminate; try reflexivity.
      intros Hd. now discriminate Hd. }
  rewrite Hdeleted.
  assert (Hsql : forall i, sql_eq (MessageRow.sender_id r) i = true
                           <-> MessageRow.sender_id r = Some i).
  { intros i. unfold sql_eq. destruct (MessageRow.sender_id r) as [ c | ].
    - rewrite String.eqb_eq. split; congruence.
    - split; discriminate. }
  split.
  - intros ((((((Hk & Hc) & Hi) & Hs) & He) & Hd) & Hq).
    repeat split; try assumption.
    + intros k Hk1 Hk2. apply String.eqb_eq. now apply Hk.
    + intros c Hc1 Hc2. apply String.eqb_eq. now apply Hc.
    + intros i Hi1 Hi2. apply Hsql. now apply Hi.
    + intros t Ht1 Ht2. apply Z.leb_le. now apply Hs.
    + intros t Ht1 Ht2. apply Z.leb_le. now apply He.
  - intros (Hk & Hc & Hi & Hs & He & Hd & Hq).
    repeat split; try assumption.
    + intros k Hk1 Hk2. apply String.eqb_eq. now apply Hk.
    + intros c Hc1 Hc2. apply String.eqb_eq. now apply Hc.
    + intros i Hi1 Hi2. apply Hsql. now apply Hi.
    + intros t Ht1 Ht2. apply Z.leb_le. now apply Hs.
    + intros t Ht1 Ht2. apply Z.leb_le. now apply He.
Qed.

(** X8.  A page of queryMessages is ordered by descending timestamp, holds
    only stored messages that pass the filters, and is no longer than the
    limit (100 when none is given) unless the limit is negative; and a
    page that starts at the first row and is not full holds every stored
    message that passes the filters.  A message passes when it has the
    session key, the channel and the sender asked for (a filter that is
    left out or empty does not count), its timestamp is not before
    startTime and not after endTime (a bound that is left out or 0 does
    not count), it is not deleted unless includeDeleted is set, and its
    text matches contentMatch. *)
Theorem queryMessages_page `{Host} (f : Filters) (s : Store) :
  let passes (r : MessageRow.t) : Prop :=
    (forall k, sessionKey f = Some k -> k <> "" ->
               MessageRow.session_key r = k)
    /\ (forall c, channel f = Some c -> c <> "" -> MessageRow.channel r = c)
    /\ (forall i, senderId f = Some i -> i <> "" ->
                  MessageRow.sender_id r = Some i)
    /\ (forall t, startTime f = Some t -> t <> 0 ->
                  t <= MessageRow.timestamp r)
    /\ (forall t, endTime f = Some t -> t <> 0 ->
                  MessageRow.timestamp r <= t)
    /\ (includeDeleted f <> Some true -> MessageRow.deleted_at r = None)
    /\ (forall q, contentMatch f = Some q -> q <> "" ->
                  fts_match q (MessageRow.content_text r) = true) in
  StronglySorted later (queryMessages f s)
  /\ Forall (fun r => In r (messages s) /\ passes r) (queryMessages f s)
  /\ (default 100 (limit f) < 0
      \/ Z.of_nat (List.length (queryMessages f s)) <= default 100 (limit f))
  /\ (default 0 (offset f) <= 0 ->
      default 100 (limit f) < 0
      \/ Z.of_nat (List.length (queryMessages f s)) < default 100 (limit f) ->
      forall r, In r (messages s) -> passes r -> In r (queryMessages f s)).
Proof.
  intros passes. split; [ | split; [ | split ] ].
  - unfold queryMessages, limit_offset.
    assert (Hsorted : StronglySorted later
                        (order_desc (List.filter (where_clause f) (messages s))))
      by (apply Sorted_StronglySorted;
          [ exact later_trans | apply order_desc_sorted ]).
    destruct (default 100 (limit f) <? 0).
    + now apply StronglySorted_skipn.
    + now apply StronglySorted_firstn, StronglySorted_skipn.
  - apply List.Forall_forall. intros r Hr. apply queryMessages_In in Hr.
    destruct Hr as (Hin & Hw). split; [ exact Hin | ].
    now apply where_clause_spec.
  - unfold queryMessages, limit_offset.
    destruct (Z.ltb_spec (default 100 (limit f)) 0); [ now left | right ].
    rewrite List.length_firstn. lia.
  - intros Hoff Hlim r Hin Hpasses.
    apply (where_clause_spec f r) in Hpasses.
    assert (Hall : queryMessages f s
                   = order_desc (List.filter (where_clause f) (messages s))).
    { revert Hlim. unfold queryMessages, limit_offset.
      replace (Z.to_nat (default 0 (offset f))) with 0%nat by lia.
      cbn [List.skipn].
      destruct (Z.ltb_spec (default 100 (limit f)) 0); [ reflexivity | ].
      intros [ Hneg | Hshort ]; [ lia | ].
      change (drop 0 ?l) with l in Hshort.
      apply firstn_short. lia. }
    rewrite Hall. apply order_desc_In, List.filter_In. now split.
Qed.

End Queries.

(* ===================================================================== *)
(** * The export of a session                                             *)
(* ===================================================================== *)

Module ExportFacts.
Import JS Num MessageArchive Orders OrderFacts.





End ExportFacts.

Module SessionExport.
Import JS Num MessageArchive Orders OrderFacts ExportFacts.



End SessionExport.

(* ===================================================================== *)
(** * Inserting messages                                                  *)
(* ===================================================================== *)

Module InsertFacts.
Import JS Num MessageArchive DedupFacts.

Lemma next_rowid_pos (ids : list Z) : 1 <= next_rowid ids.
Proof.
  unfold next_rowid.
  assert (0 <= List.fold_right Z.max 0 ids)
    by (induction ids as [ | i ids IH ]; cbn [List.fold_right]; lia).
  lia.
Qed.

(** The outcomes of [insertMessage]. *)
Lemma insertMessage_outcome (m : Message.t) (skip : option bool) (now : Z)
    (s : Store) (r : option Z) (s1 : Store) :
  insertMessage m skip now s = Ok (r, s1) ->
  match r with
  | Some rowid =>
      1 <= rowid
      /\ exists row, s1 = with_messages s (messages s ++ [row])
                     /\ MessageRow.id row = rowid
  | None => s1 = s
  end.
Proof.
  unfold insertMessage.
  destruct (default true skip && isDuplicate s m).
  { intros [= <- <-]. reflexivity. }
  unfold insert_message_row.
  destruct (Message.message_id m) as [ mid | ]; [ | discriminate ].
  destruct (Message.session_key m); [ | discriminate ].
  destruct (Message.direction m); [ | discriminate ].
  destruct (Message.channel m); [ | discriminate ].
  destruct (Message.timestamp m); [ | discriminate ].
  repeat match goal with
         | |- context [ if ?c then Throw _ else _ ] => destruct c
         end; try discriminate.
  cbn [bind fst snd]. intros [= <- <-].
  split; [ apply next_rowid_pos | ]. eexists. split; reflexivity.
Qed.

Lemma insertBatch_loop_counts (msgs : list Message.t) (now : Z) (s s1 : Store)
    (i k i1 k1 : Z) :
  insertBatch_loop msgs now s i k = Ok (i1, k1, s1) ->
  i <= i1 /\ k <= k1
  /\ (i1 - i) + (k1 - k) = Z.of_nat (List.length msgs)
  /\ (exists rows,
         s1 = with_messages s (messages s ++ rows)
         /\ Z.of_nat (List.length rows) = i1 - i).
Proof.
  revert s i k. induction msgs as [ | m rest IH ]; intros s i k Hloop;
    cbn [insertBatch_loop] in Hloop.
  - injection Hloop as <- <- <-.
    split; [ lia | ]. split; [ lia | ]. split; [ cbn; lia | ].
    exists []. rewrite app_nil_r. split; [ now destruct s | cbn; lia ].
  - destruct (insertMessage m (Some true) now s) as [ [ r s0 ] | ] eqn:Hins;
      cbn [bind fst snd] in Hloop; [ | discriminate ].
    apply insertMessage_outcome in Hins. cbn [List.length].
    destruct r as [ rowId | ].
    + destruct Hins as (Hpos & row & -> & _).
      destruct (Z.eqb_spec rowId 0); [ lia | ].
      apply IH in Hloop. destruct Hloop as (Hi & Hk & Hsum & rows & -> & Hlen).
      split; [ lia | ]. split; [ lia | ]. split; [ lia | ].
      exists (row :: rows). cbn [messages with_messages List.length].
      rewrite <- app_assoc. split; [ reflexivity | lia ].
    + subst s0. apply IH in Hloop.
      destruct Hloop as (Hi & Hk & Hsum & rows & -> & Hlen).
      split; [ lia | ]. split; [ lia | ]. split; [ lia | ].
      exists rows. split; [ reflexivity | lia ].
Qed.

End InsertFacts.

Module Inserts.
Import JS Num MessageArchive DedupFacts InsertFacts.

(** X10.  With skipIfExists left at its default or set, insertMessage
    never fails on the uniqueness of message_id: a message whose id is
    stored is skipped by the duplicate check before the INSERT is tried. *)
Theorem insertMessage_never_unique (m : Message.t) (skip : option bool)
    (now : Z) (s : Store) :
  skip <> Some false ->
  insertMessage m skip now s <> Throw (SqliteError UNIQUE).
Proof.
  intros Hskip. unfold insertMessage.
  assert (Hdefault : default true skip = true)
    by (destruct skip as [ [ | ] | ]; [ reflexivity | congruence | reflexivity ]).
  rewrite Hdefault. cbn [andb].
  destruct (isDuplicate s m) eqn:Hdup; [ discriminate | ].
  rewrite isDuplicate_stages in Hdup.
  apply orb_false_iff in Hdup. destruct Hdup as (Hdup & _).
  apply orb_false_iff in Hdup. destruct Hdup as (Hid & _).
  unfold insert_message_row. unfold byId in Hid.
  destruct (Message.message_id m) as [ mid | ]; [ | discriminate ].
  destruct (Message.session_key m); [ | discriminate ].
  destruct (Message.direction m); [ | discriminate ].
  destruct (Message.channel m); [ | discriminate ].
  destruct (Message.timestamp m); [ | discriminate ].
  rewrite Hid.
  repeat match goal with
         | |- context [ if ?c then Throw _ else _ ] => destruct c
         end; discriminate.
Qed.

Lemma insertMessage_never_unique_witness :
  insertMessage Examples.hello None 9000
    (Examples.store_with [Examples.hello] empty_store)
  <> Throw (SqliteError UNIQUE).
Proof.
  apply (insertMessage_never_unique Examples.hello None 9000
           (Examples.store_with [Examples.hello] empty_store)).
  discriminate.
Defined.

(** X11.  When insertBatch returns, every message of the batch is counted
    once, as inserted or as skipped, and the table has gained exactly the
    inserted rows, after the rows it had; no other table is touched. *)
Theorem insertBatch_accounts (msgs : list Message.t) (now : Z) (s s1 : Store)
    (inserted skipped : Z) :
  insertBatch msgs now s = Ok (inserted, skipped, s1) ->
  0 <= inserted /\ 0 <= skipped
  /\ inserted + skipped = Z.of_nat (List.length msgs)
  /\ exists rows,
       s1 = with_messages s (messages s ++ rows)
       /\ Z.of_nat (List.length rows) = inserted.
Proof.
  unfold insertBatch. intros Hloop.
  apply insertBatch_loop_counts in Hloop.
  destruct Hloop as (Hi & Hk & Hsum & rows & Hrows & Hlen).
  split; [ lia | ]. split; [ lia | ]. split; [ lia | ].
  exists rows. split; [ exact Hrows | lia ].
Qed.

Lemma insertBatch_accounts_witness :
  exists s1,
    insertBatch [Examples.hello; Examples.photo; Examples.hello] 9000
      empty_store = Ok (2, 1, s1)
    /\ exists rows,
         s1 = with_messages empty_store (messages empty_store ++ rows)
         /\ Z.of_nat (List.length rows) = 2.
Proof.
  eexists. split; [ vm_compute; reflexivity | ].
  refine (proj2 (proj2 (proj2
            (insertBatch_accounts
               [Examples.hello; Examples.photo; Examples.hello] 9000
               empty_store _ 2 1 _)))).
  vm_compute. reflexivity.
Defined.

End Inserts.

Module Checkpoints.
Import JS Num MessageArchive DedupFacts InsertFacts ScanFacts.

(** X12.  With foreign keys on, a batch aborts on a reply whose target is
    not archived: when the first message of the batch is new, is complete,
    and names in reply_to_id a message that is neither stored nor itself,
    insertBatch throws the FOREIGN KEY error instead of returning its
    counts, whatever messages follow. *)
Theorem insertBatch_reply_to_missing (m : Message.t) (rest : list Message.t)
    (now : Z) (s : Store) (mid key dir chan target : string) (ts : Z) :
  foreign_keys s = true ->
  isDuplicate s m = false ->
  Message.message_id m = Some mid ->
  Message.session_key m = Some key ->
  Message.direction m = Some dir ->
  dir = "inbound" \/ dir = "outbound" ->
  Message.channel m = Some chan ->
  Message.timestamp m = Some ts ->
  Message.reply_to_id m = Some target ->
  target <> "" -> target <> mid ->
  Forall (fun r => MessageRow.message_id r <> target) (messages s) ->
  insertBatch (m :: rest) now s = Throw (SqliteError FOREIGNKEY).
Proof.
  intros Hfk Hdup Hmid Hkey Hdir Hway Hchan Hts Hreply Hne Hself Hmissing.
  unfold insertBatch. cbn [insertBatch_loop]. unfold insertMessage.
  rewrite Hdup. cbn [andb]. unfold insert_message_row.
  rewrite Hmid, Hkey, Hdir, Hchan, Hts, Hreply, Hfk.
  assert (Hcheck : String.eqb dir "inbound" || String.eqb dir "outbound" = true)
    by (destruct Hway as [ -> | -> ]; reflexivity).
  rewrite Hcheck. cbn [negb].
  rewrite isDuplicate_stages in Hdup.
  apply orb_false_iff in Hdup. destruct Hdup as (Hdup & _).
  apply orb_false_iff in Hdup. destruct Hdup as (Hid & _).
  unfold byId in Hid. rewrite Hmid in Hid. rewrite Hid.
  unfold nonempty.
  destruct (String.eqb_spec target ""); [ contradiction | ].
  destruct (String.eqb_spec target mid); [ contradiction | ].
  assert (Habsent : existsb (fun r => String.eqb (MessageRow.message_id r) target)
                            (messages s) = false).
  { clear - Hmissing. induction Hmissing as [ | r rows Hr _ IH ];
      [ reflexivity | ].
    cbn [existsb]. rewrite IH.
    now destruct (String.eqb_spec (MessageRow.message_id r) target). }
  rewrite Habsent. reflexivity.
Qed.

Lemma insertBatch_reply_to_missing_witness :
  insertBatch
    [MoreExamples.reply "telegram_export_12" "telegram_export_11"; Examples.hello]
    9000 empty_store
  = Throw (SqliteError FOREIGNKEY).
Proof.
  apply (insertBatch_reply_to_missing
           (MoreExamples.reply "telegram_export_12" "telegram_export_11")
           [Examples.hello] 9000 empty_store
           "telegram_export_12" "test:session" "inbound" "test"
           "telegram_export_11" 3000);
    try reflexivity; try discriminate.
  - now left.
  - constructor.
Defined.

(** X13.  A checkpoint that is set is read back as it was set, at any
    later time; the checkpoints under other keys and the tables are as
    before. *)
Theorem checkpoint_set_then_get (key other value : string) (now later : Z)
    (s : Store) :
  other <> key ->
  let s1 := snd (checkpoint key (Some value) now s) in
  checkpoint key None later s1 = (Some value, s1)
  /\ fst (checkpoint other None later s1) = fst (checkpoint other None later s)
  /\ messages s1 = messages s /\ edits s1 = edits s
  /\ events s1 = events s /\ foreign_keys s1 = foreign_keys s.
Proof.
  intros Hother s1. subst s1. cbn [checkpoint snd fst archive_state with_archive_state].
  rewrite lookup_insert_eq, lookup_insert_ne by congruence.
  repeat split.
Qed.

Lemma checkpoint_set_then_get_witness :
  let s1 := snd (checkpoint "last_scan_timestamp" (Some "1770984005000")
                   1770984005000 Examples.chat_store) in
  checkpoint "last_scan_timestamp" None 1770984006000 s1
  = (Some "1770984005000", s1)
  /\ fst (checkpoint ArchiveScan.EVENTS_CHECKPOINT_KEY None 1770984006000 s1)
     = fst (checkpoint ArchiveScan.EVENTS_CHECKPOINT_KEY None 1770984006000
              Examples.chat_store).
Proof.
  intros s1.
  pose proof (checkpoint_set_then_get "last_scan_timestamp"
                ArchiveScan.EVENTS_CHECKPOINT_KEY "1770984005000"
                1770984005000 1770984006000 Examples.chat_store)
    as Hget.
  destruct Hget as (Hread & Hother & _); [ discriminate | ].
  split; [ exact Hread | exact Hother ].
Defined.

(** X14.  Every scan of events leaves its own clock as the watermark,
    whatever the files held and however many of their events failed: the
    scan that follows, when it is not forced, reads that clock back as its
    watermark. *)
Theorem scanEvents_leaves_its_clock `{Host}
    (sessionFiles : list ArchiveScan.SessionFile) (force : bool)
    (now later : Z) (s : Store) :
  let s1 := snd (ArchiveScan.scanEvents sessionFiles force now s) in
  let stored :=
    fst (checkpoint ArchiveScan.EVENTS_CHECKPOINT_KEY None later s1) in
  stored = Some (Number_toString (Some now))
  /\ parseInt (default "0" (nonempty stored)) = Some now.
Proof.
  intros s1 stored.
  assert (Hstored : stored = Some (Number_toString (Some now))).
  { unfold stored, s1, ArchiveScan.scanEvents.
    destruct (List.fold_left _ sessionFiles _) as (stats & s2).
    cbn [checkpoint snd fst archive_state with_archive_state].
    now rewrite lookup_insert_eq. }
  split; [ exact Hstored | ]. rewrite Hstored. cbn [nonempty].
  destruct (String.eqb_spec (Number_toString (Some now)) "") as [ He | _ ];
    [ now apply toString_nonempty in He | ].
  cbn [default]. apply parseInt_toString.
Qed.

End Checkpoints.

(* ===================================================================== *)
(** * The WhatsApp export parser                                          *)
(* ===================================================================== *)

Module WhatsAppFacts.
Import JS Num WhatsAppExportParser WhatsAppMore.

Section Facts.
Context `{Host}.
Variable parseLine : string -> option Parsed.

Lemma heading_set_text (m : Parsed) (t : string) (now : Z) :
  heading (normalizeMessage (set_text m t) now)
  = heading (normalizeMessage m now).
Proof. reflexivity. Qed.

Lemma parseExport_loop_headings (lines : list string)
    (currentMessage : option Parsed) (now : Z) :
  List.map heading (parseExport_loop parseLine lines currentMessage now)
  = List.map (fun p => heading (normalizeMessage p now))
      (match currentMessage with
       | Some m => [m]
       | None => []
       end ++ headers parseLine lines).
Proof.
  revert currentMessage.
  induction lines as [ | line rest IH ]; intros currentMessage;
    cbn [parseExport_loop headers List.flat_map].
  - destruct currentMessage; reflexivity.
  - fold (headers parseLine rest).
    destruct (parseLine line) as [ parsed | ].
    + destruct currentMessage as [ m | ]; cbn [List.map app]; rewrite IH;
        reflexivity.
    + cbn [app]. destruct currentMessage as [ m | ]; [ | apply IH ].
      destruct (negb (EventParser.is_blank line)); rewrite IH;
        cbn [List.map app]; [ | reflexivity ].
      now rewrite heading_set_text.
Qed.

End Facts.
End WhatsAppFacts.

Module WhatsApp.
Import JS Num WhatsAppExportParser WhatsAppMore WhatsAppFacts.

(** X15.  parseExport returns one message for each line that opens a
    message, in the order of the lines: its id, sender, timestamp and
    direction are those of the opening line alone; the lines in between
    (continuations, blank lines, what precedes the first message) add no
    message and change none of these. *)
Theorem parseExport_one_message_per_header `{Host}
    (parseLine : string -> option Parsed) (lines : list string) (now : Z) :
  List.map heading (parseExport parseLine lines now)
  = List.map (fun p => heading (normalizeMessage p now))
      (headers parseLine lines)
  /\ List.length (parseExport parseLine lines now)
     = List.length (headers parseLine lines).
Proof.
  assert (Hmap : List.map heading (parseExport parseLine lines now)
                 = List.map (fun p => heading (normalizeMessage p now))
                     (headers parseLine lines))
    by apply (parseExport_loop_headings parseLine lines None now).
  split; [ exact Hmap | ].
  apply (f_equal (@List.length _)) in Hmap.
  now rewrite !List.length_map in Hmap.
Qed.

End WhatsApp.

(* ===================================================================== *)
(** * Reactions                                                           *)
(* ===================================================================== *)

Module ReactionFacts.
Import JS Num MessageArchive MessageArchiveMore ReactionVocabulary.

Lemma same_reaction_key (messageId emoji userId : string) (r : ReactionRow.t) :
  same_reaction messageId emoji userId r = true
  <-> reaction_key r = (messageId, emoji, userId).
Proof.
  unfold same_reaction, reaction_key. rewrite !andb_true_iff, !String.eqb_eq.
  split; [ intros ((-> & ->) & ->); reflexivity | ].
  intros [= -> -> ->]. auto.
Qed.

Lemma same_reaction_existsb (messageId emoji userId : string)
    (rows : list ReactionRow.t) :
  existsb (same_reaction messageId emoji userId) rows = true
  <-> In (messageId, emoji, userId) (List.map reaction_key rows).
Proof.
  rewrite List.existsb_exists, List.in_map_iff. split.
  - intros (r & Hin & Hsame). exists r. split; [ | exact Hin ].
    now apply same_reaction_key.
  - intros (r & Hkey & Hin). exists r. split; [ exact Hin | ].
    now apply same_reaction_key.
Qed.

(** A key that is unique selects one row. *)
Lemma filter_unique_key (messageId emoji userId : string)
    (rows : list ReactionRow.t) (r : ReactionRow.t) :
  List.NoDup (List.map reaction_key rows) ->
  In r rows -> same_reaction messageId emoji userId r = true ->
  List.filter (same_reaction messageId emoji userId) rows = [r].
Proof.
  intros Hnd Hin Hsame. induction rows as [ | x rows IH ]; [ destruct Hin | ].
  cbn [List.map] in Hnd. apply List.NoDup_cons_iff in Hnd.
  destruct Hnd as (Hnew & Hnd). cbn [List.filter].
  assert (Hnone : forall y, reaction_key y = (messageId, emoji, userId) ->
             ~ In (messageId, emoji, userId) (List.map reaction_key rows) ->
             List.filter (same_reaction messageId emoji userId) rows = []).
  { intros _ _ Hout. clear - Hout. induction rows as [ | z rows IH ];
      [ reflexivity | ].
    cbn [List.filter].
    destruct (same_reaction messageId emoji userId z) eqn:Hz.
    - exfalso. apply Hout. left. now apply same_reaction_key.
    - apply IH. intros Hin. apply Hout. now right. }
  destruct Hin as [ -> | Hin ].
  - rewrite Hsame. f_equal. apply (Hnone r).
    + now apply same_reaction_key.
    + apply same_reaction_key in Hsame. now rewrite <- Hsame.
  - destruct (same_reaction messageId emoji userId x) eqn:Hx.
    + exfalso. apply Hnew. apply same_reaction_key in Hx, Hsame.
      rewrite Hx, <- Hsame. now apply List.in_map.
    + now apply IH.
Qed.

Lemma map_keeps_keys (f : ReactionRow.t -> ReactionRow.t)
    (rows : list ReactionRow.t) :
  (forall r, reaction_key (f r) = reaction_key r) ->
  List.map reaction_key (List.map f rows) = List.map reaction_key rows.
Proof.
  intros Hf. rewrite List.map_map. apply List.map_ext. exact Hf.
Qed.

Lemma filter_map_others (p : ReactionRow.t -> bool)
    (f : ReactionRow.t -> ReactionRow.t) (rows : list ReactionRow.t) :
  (forall r, p (f r) = p r) -> (forall r, p r = false -> f r = r) ->
  List.filter (fun r => negb (p r)) (List.map f rows)
  = List.filter (fun r => negb (p r)) rows.
Proof.
  intros Hp Hf. induction rows as [ | r rows IH ]; [ reflexivity | ].
  cbn [List.map List.filter]. rewrite Hp, IH.
  destruct (p r) eqn:Hr; cbn [negb]; [ reflexivity | ].
  now rewrite (Hf r Hr).
Qed.

Lemma filter_map_same (p : ReactionRow.t -> bool)
    (f : ReactionRow.t -> ReactionRow.t) (rows : list ReactionRow.t) :
  (forall r, p (f r) = p r) ->
  List.filter p (List.map f rows) = List.map f (List.filter p rows).
Proof.
  intros Hp. induction rows as [ | r rows IH ]; [ reflexivity | ].
  cbn [List.map List.filter]. rewrite Hp, IH. now destruct (p r).
Qed.

End ReactionFacts.

Module Reactions.
Import JS Num MessageArchive MessageArchiveMore ReactionVocabulary
  ReactionFacts.

(** X16.  After addReaction returns, the table holds exactly one row for
    the message, emoji and user: it is active and stamped with the clock
    of the call; the rows of other reactions, the other tables and the
    uniqueness of the key are as before. *)
Theorem addReaction_leaves_one_active_row (messageId emoji userId : string)
    (userName : option string) (now : Z) (db db1 : Database) :
  unique_reactions db ->
  addReaction messageId emoji userId userName now db = Ok db1 ->
  unique_reactions db1
  /\ (exists r,
         List.filter (same_reaction messageId emoji userId) (reactions db1) = [r]
         /\ active r = true /\ ReactionRow.added_at r = now)
  /\ List.filter (fun r => negb (same_reaction messageId emoji userId r))
       (reactions db1)
     = List.filter (fun r => negb (same_reaction messageId emoji userId r))
         (reactions db)
  /\ store db1 = store db /\ sessions db1 = sessions db.
Proof.
  intros Hunique. unfold addReaction, unique_reactions in *.
  set (same := same_reaction messageId emoji userId).
  set (f := fun r => if same r then ReactionRow.set_active r now else r).
  assert (Hkey : forall r, reaction_key (f r) = reaction_key r)
    by (intros r; unfold f; now destruct (same r)).
  assert (Hsame : forall r, same (f r) = same r)
    by (intros r; unfold f; destruct (same r) eqn:Hr; [ | exact Hr ];
        exact Hr).
  destruct (existsb same (reactions db)) eqn:Hexists.
  - intros [= <-]. cbn [reactions with_reactions store sessions].
    split; [ now rewrite (map_keeps_keys f _ Hkey) | ].
    split; [ | split; [ | split; reflexivity ] ].
    + apply List.existsb_exists in Hexists.
      destruct Hexists as (r0 & Hin & Hr0).
      exists (ReactionRow.set_active r0 now).
      rewrite (filter_map_same same f _ Hsame).
      pose proof (filter_unique_key _ _ _ _ r0 Hunique Hin Hr0) as Hone.
      fold same in Hone. rewrite Hone.
      cbn [List.map]. unfold f. rewrite Hr0.
      repeat split.
    + apply filter_map_others; [ exact Hsame | ].
      intros r Hr. unfold f. now rewrite Hr.
  - destruct (foreign_keys (store db) && _); [ discriminate | ].
    intros [= <-]. cbn [reactions with_reactions store sessions].
    set (r := {| ReactionRow.id := _; ReactionRow.message_id := messageId |}).
    assert (Hr : same r = true)
      by (unfold same, same_reaction, r; cbn; now rewrite !String.eqb_refl).
    assert (Hnone : List.filter same (reactions db) = []).
    { clear - Hexists. induction (reactions db) as [ | x rows IH ];
        [ reflexivity | ].
      cbn [existsb List.filter] in *. apply orb_false_iff in Hexists.
      destruct Hexists as (-> & Hrest). now apply IH. }
    split; [ | split; [ | split; [ | split; reflexivity ] ] ].
    + rewrite List.map_app. cbn [List.map].
      apply List.NoDup_app; [ exact Hunique | repeat constructor; intros [] | ].
      intros k Hk [ <- | [] ].
      assert (Hin : existsb same (reactions db) = true)
        by (apply same_reaction_existsb; exact Hk).
      congruence.
    + exists r. rewrite List.filter_app, Hnone. cbn [List.filter app].
      rewrite Hr. repeat split.
    + rewrite List.filter_app. cbn [List.filter]. rewrite Hr. cbn [negb].
      now rewrite app_nil_r.
Qed.

Lemma addReaction_leaves_one_active_row_witness :
  exists db1 r,
    addReaction "M" "+1" "user789" (Some "Reactor") 6000
      MoreExamples.archive_of_hello = Ok db1
    /\ List.filter (same_reaction "M" "+1" "user789") (reactions db1) = [r]
    /\ active r = true /\ ReactionRow.added_at r = 6000.
Proof.
  eexists.
  assert (Hadd : addReaction "M" "+1" "user789" (Some "Reactor") 6000
                   MoreExamples.archive_of_hello
                 = Ok MoreExamples.archive_with_reaction)
    by (vm_compute; reflexivity).
  destruct (addReaction_leaves_one_active_row "M" "+1" "user789"
              (Some "Reactor") 6000 MoreExamples.archive_of_hello
              MoreExamples.archive_with_reaction)
    as (_ & (r & Hone & Hactive & Hadded) & _).
  - constructor.
  - exact Hadd.
  - exists r. split; [ exact Hadd | ]. split; [ exact Hone | ].
    split; [ exact Hactive | exact Hadded ].
Defined.

(** X17.  A reaction that is added again keeps its row: the call succeeds
    whether or not the message is still archived, the row keeps its id and
    the user name it was first given, whatever name the call carries, and
    becomes active with the new clock; the table has as many rows as
    before. *)
Theorem addReaction_again_keeps_the_row (messageId emoji userId : string)
    (userName : option string) (now : Z) (db : Database) (r0 : ReactionRow.t) :
  unique_reactions db ->
  In r0 (reactions db) ->
  same_reaction messageId emoji userId r0 = true ->
  exists db1,
    addReaction messageId emoji userId userName now db = Ok db1
    /\ List.filter (same_reaction messageId emoji userId) (reactions db1)
       = [ReactionRow.set_active r0 now]
    /\ ReactionRow.user_name (ReactionRow.set_active r0 now)
       = ReactionRow.user_name r0
    /\ List.length (reactions db1) = List.length (reactions db).
Proof.
  intros Hunique Hin Hr0. unfold addReaction.
  assert (Hexists : existsb (same_reaction messageId emoji userId)
                      (reactions db) = true)
    by (apply List.existsb_exists; eauto).
  rewrite Hexists. eexists. split; [ reflexivity | ].
  cbn [reactions with_reactions].
  set (f := fun r => if same_reaction messageId emoji userId r
                     then ReactionRow.set_active r now else r).
  assert (Hsame : forall r, same_reaction messageId emoji userId (f r)
                            = same_reaction messageId emoji userId r).
  { intros r. unfold f.
    destruct (same_reaction messageId emoji userId r) eqn:Hr; exact Hr. }
  split; [ | split; [ reflexivity | apply List.length_map ] ].
  rewrite (filter_map_same _ f _ Hsame).
  rewrite (filter_unique_key _ _ _ _ r0 Hunique Hin Hr0).
  cbn [List.map]. unfold f. now rewrite Hr0.
Qed.

Lemma addReaction_again_keeps_the_row_witness :
  exists db1 r,
    addReaction "M" "+1" "user789" (Some "Somebody") 7000
      (removeReaction "M" "+1" "user789" 6500
         MoreExamples.archive_with_reaction) = Ok db1
    /\ reactions db1 = [r]
    /\ ReactionRow.user_name r = Some "Reactor"
    /\ active r = true.
Proof.
  destruct (addReaction_again_keeps_the_row "M" "+1" "user789"
              (Some "Somebody") 7000
              (removeReaction "M" "+1" "user789" 6500
                 MoreExamples.archive_with_reaction)
              {| ReactionRow.id := 1; ReactionRow.message_id := "M";
                 ReactionRow.emoji := "+1"; ReactionRow.user_id := "user789";
                 ReactionRow.user_name := Some "Reactor";
                 ReactionRow.added_at := 6000;
                 ReactionRow.removed_at := Some 6500 |})
    as (db1 & Hadd & _).
  - vm_compute. repeat constructor. intros [].
  - vm_compute. now left.
  - reflexivity.
  - exists db1. eexists. split; [ exact Hadd | ].
    vm_compute in Hadd. injection Hadd as <-.
    split; [ reflexivity | ]. split; reflexivity.
Defined.

(** X18.  With foreign keys on, a first reaction to a message that is not
    archived is refused: addReaction throws the FOREIGN KEY error. *)
Theorem addReaction_needs_the_message (messageId emoji userId : string)
    (userName : option string) (now : Z) (db : Database) :
  foreign_keys (store db) = true ->
  Forall (fun m => MessageRow.message_id m <> messageId)
         (messages (store db)) ->
  Forall (fun r => same_reaction messageId emoji userId r = false)
         (reactions db) ->
  addReaction messageId emoji userId userName now db
  = Throw (SqliteError FOREIGNKEY).
Proof.
  intros Hfk Hmessages Hreactions. unfold addReaction.
  assert (Hnone : existsb (same_reaction messageId emoji userId)
                    (reactions db) = false).
  { induction Hreactions as [ | r rows Hr _ IH ]; [ reflexivity | ].
    cbn [existsb]. now rewrite Hr, IH. }
  assert (Habsent : existsb (fun m => String.eqb (MessageRow.message_id m)
                                        messageId)
                      (messages (store db)) = false).
  { induction Hmessages as [ | m rows Hm _ IH ]; [ reflexivity | ].
    cbn [existsb]. rewrite IH.
    now destruct (String.eqb_spec (MessageRow.message_id m) messageId). }
  now rewrite Hnone, Hfk, Habsent.
Qed.

Lemma addReaction_needs_the_message_witness :
  addReaction "Q" "+1" "user789" None 6000 MoreExamples.archive_of_hello
  = Throw (SqliteError FOREIGNKEY).
Proof.
  apply (addReaction_needs_the_message "Q" "+1" "user789" None 6000
           MoreExamples.archive_of_hello).
  - reflexivity.
  - vm_compute. repeat constructor. discriminate.
  - constructor.
Defined.

(** X19.  After removeReaction no row of the message, emoji and user is
    active; the rows of other reactions and the number of rows are as
    before; and a removal is not repeated: a second removeReaction changes
    nothing, so the time of the first removal stays. *)
Theorem removeReaction_deactivates_once (messageId emoji userId : string)
    (now later : Z) (db : Database) :
  let db1 := removeReaction messageId emoji userId now db in
  Forall (fun r => same_reaction messageId emoji userId r = true ->
                   active r = false)
         (reactions db1)
  /\ List.filter (fun r => negb (same_reaction messageId emoji userId r))
       (reactions db1)
     = List.filter (fun r => negb (same_reaction messageId emoji userId r))
         (reactions db)
  /\ List.length (reactions db1) = List.length (reactions db)
  /\ store db1 = store db
  /\ removeReaction messageId emoji userId later db1 = db1.
Proof.
  intros db1. subst db1. unfold removeReaction.
  cbn [reactions with_reactions store sessions].
  set (f := fun r => if same_reaction messageId emoji userId r
                        && match ReactionRow.removed_at r with
                           | None => true
                           | Some _ => false
                           end
                     then ReactionRow.set_removed_at r now else r).
  assert (Hsame : forall r, same_reaction messageId emoji userId (f r)
                            = same_reaction messageId emoji userId r)
    by (intros r; unfold f; now destruct (_ && _)).
  split; [ | split; [ | split; [ | split ] ] ].
  - apply List.Forall_forall. intros r' Hr'.
    apply List.in_map_iff in Hr'. destruct Hr' as (r & <- & _).
    rewrite Hsame. intros Hr. unfold f, active. rewrite Hr. cbn [andb].
    destruct (ReactionRow.removed_at r) eqn:Hrem; [ | reflexivity ].
    now rewrite Hrem.
  - apply filter_map_others; [ exact Hsame | ].
    intros r Hr. unfold f. now rewrite Hr.
  - apply List.length_map.
  - reflexivity.
  - unfold with_reactions. f_equal. rewrite List.map_map.
    apply List.map_ext. intros r. unfold f.
    destruct (same_reaction messageId emoji userId r) eqn:Hr; cbn [andb].
    + destruct (ReactionRow.removed_at r) eqn:Hrem.
      * now rewrite Hr, Hrem.
      * change (same_reaction messageId emoji userId
                  (ReactionRow.set_removed_at r now))
          with (same_reaction messageId emoji userId r).
        now rewrite Hr.
    + now rewrite Hr.
Qed.

End Reactions.

(* ===================================================================== *)
(** * Sessions                                                            *)
(* ===================================================================== *)

Module SessionFacts.
Import JS Num MessageArchive MessageArchiveMore.

Lemma find_app_none {A} (p : A -> bool) (l : list A) (x : A) :
  List.find p l = None -> List.find p (l ++ [x]) = if p x then Some x else None.
Proof.
  induction l as [ | y l IH ]; cbn [List.find app]; [ reflexivity | ].
  destruct (p y); [ discriminate | exact IH ].
Qed.

Lemma find_map_replace (sid : string) (new : SessionRow.t)
    (rows : list SessionRow.t) (old : SessionRow.t) :
  SessionRow.id new = sid ->
  List.find (fun r => String.eqb (SessionRow.id r) sid) rows = Some old ->
  List.find (fun r => String.eqb (SessionRow.id r) sid)
    (List.map (fun r => if String.eqb (SessionRow.id r) sid then new else r)
              rows)
  = Some new.
Proof.
  intros Hnew. induction rows as [ | r rows IH ]; cbn [List.find List.map];
    [ discriminate | ].
  destruct (String.eqb_spec (SessionRow.id r) sid) as [ Hr | Hr ].
  - intros _. now rewrite Hnew, String.eqb_refl.
  - destruct (String.eqb_spec (SessionRow.id r) sid); [ contradiction | ].
    exact IH.
Qed.

Lemma filter_others_map (sid : string) (f : SessionRow.t -> SessionRow.t)
    (rows : list SessionRow.t) :
  (forall r, SessionRow.id (f r) = SessionRow.id r) ->
  (forall r, SessionRow.id r <> sid -> f r = r) ->
  List.filter (fun r => negb (String.eqb (SessionRow.id r) sid))
    (List.map f rows)
  = List.filter (fun r => negb (String.eqb (SessionRow.id r) sid)) rows.
Proof.
  intros Hid Hf. induction rows as [ | r rows IH ]; [ reflexivity | ].
  cbn [List.map List.filter]. rewrite Hid, IH.
  destruct (String.eqb_spec (SessionRow.id r) sid) as [ Hr | Hr ];
    cbn [negb]; [ reflexivity | ].
  now rewrite (Hf r Hr).
Qed.

Lemma session_row_fields (d : SessionData) (created now : Z) (db : Database)
    (row : SessionRow.t) :
  session_row d created now db = Ok row ->
  SessionRow.id row = id d
  /\ title d = Some (SessionRow.title row)
  /\ summary d = Some (SessionRow.summary row)
  /\ type d = Some (SessionRow.type row)
  /\ SessionRow.status row = default "active" (nonempty (status d))
  /\ SessionRow.created_at row = created
  /\ SessionRow.updated_at row = now.
Proof.
  unfold session_row.
  destruct (session_key d); [ | discriminate ].
  destruct (type d); [ | discriminate ].
  destruct (started_at d); [ | discriminate ].
  destruct (title d); [ | discriminate ].
  destruct (summary d); [ | discriminate ].
  repeat match goal with
         | |- context [ if ?c then Throw _ else _ ] => destruct c
         end; try discriminate.
  intros [= <-]. cbn. repeat split.
Qed.

Lemma close_session_closed (first second sessionId : string) (now later : Z)
    (db : Database) :
  first <> "active" ->
  close_session second sessionId later (close_session first sessionId now db)
  = close_session first sessionId now db.
Proof.
  intros Hfirst. unfold close_session. cbn [sessions with_sessions].
  unfold with_sessions. f_equal. rewrite List.map_map.
  apply List.map_ext. intros r.
  destruct (String.eqb_spec (SessionRow.id r) sessionId) as [ Hid | Hid ];
    cbn [andb].
  - destruct (String.eqb_spec (SessionRow.status r) "active") as [ Hst | Hst ].
    + cbn [SessionRow.id SessionRow.status SessionRow.set_status].
      destruct (String.eqb_spec (SessionRow.id r) sessionId);
        [ | contradiction ].
      destruct (String.eqb_spec first "active"); [ contradiction | ].
      reflexivity.
    + destruct (String.eqb_spec (SessionRow.id r) sessionId);
        [ | contradiction ].
      destruct (String.eqb_spec (SessionRow.status r) "active");
        [ contradiction | reflexivity ].
  - destruct (String.eqb_spec (SessionRow.id r) sessionId);
      [ contradiction | reflexivity ].
Qed.

End SessionFacts.

Module Sessions.
Import JS Num MessageArchive MessageArchiveMore SessionFacts.

(** X20.  When upsertSession returns, it says true exactly when the
    session was not stored; getSession then finds the session with the
    title, summary, type and status of the call (active when none is
    given), stamped as updated at the clock of the call, and with the
    created_at of the first insertion; the other sessions and the other
    tables are as before. *)
Theorem upsertSession_then_getSession (d : SessionData) (now : Z)
    (db db1 : Database) (inserted : bool) :
  upsertSession d now db = Ok (inserted, db1) ->
  inserted = match getSession (id d) db with
             | Some _ => false
             | None => true
             end
  /\ (exists row,
         getSession (id d) db1 = Some row
         /\ title d = Some (SessionRow.title row)
         /\ summary d = Some (SessionRow.summary row)
         /\ type d = Some (SessionRow.type row)
         /\ SessionRow.status row = default "active" (nonempty (status d))
         /\ SessionRow.updated_at row = now
         /\ SessionRow.created_at row
            = match getSession (id d) db with
              | Some old => SessionRow.created_at old
              | None => now
              end)
  /\ List.filter (fun r => negb (String.eqb (SessionRow.id r) (id d)))
       (sessions db1)
     = List.filter (fun r => negb (String.eqb (SessionRow.id r) (id d)))
         (sessions db)
  /\ store db1 = store db /\ reactions db1 = reactions db.
Proof.
  unfold upsertSession.
  destruct (getSession (id d) db) as [ old | ] eqn:Hget.
  - destruct (session_row d (SessionRow.created_at old) now db)
      as [ row | ] eqn:Hrow; cbn [bind]; [ | discriminate ].
    intros [= <- <-]. cbn [sessions with_sessions store reactions].
    destruct (session_row_fields _ _ _ _ _ Hrow)
      as (Hid & Htitle & Hsummary & Htype & Hstatus & Hcreated & Hupdated).
    split; [ reflexivity | ]. split; [ | split; [ | split; reflexivity ] ].
    + exists row. unfold getSession in *. cbn [sessions with_sessions].
      rewrite (find_map_replace (id d) row _ old Hid Hget).
      repeat split; assumption.
    + apply filter_others_map.
      * intros r. destruct (String.eqb_spec (SessionRow.id r) (id d));
          congruence.
      * intros r Hr. now destruct (String.eqb_spec (SessionRow.id r) (id d)).
  - destruct (session_row d now now db) as [ row | ] eqn:Hrow; cbn [bind];
      [ | discriminate ].
    intros [= <- <-]. cbn [sessions with_sessions store reactions].
    destruct (session_row_fields _ _ _ _ _ Hrow)
      as (Hid & Htitle & Hsummary & Htype & Hstatus & Hcreated & Hupdated).
    split; [ reflexivity | ]. split; [ | split; [ | split; reflexivity ] ].
    + exists row. unfold getSession in *. cbn [sessions with_sessions].
      rewrite (find_app_none _ _ row Hget), Hid, String.eqb_refl.
      repeat split; assumption.
    + rewrite List.filter_app. cbn [List.filter].
      rewrite Hid, String.eqb_refl. cbn [negb]. apply app_nil_r.
Qed.

Lemma upsertSession_then_getSession_witness :
  exists db1 row,
    upsertSession MoreExamples.session_AAA 1770984009000
      MoreExamples.chat_database = Ok (false, db1)
    /\ getSession "AAA" db1 = Some row
    /\ SessionRow.status row = "active"
    /\ SessionRow.updated_at row = 1770984009000
    /\ SessionRow.created_at row = 1770984007000.
Proof.
  eexists.
  assert (Hup : upsertSession MoreExamples.session_AAA 1770984009000
                  MoreExamples.chat_database
                = Ok (false,
                      match upsertSession MoreExamples.session_AAA
                              1770984009000 MoreExamples.chat_database with
                      | Ok (_, db) => db
                      | Throw _ => empty_database
                      end))
    by (vm_compute; reflexivity).
  destruct (upsertSession_then_getSession _ _ _ _ _ Hup)
    as (_ & (row & Hget & _ & _ & _ & Hstatus & Hupdated & Hcreated) & _).
  exists row. split; [ exact Hup | ]. split; [ exact Hget | ].
  split; [ exact Hstatus | ]. split; [ exact Hupdated | exact Hcreated ].
Defined.

(** X21.  A session is closed once: after completeSession or failSession
    no row of the session is active, and since both change only a session
    that is active, a session that one of them closed keeps its status and
    its updated_at under any later call of either. *)
Theorem session_is_closed_once (sessionId : string) (now later : Z)
    (db : Database) :
  Forall (fun r => SessionRow.id r = sessionId ->
                   SessionRow.status r <> "active")
         (sessions (completeSession sessionId now db))
  /\ Forall (fun r => SessionRow.id r = sessionId ->
                      SessionRow.status r <> "active")
            (sessions (failSession sessionId now db))
  /\ failSession sessionId later (completeSession sessionId now db)
     = completeSession sessionId now db
  /\ completeSession sessionId later (failSession sessionId now db)
     = failSession sessionId now db
  /\ completeSession sessionId later (completeSession sessionId now db)
     = completeSession sessionId now db
  /\ failSession sessionId later (failSession sessionId now db)
     = failSession sessionId now db.
Proof.
  assert (Hclosed : forall final,
             final <> "active" ->
             Forall (fun r => SessionRow.id r = sessionId ->
                              SessionRow.status r <> "active")
                    (sessions (close_session final sessionId now db))).
  { intros final Hfinal. unfold close_session. cbn [sessions with_sessions].
    apply List.Forall_forall. intros r' Hr'.
    apply List.in_map_iff in Hr'. destruct Hr' as (r & <- & _).
    destruct (String.eqb_spec (SessionRow.id r) sessionId) as [ Hid | Hid ];
      cbn [andb].
    - destruct (String.eqb_spec (SessionRow.status r) "active");
        [ intros _; exact Hfinal | now intros _ ].
    - intros Heq. contradiction. }
  unfold completeSession, failSession.
  split; [ apply Hclosed; discriminate | ].
  split; [ apply Hclosed; discriminate | ].
  repeat split; apply close_session_closed; discriminate.
Qed.

(** X22.  updateSessionCounts writes into the row of the session the
    number of its stored events and, of these, the number of message
    events; for a session without stored events the event count is 0 and
    the message count is NULL, not 0.  A session that is not stored is not
    created. *)
Theorem updateSessionCounts_counts (sessionId : string) (now : Z)
    (db : Database) :
  let db1 := updateSessionCounts sessionId now db in
  let own := List.filter
               (fun r => String.eqb (EventRow.session_id r) sessionId)
               (events (store db)) in
  let messages := List.filter
                    (fun r => String.eqb (EventRow.event_type r) "message")
                    own in
  getSession sessionId db1
  = option_map
      (fun row =>
         SessionRow.set_counts row (Some (Z.of_nat (List.length own)))
           (match own with
            | [] => None
            | _ => Some (Z.of_nat (List.length messages))
            end) now)
      (getSession sessionId db)
  /\ (List.length messages <= List.length own)%nat
  /\ List.length (sessions db1) = List.length (sessions db)
  /\ store db1 = store db.
Proof.
  intros db1 own messages. subst db1. unfold updateSessionCounts.
  fold own. fold messages. cbn [sessions with_sessions store].
  split; [ | split; [ apply List.filter_length_le | split;
                      [ apply List.length_map | reflexivity ] ] ].
  unfold getSession. cbn [sessions with_sessions].
  induction (sessions db) as [ | r rows IH ]; [ reflexivity | ].
  cbn [List.map List.find].
  destruct (String.eqb_spec (SessionRow.id r) sessionId) as [ Hid | Hid ].
  - cbn [SessionRow.id SessionRow.set_counts].
    destruct (String.eqb_spec (SessionRow.id r) sessionId);
      [ reflexivity | contradiction ].
  - destruct (String.eqb_spec (SessionRow.id r) sessionId);
      [ contradiction | exact IH ].
Qed.

(** X26.  With foreign keys on, a session whose parent_id names no stored
    session (and not itself) is refused, on insertion and on update alike:
    upsertSession throws the FOREIGN KEY error. *)
Theorem upsertSession_needs_the_parent (d : SessionData) (now : Z)
    (db : Database) (key ty heading overview parent : string) (started : Z) :
  foreign_keys (store db) = true ->
  session_key d = Some key -> type d = Some ty ->
  In ty ["main"; "subagent"; "cron"; "isolated"] ->
  started_at d = Some started ->
  title d = Some heading -> summary d = Some overview ->
  In (default "active" (nonempty (status d)))
     ["active"; "completed"; "failed"] ->
  parent_id d = Some parent -> parent <> "" -> parent <> id d ->
  Forall (fun r => SessionRow.id r <> parent) (sessions db) ->
  upsertSession d now db = Throw (SqliteError FOREIGNKEY).
Proof.
  intros Hfk Hkey Hty Htypes Hstarted Htitle Hsummary Hstatus Hparent Hne
    Hself Hmissing.
  assert (Hrow : forall created,
             session_row d created now db = Throw (SqliteError FOREIGNKEY)).
  { intros created. unfold session_row.
    rewrite Hkey, Hty, Hstarted, Htitle, Hsummary, Hparent, Hfk.
    assert (Hcheck1 : existsb (String.eqb ty)
                        ["main"; "subagent"; "cron"; "isolated"] = true).
    { cbn [In] in Htypes.
      destruct Htypes as [ <- | [ <- | [ <- | [ <- | [] ] ] ] ]; reflexivity. }
    assert (Hcheck2 : existsb (String.eqb (default "active" (nonempty (status d))))
                        ["active"; "completed"; "failed"] = true).
    { cbn [In] in Hstatus.
      destruct Hstatus as [ <- | [ <- | [ <- | [] ] ] ]; reflexivity. }
    rewrite Hcheck1, Hcheck2. cbn [negb nonempty].
    destruct (String.eqb_spec parent ""); [ contradiction | ].
    destruct (String.eqb_spec parent (id d)); [ contradiction | ].
    assert (Habsent : existsb (fun r => String.eqb (SessionRow.id r) parent)
                              (sessions db) = false).
    { clear - Hmissing. induction Hmissing as [ | r rows Hr _ IH ];
        [ reflexivity | ].
      cbn [existsb]. rewrite IH.
      now destruct (String.eqb_spec (SessionRow.id r) parent). }
    rewrite Habsent. reflexivity. }
  unfold upsertSession.
  destruct (getSession (id d) db); now rewrite Hrow.
Qed.

Lemma upsertSession_needs_the_parent_witness :
  upsertSession MoreExamples.session_SUB 1770984011000
    MoreExamples.chat_database
  = Throw (SqliteError FOREIGNKEY).
Proof.
  apply (upsertSession_needs_the_parent MoreExamples.session_SUB 1770984011000
           MoreExamples.chat_database "agent:main:subagent:SUB" "subagent"
           "A subagent" "It runs a task." "event-42" 1770984010000);
    try reflexivity; try discriminate.
  - cbn. auto.
  - cbn. auto.
  - vm_compute. repeat constructor. discriminate.
Defined.

End Sessions.

(* ===================================================================== *)
(** * The session detector                                                *)
(* ===================================================================== *)

Module DetectorFacts.
Import JS Num SessionDetector.

Section Facts.
Context `{Host}.
Variable dirname : string -> string.
Variable existsSync : string -> bool.

Lemma see_counts (seen : Seen) (line : string) :
  let next := see seen line in
  messageCount seen <= messageCount next
  /\ eventCount seen <= eventCount next <= eventCount seen + 1
  /\ messageCount next - messageCount seen
     <= eventCount next - eventCount seen.
Proof.
  unfold see.
  destruct (EventParser.is_blank line); [ cbn; lia | ].
  destruct (JSON_parse line) as [ event | ]; [ | cbn; lia ].
  destruct (prop (Some event) "type") as [ ty | ];
    cbn [messageCount eventCount]; [ | lia ].
  destruct (is_str ty "message"); lia.
Qed.

Lemma see_first (seen : Seen) (line : string) :
  0 <= eventCount seen
  /\ (truthy (firstEvent seen) = true -> 1 <= eventCount seen) ->
  0 <= eventCount (see seen line)
  /\ (truthy (firstEvent (see seen line)) = true ->
      1 <= eventCount (see seen line)).
Proof.
  intros (Hnonneg & Hseen). unfold see.
  destruct (EventParser.is_blank line); [ now split | ].
  destruct (JSON_parse line) as [ event | ]; [ | now split ].
  destruct (prop (Some event) "type") as [ ty | ];
    cbn [eventCount firstEvent]; split; try lia; intros _; lia.
Qed.

Lemma fold_see_first (lines : list string) (seen : Seen) :
  0 <= eventCount seen
  /\ (truthy (firstEvent seen) = true -> 1 <= eventCount seen) ->
  truthy (firstEvent (List.fold_left see lines seen)) = true ->
  1 <= eventCount (List.fold_left see lines seen).
Proof.
  revert seen. induction lines as [ | line rest IH ]; intros seen Hseen;
    cbn [List.fold_left].
  - exact (proj2 Hseen).
  - apply IH. now apply see_first.
Qed.

Lemma fold_see_counts (lines : list string) (seen : Seen) :
  let final := List.fold_left see lines seen in
  0 <= messageCount final - messageCount seen
    <= eventCount final - eventCount seen
  /\ eventCount final - eventCount seen <= Z.of_nat (List.length lines).
Proof.
  revert seen. induction lines as [ | line rest IH ]; intros seen;
    cbn [List.fold_left List.length].
  - lia.
  - specialize (IH (see seen line)). cbv zeta in IH.
    pose proof (see_counts seen line) as Hstep. cbv zeta in Hstep. lia.
Qed.

Lemma fold_see_skips (lines : list string) (seen : Seen) :
  Forall (fun line => EventParser.is_blank line = true
                      \/ JSON_parse line = None) lines ->
  List.fold_left see lines seen = seen.
Proof.
  intros Hall. revert seen.
  induction Hall as [ | line rest Hline _ IH ]; intros seen;
    cbn [List.fold_left]; [ reflexivity | ].
  rewrite <- (IH seen) at 2. f_equal. unfold see.
  destruct Hline as [ -> | Hnone ]; [ reflexivity | ].
  destruct (EventParser.is_blank line); [ reflexivity | ].
  now rewrite Hnone.
Qed.

Lemma classifySession_type (filePath : string) (sessionEvent firstEvent : jsval)
    (c : Classified) :
  classifySession dirname filePath sessionEvent firstEvent = Ok c ->
  In (type c) ["main"; "subagent"; "cron"; "isolated"].
Proof.
  unfold classifySession.
  destruct (WhatsAppExportParser.includes "/cron/runs" (dirname filePath)).
  { destruct (and_prop sessionEvent "label"); cbn [bind]; [ | discriminate ].
    intros [= <-]. cbn. auto. }
  destruct (WhatsAppExportParser.includes "/agents/main/sessions"
              (dirname filePath)); [ | intros [= <-]; cbn; auto ].
  destruct (prop firstEvent "parentId") as [ firstParent | ]; cbn [bind];
    [ | discriminate ].
  destruct (if truthy firstParent then Ok firstParent
            else and_prop sessionEvent "parentId") as [ sessionParent | ];
    cbn [bind]; [ | discriminate ].
  destruct (and_prop sessionEvent "label"); cbn [bind]; [ | discriminate ].
  destruct (truthy sessionParent); intros [= <-]; cbn; auto.
Qed.

Lemma determineStatus_values (filePath : string) (endedAt : option Z) :
  determineStatus existsSync filePath endedAt = "active"
  \/ determineStatus existsSync filePath endedAt = "completed".
Proof.
  unfold determineStatus.
  destruct (existsSync (filePath +:+ ".lock")); [ now left | ].
  destruct (WhatsAppExportParser.includes ".deleted." filePath);
    [ now right | ].
  destruct (MessageArchive.nonzero endedAt); [ now right | now left ].
Qed.

End Facts.
End DetectorFacts.

Module Detector.
Import JS Num SessionDetector DetectorFacts.

(** X23.  What detectSession returns can be stored: its type is main,
    subagent, cron or isolated and its status is active or completed,
    never failed, so the CHECK constraints of the sessions table hold;
    its message count is at most its event count, which is at least 1 and
    at most the number of lines of the file; and its id is the name of the
    file without the .jsonl suffix. *)
Theorem detectSession_describes_a_session `{Host}
    (dirname : string -> string) (existsSync : string -> bool)
    (sessionFilePath : string) (file : option (list string)) (d : Detected) :
  detectSession dirname existsSync sessionFilePath file = Ok d ->
  existsb (String.eqb (session_type d)) ["main"; "subagent"; "cron"; "isolated"]
  = true
  /\ existsb (String.eqb (status d)) ["active"; "completed"; "failed"] = true
  /\ status d <> "failed"
  /\ 0 <= message_count d <= event_count d
  /\ 1 <= event_count d
  /\ (exists lines, file = Some lines
                    /\ event_count d <= Z.of_nat (List.length lines))
  /\ id d = ArchiveScan.basename sessionFilePath ".jsonl".
Proof.
  unfold detectSession. destruct file as [ lines | ]; [ | discriminate ].
  set (seen := List.fold_left see lines nothing_seen).
  destruct (truthy (firstEvent seen)) eqn:Hfirst; cbn [negb];
    [ | discriminate ].
  destruct (classifySession dirname sessionFilePath (sessionEvent seen)
              (firstEvent seen)) as [ c | ] eqn:Hclass; cbn [bind];
    [ | discriminate ].
  destruct (prop (firstEvent seen) "timestamp") as [ firstTs | ]; cbn [bind];
    [ | discriminate ].
  destruct (prop (firstEvent seen) "ts") as [ firstAlt | ]; cbn [bind];
    [ | discriminate ].
  destruct (if truthy (lastEvent seen) then _ else _) as [ lastTimestamp | ];
    cbn [bind]; [ | discriminate ].
  destruct (truthy (or_else firstTs firstAlt)); cbn [negb]; [ | discriminate ].
  destruct (and_prop (modelChangeEvent seen) "modelId") as [ modelId | ];
    cbn [bind]; [ | discriminate ].
  intros [= <-].
  cbn [session_type status message_count event_count id].
  pose proof (classifySession_type dirname _ _ _ _ Hclass) as Htype.
  pose proof (determineStatus_values existsSync sessionFilePath
                (if truthy lastTimestamp then Date_getTime lastTimestamp
                 else None)) as Hstatus.
  pose proof (fold_see_counts lines nothing_seen) as Hcounts.
  cbv zeta in Hcounts. fold seen in Hcounts.
  cbn [messageCount eventCount nothing_seen] in Hcounts.
  assert (Hone : 1 <= eventCount seen).
  { apply fold_see_first; [ | exact Hfirst ].
    cbn. split; [ lia | discriminate ]. }
  split.
  { cbn [In] in Htype.
    destruct Htype as [ <- | [ <- | [ <- | [ <- | [] ] ] ] ]; reflexivity. }
  split; [ destruct Hstatus as [ -> | -> ]; reflexivity | ].
  split; [ destruct Hstatus as [ -> | -> ]; discriminate | ].
  split; [ lia | ]. split; [ exact Hone | ].
  split; [ exists lines; split; [ reflexivity | lia ] | reflexivity ].
Qed.

Lemma detectSession_describes_a_session_witness :
  exists d,
    detectSession (H := Examples.host)
      (fun _ => "/state/agents/main/sessions") (fun _ => false)
      (ArchiveScan.path Examples.chat_file)
      (ArchiveScan.content Examples.chat_file) = Ok d
    /\ session_type d = "main" /\ status d = "completed"
    /\ 0 <= message_count d <= event_count d
    /\ 1 <= event_count d
    /\ id d = "AAA".
Proof.
  eexists. split; [ vm_compute; reflexivity | ].
  split; [ reflexivity | ]. split; [ reflexivity | ].
  set (d := {| id := "AAA"; session_type := "main" |}).
  destruct (detectSession_describes_a_session (H := Examples.host)
              (fun _ => "/state/agents/main/sessions") (fun _ => false)
              (ArchiveScan.path Examples.chat_file)
              (ArchiveScan.content Examples.chat_file) d)
    as (_ & _ & _ & Hcounts & Hone & _ & _).
  - vm_compute. reflexivity.
  - split; [ exact Hcounts | ]. split; [ exact Hone | reflexivity ].
Defined.

(** X24.  A file in which no line is JSON (an empty file, blank lines,
    broken lines) is not a session: detectSession throws the error No
    events found in the file. *)
Theorem detectSession_without_events `{Host}
    (dirname : string -> string) (existsSync : string -> bool)
    (sessionFilePath : string) (lines : list string) :
  Forall (fun line => EventParser.is_blank line = true
                      \/ JSON_parse line = None) lines ->
  detectSession dirname existsSync sessionFilePath (Some lines)
  = Throw (Error ("No events found in " +:+ sessionFilePath)).
Proof.
  intros Hall. unfold detectSession.
  now rewrite (fold_see_skips lines nothing_seen Hall).
Qed.

Lemma detectSession_without_events_witness :
  detectSession (H := Examples.host)
    (fun _ => "/state/agents/main/sessions") (fun _ => false)
    "/state/agents/main/sessions/BBB.jsonl" (Some [""; "   "; "{oops"])
  = Throw (Error "No events found in /state/agents/main/sessions/BBB.jsonl").
Proof.
  apply (detectSession_without_events (H := Examples.host)
           (fun _ => "/state/agents/main/sessions") (fun _ => false)
           "/state/agents/main/sessions/BBB.jsonl" [""; "   "; "{oops"]).
  constructor; [ left; reflexivity | ].
  constructor; [ left; reflexivity | ].
  constructor; [ right; vm_compute; reflexivity | constructor ].
Defined.

End Detector.

(* ===================================================================== *)
(** * The metadata of a parse                                             *)
(* ===================================================================== *)

Module MetadataFacts.
Import JS Num EventParserMore.

Lemma fold_min_le (rest : list Z) (x : Z) :
  List.fold_left Z.min rest x <= x
  /\ Forall (fun t => List.fold_left Z.min rest x <= t) rest.
Proof.
  revert x. induction rest as [ | y rest IH ]; intros x; cbn [List.fold_left].
  - split; [ lia | constructor ].
  - destruct (IH (Z.min x y)) as (Hle & Hall). split; [ lia | ].
    constructor; [ lia | exact Hall ].
Qed.

Lemma fold_max_ge (rest : list Z) (x : Z) :
  x <= List.fold_left Z.max rest x
  /\ Forall (fun t => t <= List.fold_left Z.max rest x) rest.
Proof.
  revert x. induction rest as [ | y rest IH ]; intros x; cbn [List.fold_left].
  - split; [ lia | constructor ].
  - destruct (IH (Z.max x y)) as (Hle & Hall). split; [ lia | ].
    constructor; [ lia | exact Hall ].
Qed.

Lemma in_truthy_timestamps (events : list Event.t) (e : Event.t) (t : Z) :
  In e events -> Event.timestamp e = Some t -> t <> 0 ->
  In t (truthy_timestamps events).
Proof.
  intros Hin Ht Hne. unfold truthy_timestamps. apply in_flat_map.
  exists e. split; [ exact Hin | ]. rewrite Ht. cbn [MessageArchive.nonzero].
  destruct (Z.eqb_spec t 0); [ contradiction | now left ].
Qed.

Lemma truthy_timestamps_nil (events : list Event.t) :
  truthy_timestamps events = [] ->
  Forall (fun e => MessageArchive.nonzero (Event.timestamp e) = None) events.
Proof.
  unfold truthy_timestamps.
  induction events as [ | e rest IH ]; [ constructor | ].
  cbn [List.flat_map].
  destruct (MessageArchive.nonzero (Event.timestamp e)) eqn:He;
    [ discriminate | ].
  intros Hrest. constructor; [ exact He | now apply IH ].
Qed.

Lemma fold_min_in (rest : list Z) (x : Z) :
  In (List.fold_left Z.min rest x) (x :: rest).
Proof.
  revert x. induction rest as [ | y rest IH ]; intros x; cbn [List.fold_left].
  - now left.
  - destruct (IH (Z.min x y)) as [ Hhead | Htail ].
    + rewrite <- Hhead. destruct (Z.min_spec x y) as [ (_ & ->) | (_ & ->) ].
      * now left.
      * right. now left.
    + right. now right.
Qed.

Lemma fold_max_in (rest : list Z) (x : Z) :
  In (List.fold_left Z.max rest x) (x :: rest).
Proof.
  revert x. induction rest as [ | y rest IH ]; intros x; cbn [List.fold_left].
  - now left.
  - destruct (IH (Z.max x y)) as [ Hhead | Htail ].
    + rewrite <- Hhead. destruct (Z.max_spec x y) as [ (_ & ->) | (_ & ->) ].
      * right. now left.
      * now left.
    + right. now right.
Qed.

Lemma truthy_timestamps_in (events : list Event.t) (t : Z) :
  In t (truthy_timestamps events) ->
  exists e, In e events /\ Event.timestamp e = Some t /\ t <> 0.
Proof.
  unfold truthy_timestamps. rewrite in_flat_map.
  intros (e & He & Ht). exists e. split; [ exact He | ].
  unfold MessageArchive.nonzero in Ht.
  destruct (Event.timestamp e) as [ u | ]; [ | contradiction ].
  destruct (Z.eqb_spec u 0) as [ | Hne ]; [ contradiction | ].
  destruct Ht as [ <- | [] ]. now split.
Qed.

End MetadataFacts.

Module SessionMetadata.
Import JS Num EventParserMore MetadataFacts.

(** X25.  extractSessionMetadata returns null exactly when the events hold
    no session event.  Otherwise the session id is that of the first
    session event, event_count is the number of events and bounds the
    numbers of tool calls and of errors; and started_at and ended_at are
    the least and the greatest time value among the events, where time
    values that are NaN or 0 are ignored: each of the two is the time
    value of one of the events, and no counted time value lies below the
    first or above the second.  When every time value is NaN or 0, they
    are Infinity and -Infinity. *)
Theorem extractSessionMetadata_summary (events : list Event.t) :
  match extractSessionMetadata events with
  | None => Forall (fun e => Event.event_type e <> "session") events
  | Some m =>
      (exists before e after,
          events = before ++ e :: after
          /\ Forall (fun x => Event.event_type x <> "session") before
          /\ Event.event_type e = "session"
          /\ session_id m = Event.session_id e)
      /\ event_count m = Z.of_nat (List.length events)
      /\ 0 <= tool_calls m <= event_count m
      /\ 0 <= errors m <= event_count m
      /\ match started_at m, ended_at m with
         | Finite a, Finite b =>
             a <= b
             /\ (exists e, In e events /\ Event.timestamp e = Some a
                           /\ a <> 0)
             /\ (exists e, In e events /\ Event.timestamp e = Some b
                           /\ b <> 0)
             /\ Forall (fun e => forall t, Event.timestamp e = Some t ->
                                           t <> 0 -> a <= t <= b)
                       events
         | Infinity, NegInfinity =>
             Forall (fun e => MessageArchive.nonzero (Event.timestamp e) = None)
                    events
         | _, _ => False
         end
  end.
Proof.
  unfold extractSessionMetadata.
  destruct (List.find (has_type "session") events) as [ sessionEvent | ]
    eqn:Hfind.
  - destruct events as [ | e0 rest ]; [ discriminate Hfind | ].
    set (events := e0 :: rest) in *.
    cbn [session_id event_count tool_calls errors started_at ended_at].
    split.
    { clear - Hfind. induction events as [ | x xs IH ]; [ discriminate | ].
      cbn [List.find] in Hfind. unfold has_type at 1 in Hfind.
      destruct (String.eqb_spec (Event.event_type x) "session") as [ Hx | Hx ].
      - injection Hfind as <-. exists [], x, xs.
        repeat split; [ constructor | exact Hx ].
      - destruct (IH Hfind) as (before & e & after & -> & Hb & He & Hs).
        exists (x :: before), e, after.
        repeat split; [ now constructor | exact He | exact Hs ]. }
    split; [ reflexivity | ].
    split; [ pose proof (List.filter_length_le (has_type "tool_call") events);
             lia | ].
    split; [ pose proof (List.filter_length_le
                           (fun e => negb (Event.is_error e =? 0)) events);
             lia | ].
    destruct (truthy_timestamps events) as [ | t0 ts ] eqn:Hts;
      cbn [Math_min Math_max].
    + now apply truthy_timestamps_nil.
    + destruct (fold_min_le ts t0) as (Hmin0 & Hmin).
      destruct (fold_max_ge ts t0) as (Hmax0 & Hmax).
      split; [ lia | ].
      split; [ apply truthy_timestamps_in; rewrite Hts; apply fold_min_in | ].
      split; [ apply truthy_timestamps_in; rewrite Hts; apply fold_max_in | ].
      apply List.Forall_forall. intros e He t Ht Hne.
      pose proof (in_truthy_timestamps events e t He Ht Hne) as Hin.
      rewrite Hts in Hin. rewrite List.Forall_forall in Hmin, Hmax.
      destruct Hin as [ <- | Hin ]; [ lia | ].
      specialize (Hmin t Hin). specialize (Hmax t Hin). lia.
  - assert (Hnone : Forall (fun e => Event.event_type e <> "session") events).
    { clear - Hfind. induction events as [ | x xs IH ]; [ constructor | ].
      cbn [List.find] in Hfind. unfold has_type at 1 in Hfind.
      destruct (String.eqb_spec (Event.event_type x) "session") as [ Hx | Hx ];
        [ discriminate | ].
      constructor; [ exact Hx | now apply IH ]. }
    now destruct events.
Qed.

End SessionMetadata.

(* ===================================================================== *)
(** * The text of a message                                               *)
(* ===================================================================== *)

Module TextFacts.
Import JS Num SessionParser.

Lemma block_text_throws (block : json) :
  match block_text block with
  | Ok _ => block <> JNull
  | Throw e => e = TypeError /\ block = JNull
  end.
Proof.
  destruct block as [ | b | n | s | xs | fields ]; cbn; try discriminate.
  - split; reflexivity.
  - destruct (is_str (assoc "type" fields) "text"); [ discriminate | ].
    destruct (truthy (assoc "text" fields)); discriminate.
Qed.

Lemma block_texts_throws (blocks : list json) :
  match block_texts blocks with
  | Ok texts => ~ In JNull blocks /\ List.length texts = List.length blocks
  | Throw e => e = TypeError /\ In JNull blocks
  end.
Proof.
  induction blocks as [ | block rest IH ]; cbn [block_texts].
  - split; [ intros [] | reflexivity ].
  - pose proof (block_text_throws block) as Hblock.
    destruct (block_text block) as [ text | e ]; cbn [bind].
    + destruct (block_texts rest) as [ texts | e ]; cbn [bind].
      * destruct IH as (Hnot & Hlen). split; [ | cbn; now rewrite Hlen ].
        intros [ Heq | Hin ]; [ now apply Hblock | now apply Hnot ].
      * destruct IH as (-> & Hin). split; [ reflexivity | now right ].
    + destruct Hblock as (-> & ->). split; [ reflexivity | now left ].
Qed.

Lemma block_texts_of_text_blocks (texts : list string) :
  block_texts
    (List.map (fun s => JObj [("type", JStr "text"); ("text", JStr s)]) texts)
  = Ok (List.map (fun s => Some (JStr s)) texts).
Proof.
  induction texts as [ | s texts IH ]; [ reflexivity | ].
  cbn [List.map block_texts]. rewrite IH. reflexivity.
Qed.

End TextFacts.

Module MessageText.
Import JS Num SessionParser TextFacts.

(** X27.  extractTextContent throws only on a list of blocks that holds
    null, and always then (the TypeError of reading a property of null).
    Otherwise it returns: a string as it is, a list of blocks as a string,
    and the empty string for a number, a boolean, null or undefined. *)
Theorem extractTextContent_outcomes (content : jsval) :
  match extractTextContent content with
  | Throw e =>
      e = TypeError
      /\ exists blocks, content = Some (JArr blocks) /\ In JNull blocks
  | Ok text =>
      match content with
      | Some (JStr _) => text = content
      | Some (JArr blocks) => ~ In JNull blocks /\ exists s, text = Some (JStr s)
      | Some (JObj _) => truthy text = true
      | _ => text = Some (JStr "")
      end
  end.
Proof.
  destruct content as [ [ | b | n | s | blocks | fields ] | ];
    cbn [extractTextContent]; try reflexivity.
  - pose proof (block_texts_throws blocks) as Hblocks.
    destruct (block_texts blocks) as [ texts | e ]; cbn [bind].
    + split; [ exact (proj1 Hblocks) | eexists; reflexivity ].
    + destruct Hblocks as (-> & Hin). split; [ reflexivity | ].
      exists blocks. split; [ reflexivity | exact Hin ].
  - unfold or_else.
    destruct (truthy (assoc "text" fields)) eqn:Htext; [ exact Htext | ].
    destruct (truthy (assoc "content" fields)) eqn:Hcontent;
      [ exact Hcontent | ].
    cbn [truthy stringify]. reflexivity.
Qed.

(** X28.  The text of a list of text blocks (objects of type text with a
    string) is their texts, joined by newlines. *)
Theorem extractTextContent_of_text_blocks (texts : list string) :
  extractTextContent
    (Some (JArr (List.map
                   (fun s => JObj [("type", JStr "text"); ("text", JStr s)])
                   texts)))
  = Ok (Some (JStr (String.concat MessageArchive.newline texts))).
Proof.
  cbn [extractTextContent]. rewrite block_texts_of_text_blocks.
  cbn [bind]. rewrite List.map_map. cbn [joined json_to_string].
  now rewrite List.map_id.
Qed.

End MessageText.
